(** * RAG evaluation engine, retrieval pipeline and chunker

    A shallow embedding of [scripts/ingest_data.py] ([split_text]),
    [app/rag.py] ([RAGService]), [app/chroma_store.py]
    ([query_document_chunks]), [app/main.py] ([send_message]) and
    [scripts/evaluate_rag.py] ([_tokenize], [_safe_mean], [_p95], [_metric],
    [evaluate_and_save]), followed by the properties the specification
    states about them.

    Conventions of the embedding:
    - a Python [str] is a list of code points; the code points are those of
      Latin-1 (one [ascii] each);
    - a Python [int] is a [Z]; [int(b)] of a boolean is [Z.b2z b];
    - a Python [float] is an exact rational [Q]; a quotient is kept in lowest
      terms ([Qred]) so that results compare with [=];
    - a Python [set] of strings is a [gset];
    - [None] is [None]; a dict read with [.get] is a record of options;
    - provider calls, the clock and the vector store are oracles of an
      environment; their calls are logged in an explicit world state, and an
      exception is an error value threaded by a state-and-error monad. *)

From Stdlib Require Import ZArith QArith Qround Lia.
From Stdlib Require Import Ascii String.
From stdpp Require Import gmap strings list sorting.

Local Open Scope Z_scope.

(** ** Python strings *)

Module Py.

Definition str := list ascii.

(** A literal. *)
Definition lit (s : string) : str := list_ascii_of_string s.

Definition len {A} (l : list A) : Z := Z.of_nat (length l).

(** [str.isspace] on one Latin-1 code point. *)
Definition is_space (c : ascii) : bool :=
  let n := nat_of_ascii c in
  ((9 <=? n)%nat && (n <=? 13)%nat)
  || ((28 <=? n)%nat && (n <=? 32)%nat)
  || (n =? 133)%nat || (n =? 160)%nat.

Fixpoint lstrip (s : str) : str :=
  match s with
  | c :: s' => if is_space c then lstrip s' else s
  | [] => []
  end.

Definition rstrip (s : str) : str := rev (lstrip (rev s)).

(** [s.strip()] *)
Definition strip (s : str) : str := rstrip (lstrip s).

(** Truth value of a string: non-empty. *)
Definition truthy (s : str) : bool :=
  match s with [] => false | _ => true end.

(** [str.lower] on one Latin-1 code point: A-Z and the accented capitals
    0xC0-0xDE (0xD7, the multiplication sign, apart) move up by 32. *)
Definition lower_char (c : ascii) : ascii :=
  let n := nat_of_ascii c in
  if ((65 <=? n)%nat && (n <=? 90)%nat)
     || ((192 <=? n)%nat && (n <=? 222)%nat && negb (n =? 215)%nat)
  then ascii_of_nat (n + 32) else c.

Definition lower (s : str) : str := map lower_char s.

(** An index of a slice, brought into [0 .. len]. *)
Definition clip (n i : Z) : Z :=
  if i <? 0 then Z.max 0 (i + n) else Z.min i n.

(** [l[start:stop]] *)
Definition slice {A} (l : list A) (start stop : Z) : list A :=
  let lo := clip (len l) start in
  let hi := clip (len l) stop in
  take (Z.to_nat (hi - lo)) (drop (Z.to_nat lo) l).

(** [l[:stop]] *)
Definition slice_to {A} (l : list A) (stop : Z) : list A := slice l 0 stop.

Fixpoint prefixb (p s : str) : bool :=
  match p, s with
  | [], _ => true
  | a :: p', b :: s' => if decide (a = b) then prefixb p' s' else false
  | _ :: _, [] => false
  end.

(** [p in s] for strings *)
Fixpoint contains (s p : str) : bool :=
  prefixb p s || match s with [] => false | _ :: s' => contains s' p end.

(** [sep.join(parts)] *)
Fixpoint join (sep : str) (parts : list str) : str :=
  match parts with
  | [] => []
  | [p] => p
  | p :: ps => p ++ sep ++ join sep ps
  end.

End Py.

Abbreviation pystr := Py.str.
Notation "'py' s" := (Py.lit s%string) (at level 1, s at level 0, only parsing).

(** ** Chunker: [scripts/ingest_data.py] *)

Module Chunker.

(** The [while] loop of [split_text], from [start] with the [chunks]
    gathered so far.  One unit of fuel is one test of the loop condition;
    [None] means the fuel ran out before the loop ended. *)
Fixpoint split_loop (fuel : nat) (text : pystr) (chunk_size overlap : Z)
    (start : Z) (chunks : list pystr) : option (list pystr) :=
  match fuel with
  | O => None
  | S fuel' =>
      if start <? Py.len text then
        let end_ := Z.min (start + chunk_size) (Py.len text) in
        let chunks := chunks ++ [Py.slice text start end_] in
        if end_ =? Py.len text then Some chunks
        else split_loop fuel' text chunk_size overlap
               (Z.max 0 (end_ - overlap)) chunks
      else Some chunks
  end.

Definition keep_chunk (chunk : pystr) : bool := Py.truthy (Py.strip chunk).

(** [split_text(text, chunk_size, overlap)], run with [fuel]. *)
Definition split_text (fuel : nat) (text : pystr) (chunk_size overlap : Z)
    : option (list pystr) :=
  let text := Py.strip text in
  match split_loop fuel text chunk_size overlap 0 [] with
  | Some chunks => Some (List.filter keep_chunk chunks)
  | None => None
  end.

(** [split_text] returns [r]: some amount of fuel is enough. *)
Definition split_text_returns (text : pystr) (chunk_size overlap : Z)
    (r : list pystr) : Prop :=
  exists fuel, split_text fuel text chunk_size overlap = Some r.

(** The windows the loop cuts, before the whitespace filter. *)
Definition windows_returns (text : pystr) (chunk_size overlap : Z)
    (ws : list pystr) : Prop :=
  exists fuel, split_loop fuel (Py.strip text) chunk_size overlap 0 [] = Some ws.

(** Concatenation with overlap: the first chunk, then every later chunk
    without its first [overlap] characters. *)
Definition rejoin (overlap : Z) (chunks : list pystr) : pystr :=
  match chunks with
  | [] => []
  | c :: cs => c ++ concat (map (drop (Z.to_nat overlap)) cs)
  end.

(** Consecutive chunks share [overlap] characters: the last [overlap]
    characters of one are the first [overlap] characters of the next. *)
Fixpoint shares (overlap : nat) (chunks : list pystr) : Prop :=
  match chunks with
  | a :: ((b :: _) as rest) =>
      (overlap <= length a)%nat /\ (overlap <= length b)%nat
      /\ drop (length a - overlap) a = take overlap b
      /\ shares overlap rest
  | _ => True
  end.

(** What the loop appends when it is entered at [start] with
    [0 <= overlap < chunk_size]: the window at [start] first, and after it
    one window every [chunk_size - overlap] characters. *)
Record windows_from (text : pystr) (c o : Z) (start : Z) (ws : list pystr)
    : Prop := {
  wf_head : exists ws', ws = Py.slice text start (start + c) :: ws';
  wf_rejoin : rejoin o ws = drop (Z.to_nat start) text;
  wf_length : Forall (fun w => Py.len w <= c) ws;
  wf_shares : shares (Z.to_nat o) ws;
  wf_position :
    forall (i : nat) w, ws !! i = Some w ->
      w = Py.slice text (start + Z.of_nat i * (c - o))
                        (start + Z.of_nat i * (c - o) + c);
}.

End Chunker.

(** ** Numbers *)

Module Num.

(** True division [a / b] of two [int]s ([b] is never 0 where it is used). *)
Definition div (a b : Z) : Q := Qred (inject_Z a / inject_Z b).

(** Nearest integer, ties to the even one. *)
Definition round_half_even (x : Q) : Z :=
  let f := Qfloor x in
  match (x - inject_Z f ?= 1 # 2)%Q with
  | Lt => f
  | Gt => f + 1
  | Eq => if Z.even f then f else f + 1
  end.

(** [round(x, ndigits)] for [ndigits >= 0]: a multiple of [10^-ndigits]
    nearest to [x].  Python rounds the double that holds [x]; here the exact
    value is rounded, ties to even.  The two can differ only in which of the
    two nearest multiples is taken where the exact value lies halfway between
    them and the double does not (1/160 at 4 digits), so the properties
    stated of a rounded field are those that hold of either neighbour. *)
Definition round (x : Q) (ndigits : Z) : Q :=
  let p := inject_Z (10 ^ ndigits) in
  Qred (inject_Z (round_half_even (x * p)) / p).

Definition sum (values : list Q) : Q := foldr Qplus 0%Q values.

Definition of_ints (values : list Z) : list Q := map inject_Z values.

#[global] Instance Qle_decision (x y : Q) : Decision (x <= y)%Q :=
  decide (Qnum x * QDen y <= Qnum y * QDen x)%Z.

(** [sorted(values)] *)
Definition sorted (values : list Q) : list Q := merge_sort Qle values.

End Num.

(** ** Scoring helpers: [scripts/evaluate_rag.py], lines 13-39 *)

Definition nl : pystr := [ascii_of_nat 10].

Definition FALLBACK_RESPONSE : pystr :=
  py "I can only answer from the provided PDF documents.".

(** The character class [[a-zA-Z0-9]]. *)
Definition is_alnum (c : ascii) : bool :=
  let n := nat_of_ascii c in
  ((97 <=? n)%nat && (n <=? 122)%nat)
  || ((65 <=? n)%nat && (n <=? 90)%nat)
  || ((48 <=? n)%nat && (n <=? 57)%nat).

(** [re.findall(r"[a-zA-Z0-9]+", s)]: the maximal runs, left to right;
    [cur] is the run being read. *)
Fixpoint findall_alnum (s : pystr) (cur : pystr) : list pystr :=
  match s with
  | [] => if Py.truthy cur then [cur] else []
  | c :: s' =>
      if is_alnum c then findall_alnum s' (cur ++ [c])
      else (if Py.truthy cur then [cur] else []) ++ findall_alnum s' []
  end.

(** [text or ""] *)
Definition or_empty (text : option pystr) : pystr := default [] text.

Definition _tokenize (text : option pystr) : gset pystr :=
  list_to_set (findall_alnum (Py.lower (or_empty text)) []).

Definition _safe_mean (values : list Q) : Q :=
  match values with
  | [] => 0%Q
  | _ => Qred (Num.sum values / inject_Z (Py.len values))
  end.

Definition _p95 (values : list Q) : Q :=
  match values with
  | [] => 0%Q
  | _ =>
      let sorted_values := Num.sorted values in
      let index :=
        Z.max 0 (Z.min (Py.len sorted_values - 1)
                       (Qceiling ((95 # 100) * inject_Z (Py.len sorted_values)) - 1)) in
      nth (Z.to_nat index) sorted_values 0%Q
  end.

Record Metric := {
  metric_key : pystr;
  metric_label : pystr;
  metric_value : Q;
  unit_ : pystr;
  category : pystr;
}.

Definition _metric (metric_key metric_label : pystr) (metric_value : Q)
    (unit_ category : pystr) : Metric :=
  {| metric_key := metric_key; metric_label := metric_label;
     metric_value := metric_value; unit_ := unit_; category := category |}.

(** ** Data model *)

(** A retrieved chunk, as [query_document_chunks] builds it. *)
Record Chunk := {
  source : pystr;
  chunk_text : pystr;
  distance : option Q;
}.

(** A chat message sent to the generation provider. *)
Record Message := {
  role : pystr;
  content : pystr;
}.

(** One row of the ground-truth file; a key that is missing or [null] reads
    as [None]. *)
Record GroundTruthCase := {
  gt_id : option pystr;
  gt_question : option pystr;
  gt_expected_source : option pystr;
  gt_expected_answer_keywords : list pystr;
}.

(** One element of [per_question]. *)
Record EvaluationRecord := {
  id : option pystr;
  question : pystr;
  expected_source : option pystr;
  retrieved_sources : list pystr;
  top_source : option pystr;
  source_rank : option Z;
  hit_at_1 : Z;
  hit_at_3 : Z;
  hit_at_4 : Z;
  answer : pystr;
  answer_non_empty : Z;
  is_refusal : Z;
  is_grounded : Z;
  answer_context_overlap : Q;
  expected_keyword_coverage : Q;
  retrieval_latency_ms : Q;
  generation_latency_ms : Q;
  total_latency_ms : Q;
  context_chars : Z;
  answer_chars : Z;
}.

Record EvaluationReport := {
  generated_at : pystr;
  ground_truth_path : pystr;
  prompt_template_id : pystr;
  top_k : Z;
  total_metrics : Z;
  metrics : list Metric;
  per_question : list EvaluationRecord;
}.

Record PromptTemplate := {
  pt_id : pystr;
  pt_name : pystr;
  pt_template : pystr;
}.

(** ** Effects *)

Inductive exn :=
  | FileNotFoundError (msg : pystr)
  | ValueError (msg : pystr)
  | ProviderError (msg : pystr)
  | HTTPException (status_code : Z) (detail : pystr).

Inductive outcome (A : Type) :=
  | Ok (a : A)
  | Raise (e : exn).
Arguments Ok {A} a.
Arguments Raise {A} e.

(** A message kept by [store.add_message]. *)
Record StoredMessage := {
  sm_role : pystr;
  sm_content : pystr;
  sm_sources : list pystr;
}.

(** What the program has done to the outside so far. *)
Record World := {
  clock_reads : nat;
  embed_calls : list pystr;
  chat_calls : list (list Message);
  stored_messages : list StoredMessage;
  output_file : option EvaluationReport;
}.

Definition initial_world : World :=
  {| clock_reads := 0; embed_calls := []; chat_calls := [];
     stored_messages := []; output_file := None |}.

(** One row of a vector-store answer: the document, its metadata ([None],
    or a dict whose ["source"] may be missing) and its distance. *)
Record QueryRow := {
  qr_document : pystr;
  qr_metadata : option (option pystr);
  qr_distance : option Q;
}.

(** The collaborators: each answers as a function of its input and of the
    number of calls made before. *)
Record Env := {
  perf_counter_at : nat -> Q;
  embeddings_create : nat -> pystr -> outcome (list Q);
  chat_completions_create : nat -> list Message -> outcome (option pystr);
  documents_query : list Q -> Z -> list QueryRow;
  openai_api_key : pystr;
  rag_top_k : Z;
  utc_now_iso : pystr;
  bootstrap_ingest : World -> World * outcome unit;
}.

Definition M (A : Type) : Type := World -> World * outcome A.

Definition ret {A} (a : A) : M A := fun w => (w, Ok a).

Definition raise {A} (e : exn) : M A := fun w => (w, Raise e).

Definition bind {A B} (m : M A) (k : A -> M B) : M B :=
  fun w =>
    match m w with
    | (w', Ok a) => k a w'
    | (w', Raise e) => (w', Raise e)
    end.

Notation "x <- m ;; k" := (bind m (fun x => k))
  (at level 100, m at next level, right associativity).
Notation "m ;;; k" := (bind m (fun _ => k))
  (at level 100, right associativity).

(** [for x in xs: acc = body(acc, x)] *)
Fixpoint for_each {A S} (xs : list A) (body : S -> A -> M S) (acc : S) : M S :=
  match xs with
  | [] => ret acc
  | x :: xs' => acc' <- body acc x ;; for_each xs' body acc'
  end.

(** [time.perf_counter()] *)
Definition perf_counter (env : Env) : M Q :=
  fun w =>
    ({| clock_reads := S (clock_reads w); embed_calls := embed_calls w;
        chat_calls := chat_calls w; stored_messages := stored_messages w;
        output_file := output_file w |},
     Ok (perf_counter_at env (clock_reads w))).

(** ** Vector store: [app/chroma_store.py] *)

(** The three templates [seed_prompt_templates] leaves in the collection. *)
Definition seeded_templates : list PromptTemplate :=
  [ {| pt_id := py "persona_professional"; pt_name := py "Professional Agent";
       pt_template :=
         py "Use a formal and professional call-center tone. "
         ++ py "Give clear, policy-aligned answers from retrieved PDF context only. "
         ++ py "Do not add information outside the PDFs." |};
    {| pt_id := py "persona_empathetic"; pt_name := py "Empathetic Agent";
       pt_template :=
         py "Respond with empathy and reassurance like a customer-care specialist. "
         ++ py "Acknowledge customer concern first, then provide steps from retrieved PDF context only. "
         ++ py "Do not add information outside the PDFs." |};
    {| pt_id := py "persona_resolution"; pt_name := py "Resolution Agent";
       pt_template :=
         py "Focus on fast resolution. Give short step-by-step actions with numbered points. "
         ++ py "Use retrieved PDF context only and avoid extra assumptions." |} ].

(** [store.get_prompt_template(template_id)] on the seeded collection. *)
Definition get_prompt_template (template_id : option pystr) : option PromptTemplate :=
  match template_id with
  | None => None
  | Some tid =>
      if Py.truthy tid
      then List.find (fun t => bool_decide (pt_id t = tid)) seeded_templates
      else None
  end.

(** [store.query_document_chunks(query_embedding, top_k)]; a row of the
    answer is one element of the zip of documents, metadatas and distances. *)
Definition query_document_chunks (env : Env) (query_embedding : list Q) (top_k : Z)
    : list Chunk :=
  map (fun r =>
         {| source :=
              match qr_metadata r with
              | Some (Some s) => s
              | _ => py "unknown.pdf"
              end;
            chunk_text := qr_document r;
            distance := qr_distance r |})
      (documents_query env query_embedding top_k).

(** [store.add_message(...)], as far as the message collection goes. *)
Definition add_message (role content : pystr) (sources : list pystr) : M unit :=
  fun w =>
    ({| clock_reads := clock_reads w; embed_calls := embed_calls w;
        chat_calls := chat_calls w;
        stored_messages :=
          stored_messages w
          ++ [{| sm_role := role; sm_content := content; sm_sources := sources |}];
        output_file := output_file w |},
     Ok tt).

(** [store.list_messages(chat_id)] *)
Definition list_messages : M (list StoredMessage) :=
  fun w => (w, Ok (stored_messages w)).

(** ** Retrieval and generation: [app/rag.py] *)

Module RAGService.

(** [RAGService()] *)
Definition init (env : Env) : M unit :=
  if Py.truthy (openai_api_key env) then ret tt
  else raise (ValueError (py "OPENAI_API_KEY is not configured")).

Definition embed_text (env : Env) (text : pystr) : M (list Q) :=
  fun w =>
    ({| clock_reads := clock_reads w; embed_calls := embed_calls w ++ [text];
        chat_calls := chat_calls w; stored_messages := stored_messages w;
        output_file := output_file w |},
     embeddings_create env (length (embed_calls w)) text).

Definition find_relevant_chunks (env : Env) (query_embedding : list Q) : list Chunk :=
  query_document_chunks env query_embedding (rag_top_k env).

(** [client.chat.completions.create(...)] at temperature 0.2, giving
    [response.choices[0].message.content]. *)
Definition chat_create (env : Env) (messages : list Message) : M (option pystr) :=
  fun w =>
    ({| clock_reads := clock_reads w; embed_calls := embed_calls w;
        chat_calls := chat_calls w ++ [messages];
        stored_messages := stored_messages w; output_file := output_file w |},
     chat_completions_create env (length (chat_calls w)) messages).

Definition base_system_prompt : pystr :=
  py "You are a professional call-center support chatbot. "
  ++ py "You must answer strictly and only from the provided PDF context snippets. "
  ++ py "If the answer is missing in context, reply exactly: "
  ++ py "'I can only answer from the provided PDF documents.'".

Definition generate_answer (env : Env) (user_message : pystr)
    (context_chunks : list Chunk) (history : list Message)
    (prompt_template : option pystr) : M pystr :=
  let context :=
    Py.join (nl ++ nl)
      (map (fun chunk => py "Source: " ++ source chunk ++ nl ++ chunk_text chunk)
           context_chunks) in
  let system_prompt :=
    match prompt_template with
    | Some t =>
        if Py.truthy t
        then base_system_prompt ++ nl ++ nl ++ py "Prompt template:" ++ nl ++ t
        else base_system_prompt
    | None => base_system_prompt
    end in
  let messages :=
    [{| role := py "system"; content := system_prompt |}]
    ++ map (fun msg => {| role := role msg; content := content msg |}) history
    ++ [{| role := py "user";
           content :=
             py "Context:" ++ nl
             ++ (if Py.truthy context then context else py "No relevant context found.")
             ++ nl ++ nl
             ++ py "Important: answer only from context sourced from PDF documents."
             ++ nl ++ nl
             ++ py "Customer question:" ++ nl
             ++ user_message |}] in
  response <- chat_create env messages ;;
  ret (match response with
       | Some c => if Py.truthy c then c else py "I could not generate a response."
       | None => py "I could not generate a response."
       end).

End RAGService.

(** [prompt_template["template"] if prompt_template else None] *)
Definition template_text (prompt_template : option PromptTemplate) : option pystr :=
  match prompt_template with
  | Some t => Some (pt_template t)
  | None => None
  end.

(** ** Interactive pipeline: [send_message] of [app/main.py] *)

(** [a <= b] on strings: code point by code point. *)
Fixpoint str_leb (a b : pystr) : bool :=
  match a, b with
  | [], _ => true
  | _ :: _, [] => false
  | x :: a', y :: b' =>
      if (nat_of_ascii x <? nat_of_ascii y)%nat then true
      else if (nat_of_ascii x =? nat_of_ascii y)%nat then str_leb a' b'
      else false
  end.

Definition str_le (a b : pystr) : Prop := Is_true (str_leb a b).

(** [sorted({item["source"] for item in context_chunks})] *)
Definition sorted_sources (context_chunks : list Chunk) : list pystr :=
  merge_sort str_le (elements (list_to_set (C := gset pystr) (map source context_chunks))).

Record AssistantMessage := {
  am_role : pystr;
  am_content : pystr;
  am_sources : list pystr;
}.

(** The handler after [get_current_user]: [user_id] is the caller,
    [message] and [prompt_template_id] are read from the request body,
    [rag_service_ready] says whether the module-level [RAGService()]
    succeeded, and [chat_owner] is the ["user_id"] of the chat found
    ([None]: no such chat). *)
Definition send_message (env : Env) (user_id : pystr) (message : option pystr)
    (prompt_template_id : option pystr) (rag_service_ready : bool)
    (chat_owner : option pystr) : M (Message * AssistantMessage) :=
  let user_message := Py.strip (or_empty message) in
  let prompt_template_id :=
    let t := Py.strip (or_empty prompt_template_id) in
    if Py.truthy t then Some t else None in
  if negb (Py.truthy user_message)
  then raise (HTTPException 400 (py "Message cannot be empty"))
  else if negb rag_service_ready
  then raise (HTTPException 500 (py "OPENAI_API_KEY is not configured"))
  else if negb (bool_decide (chat_owner = Some user_id))
  then raise (HTTPException 404 (py "Chat not found"))
  else
    add_message (py "user") user_message [] ;;;
    prior_messages <- list_messages ;;
    let history :=
      map (fun m => {| role := sm_role m; content := sm_content m |})
          (Py.slice prior_messages 0 (-1)) in
    let prompt_template := get_prompt_template prompt_template_id in
    query_embedding <- RAGService.embed_text env user_message ;;
    let context_chunks := RAGService.find_relevant_chunks env query_embedding in
    assistant_text <-
      (match context_chunks with
       | [] => ret (py "I can only answer from the provided PDF documents.")
       | _ => RAGService.generate_answer env user_message context_chunks history
                (template_text prompt_template)
       end) ;;
    let sources := sorted_sources context_chunks in
    add_message (py "assistant") assistant_text sources ;;;
    ret ({| role := py "user"; content := user_message |},
         {| am_role := py "assistant"; am_content := assistant_text;
            am_sources := sources |}).

(** ** Evaluation engine: [evaluate_and_save] of [scripts/evaluate_rag.py] *)

(** [list(dict.fromkeys(keys))]: [d] holds the keys inserted so far, in
    insertion order. *)
Fixpoint dict_fromkeys (keys : list pystr) (d : list pystr) : list pystr :=
  match keys with
  | [] => d
  | k :: ks => dict_fromkeys ks (if bool_decide (k ∈ d) then d else d ++ [k])
  end.

(** Truth value of an optional string: [None] and [""] are false. *)
Definition opt_truthy (o : option pystr) : bool :=
  match o with
  | Some s => Py.truthy s
  | None => false
  end.

(** [x in l] for an optional string and a list of strings. *)
Definition opt_in (x : option pystr) (l : list pystr) : bool :=
  match x with
  | Some s => bool_decide (s ∈ l)
  | None => false
  end.

(** [l.index(x)], used only where [x in l] holds. *)
Fixpoint index (x : pystr) (l : list pystr) : Z :=
  match l with
  | [] => 0
  | y :: l' => if bool_decide (y = x) then 0 else 1 + index x l'
  end.

Definition opt_index (x : option pystr) (l : list pystr) : Z :=
  match x with
  | Some s => index s l
  | None => 0
  end.

Section Scoring.

Variable top_k : Z.
Variable expected_source : option pystr.
Variable unique_sources : list pystr.

(** Line 86. *)
Definition top_source_of : option pystr := unique_sources !! 0%nat.

(** Lines 88-90. *)
Definition hit_at_1_of : Z :=
  if opt_truthy expected_source
  then Z.b2z (bool_decide (top_source_of = expected_source)) else 0.

Definition hit_at_3_of : Z :=
  if opt_truthy expected_source
  then Z.b2z (opt_in expected_source (Py.slice_to unique_sources 3)) else 0.

Definition hit_at_4_of : Z :=
  if opt_truthy expected_source
  then Z.b2z (opt_in expected_source (Py.slice_to unique_sources 4)) else 0.

(** Lines 92-97: [rank] and [reciprocal_rank]. *)
Definition rank_of : option Z :=
  if opt_truthy expected_source
     && opt_in expected_source (Py.slice_to unique_sources top_k)
  then Some (opt_index expected_source (Py.slice_to unique_sources top_k) + 1)
  else None.

Definition reciprocal_rank_of : Q :=
  match rank_of with
  | Some rank => Qred (1 / inject_Z rank)
  | None => 0%Q
  end.

(** Lines 130-132. *)
Definition precision_at_k_of : Q :=
  Qred ((if opt_in expected_source (Py.slice_to unique_sources top_k)
         then 1 else 0)
        / inject_Z (Z.max 1 (Z.min top_k (Py.len unique_sources)))).

End Scoring.

Section Grounding.

Variable answer : pystr.
Variable context_text : pystr.
Variable expected_keywords : list pystr.

Definition answer_tokens_of : gset pystr := _tokenize (Some answer).
Definition context_tokens_of : gset pystr := _tokenize (Some context_text).
(** Line 117: [set(expected_keywords)]. *)
Definition expected_tokens_of : gset pystr := list_to_set expected_keywords.

(** Lines 119-124. *)
Definition answer_context_overlap_of : Q :=
  if bool_decide (answer_tokens_of = ∅) then 0%Q
  else Num.div (Z.of_nat (size (answer_tokens_of ∩ context_tokens_of)))
               (Z.of_nat (size answer_tokens_of)).

Definition expected_keyword_coverage_of : Q :=
  if bool_decide (expected_tokens_of = ∅) then 0%Q
  else Num.div (Z.of_nat (size (answer_tokens_of ∩ expected_tokens_of)))
               (Z.of_nat (size expected_tokens_of)).

(** Lines 126-128. *)
Definition grounded_of : Z :=
  if Py.truthy (Py.strip answer)
  then Z.b2z (bool_decide (15 # 100 <= answer_context_overlap_of)%Q) else 0.

Definition refused_of : Z :=
  Z.b2z (Py.contains (Py.lower answer) (Py.lower FALLBACK_RESPONSE)).

Definition answer_non_empty_of : Z := Z.b2z (Py.truthy (Py.strip answer)).

End Grounding.

(** The lists the loop appends to. *)
Record Acc := {
  acc_per_question : list EvaluationRecord;
  acc_retrieval_latencies : list Q;
  acc_generation_latencies : list Q;
  acc_total_latencies : list Q;
  acc_reciprocal_ranks : list Q;
  acc_precision_scores : list Q;
  acc_answer_context_overlaps : list Q;
  acc_expected_keyword_coverages : list Q;
}.

Definition empty_acc : Acc :=
  {| acc_per_question := []; acc_retrieval_latencies := [];
     acc_generation_latencies := []; acc_total_latencies := [];
     acc_reciprocal_ranks := []; acc_precision_scores := [];
     acc_answer_context_overlaps := []; acc_expected_keyword_coverages := [] |}.

(** Lines 73-165: the body of [for row in ground_truth]. *)
Definition evaluate_row (env : Env) (top_k : Z)
    (prompt_template : option PromptTemplate) (acc : Acc) (row : GroundTruthCase)
    : M Acc :=
  let question := Py.strip (or_empty (gt_question row)) in
  let expected_source := gt_expected_source row in
  let expected_keywords := map Py.lower (gt_expected_answer_keywords row) in
  total_start <- perf_counter env ;;
  retrieval_start <- perf_counter env ;;
  query_embedding <- RAGService.embed_text env question ;;
  let retrieved_chunks := RAGService.find_relevant_chunks env query_embedding in
  retrieval_end <- perf_counter env ;;
  let retrieval_ms := ((retrieval_end - retrieval_start) * 1000)%Q in
  let retrieved_sources := map source retrieved_chunks in
  let unique_sources := dict_fromkeys retrieved_sources [] in
  let top_source := top_source_of unique_sources in
  let hit_at_1 := hit_at_1_of expected_source unique_sources in
  let hit_at_3 := hit_at_3_of expected_source unique_sources in
  let hit_at_4 := hit_at_4_of expected_source unique_sources in
  let rank := rank_of top_k expected_source unique_sources in
  let reciprocal_rank := reciprocal_rank_of top_k expected_source unique_sources in
  let context_text := Py.join (nl ++ nl) (map chunk_text retrieved_chunks) in
  generation_start <- perf_counter env ;;
  answer <-
    (match retrieved_chunks with
     | [] => ret FALLBACK_RESPONSE
     | _ => RAGService.generate_answer env question retrieved_chunks []
              (template_text prompt_template)
     end) ;;
  generation_end <- perf_counter env ;;
  let generation_ms := ((generation_end - generation_start) * 1000)%Q in
  total_end <- perf_counter env ;;
  let total_ms := ((total_end - total_start) * 1000)%Q in
  let answer_context_overlap := answer_context_overlap_of answer context_text in
  let expected_keyword_coverage :=
    expected_keyword_coverage_of answer expected_keywords in
  let grounded := grounded_of answer context_text in
  let refused := refused_of answer in
  let answer_non_empty := answer_non_empty_of answer in
  let precision_at_k := precision_at_k_of top_k expected_source unique_sources in
  ret {| acc_retrieval_latencies := acc_retrieval_latencies acc ++ [retrieval_ms];
         acc_generation_latencies := acc_generation_latencies acc ++ [generation_ms];
         acc_total_latencies := acc_total_latencies acc ++ [total_ms];
         acc_reciprocal_ranks := acc_reciprocal_ranks acc ++ [reciprocal_rank];
         acc_precision_scores := acc_precision_scores acc ++ [precision_at_k];
         acc_answer_context_overlaps :=
           acc_answer_context_overlaps acc ++ [answer_context_overlap];
         acc_expected_keyword_coverages :=
           acc_expected_keyword_coverages acc ++ [expected_keyword_coverage];
         acc_per_question :=
           acc_per_question acc
           ++ [{| id := gt_id row;
                  question := question;
                  expected_source := expected_source;
                  retrieved_sources := unique_sources;
                  top_source := top_source;
                  source_rank := rank;
                  hit_at_1 := hit_at_1;
                  hit_at_3 := hit_at_3;
                  hit_at_4 := hit_at_4;
                  answer := answer;
                  answer_non_empty := answer_non_empty;
                  is_refusal := refused;
                  is_grounded := grounded;
                  answer_context_overlap := Num.round answer_context_overlap 4;
                  expected_keyword_coverage := Num.round expected_keyword_coverage 4;
                  retrieval_latency_ms := Num.round retrieval_ms 2;
                  generation_latency_ms := Num.round generation_ms 2;
                  total_latency_ms := Num.round total_ms 2;
                  context_chars := Py.len context_text;
                  answer_chars := Py.len answer |}] |}.

(** Lines 167-211: the metrics, from the lists the loop filled. *)
Definition build_metrics (acc : Acc) : list Metric :=
  let per_question := acc_per_question acc in
  let column (f : EvaluationRecord -> Z) := Num.of_ints (map f per_question) in
  let total_questions := Py.len per_question in
  let hit1 := _safe_mean (column hit_at_1) in
  let hit3 := _safe_mean (column hit_at_3) in
  let hit4 := _safe_mean (column hit_at_4) in
  [ _metric (py "eval_total_questions") (py "Total Questions")
      (inject_Z total_questions) (py "count") (py "overview");
    _metric (py "eval_hit_rate_at_1") (py "Hit Rate @1") hit1 (py "ratio") (py "retrieval");
    _metric (py "eval_hit_rate_at_3") (py "Hit Rate @3") hit3 (py "ratio") (py "retrieval");
    _metric (py "eval_hit_rate_at_4") (py "Hit Rate @4") hit4 (py "ratio") (py "retrieval");
    _metric (py "eval_mrr_at_4") (py "MRR @4")
      (_safe_mean (acc_reciprocal_ranks acc)) (py "ratio") (py "retrieval");
    _metric (py "eval_exact_source_match_rate") (py "Exact Source Match") hit1
      (py "ratio") (py "retrieval");
    _metric (py "eval_source_precision_at_4") (py "Source Precision @4")
      (_safe_mean (acc_precision_scores acc)) (py "ratio") (py "retrieval");
    _metric (py "eval_source_recall_at_4") (py "Source Recall @4") hit4
      (py "ratio") (py "retrieval");
    _metric (py "eval_avg_retrieval_latency_ms") (py "Avg Retrieval Latency")
      (_safe_mean (acc_retrieval_latencies acc)) (py "ms") (py "latency");
    _metric (py "eval_p95_retrieval_latency_ms") (py "P95 Retrieval Latency")
      (_p95 (acc_retrieval_latencies acc)) (py "ms") (py "latency");
    _metric (py "eval_avg_generation_latency_ms") (py "Avg Generation Latency")
      (_safe_mean (acc_generation_latencies acc)) (py "ms") (py "latency");
    _metric (py "eval_p95_generation_latency_ms") (py "P95 Generation Latency")
      (_p95 (acc_generation_latencies acc)) (py "ms") (py "latency");
    _metric (py "eval_avg_total_latency_ms") (py "Avg Total Latency")
      (_safe_mean (acc_total_latencies acc)) (py "ms") (py "latency");
    _metric (py "eval_answer_non_empty_rate") (py "Answer Non-empty Rate")
      (_safe_mean (column answer_non_empty)) (py "ratio") (py "generation");
    _metric (py "eval_refusal_rate") (py "Refusal Rate")
      (_safe_mean (column is_refusal)) (py "ratio") (py "generation");
    _metric (py "eval_grounded_answer_rate") (py "Grounded Answer Rate")
      (_safe_mean (column is_grounded)) (py "ratio") (py "generation");
    _metric (py "eval_avg_answer_context_overlap") (py "Avg Answer-Context Overlap")
      (_safe_mean (acc_answer_context_overlaps acc)) (py "ratio") (py "generation");
    _metric (py "eval_avg_expected_keyword_coverage") (py "Avg Expected Keyword Coverage")
      (_safe_mean (acc_expected_keyword_coverages acc)) (py "ratio") (py "generation");
    _metric (py "eval_avg_context_chars") (py "Avg Context Chars")
      (_safe_mean (column context_chars)) (py "count") (py "context");
    _metric (py "eval_avg_answer_chars") (py "Avg Answer Chars")
      (_safe_mean (column answer_chars)) (py "count") (py "context") ].

(** Lines 223-225: the report replaces whatever the output file held. *)
Definition write_report (report : EvaluationReport) : M unit :=
  fun w =>
    ({| clock_reads := clock_reads w; embed_calls := embed_calls w;
        chat_calls := chat_calls w; stored_messages := stored_messages w;
        output_file := Some report |},
     Ok tt).

(** [evaluate_and_save(ground_truth_path, output_path, top_k,
    prompt_template_id)].  [ground_truth_file] is what the ground-truth path
    holds ([None]: no such file); the bootstrap of lines 51-55 (seeding the
    templates, ingesting when the collection is empty) is the environment's
    [bootstrap_ingest]. *)
Definition evaluate_and_save (env : Env) (ground_truth_path : pystr)
    (ground_truth_file : option (list GroundTruthCase)) (top_k : Z)
    (prompt_template_id : pystr) : M EvaluationReport :=
  match ground_truth_file with
  | None => raise (FileNotFoundError (py "Ground truth file not found: " ++ ground_truth_path))
  | Some ground_truth =>
      bootstrap_ingest env ;;;
      RAGService.init env ;;;
      let prompt_template := get_prompt_template (Some prompt_template_id) in
      acc <- for_each ground_truth (evaluate_row env top_k prompt_template) empty_acc ;;
      let metrics := build_metrics acc in
      let report :=
        {| generated_at := utc_now_iso env;
           ground_truth_path := ground_truth_path;
           prompt_template_id := prompt_template_id;
           top_k := top_k;
           total_metrics := Py.len metrics;
           metrics := metrics;
           per_question := acc_per_question acc |} in
      write_report report ;;;
      ret report
  end.

(** ** Alphanumeric runs

    [t] is a maximal run of [[a-zA-Z0-9]] characters of [s]: it is not
    empty, and the characters next to it, if any, are not in the class. *)
Definition not_alnum_at (c : option ascii) : Prop :=
  forall x, c = Some x -> is_alnum x = false.

Definition alnum_run (s t : pystr) : Prop :=
  exists pre post,
    s = pre ++ t ++ post
    /\ t <> []
    /\ Forall (fun c => is_alnum c = true) t
    /\ not_alnum_at (last pre)
    /\ not_alnum_at (head post).

(** ** What one round of the loop leaves behind

    The local variables of the loop body, as functions of the row and of
    what the collaborators returned. *)

Definition row_question (row : GroundTruthCase) : pystr :=
  Py.strip (or_empty (gt_question row)).

Definition unique_sources_of (retrieved_chunks : list Chunk) : list pystr :=
  dict_fromkeys (map source retrieved_chunks) [].

Definition context_text_of (retrieved_chunks : list Chunk) : pystr :=
  Py.join (nl ++ nl) (map chunk_text retrieved_chunks).

Definition expected_keywords_of (row : GroundTruthCase) : list pystr :=
  map Py.lower (gt_expected_answer_keywords row).

(** A round that ended normally: [emb] is the embedding of the question,
    [ans] the answer, [rec] the record appended to [per_question]. *)
Record row_ok (env : Env) (top_k : Z) (acc : Acc) (row : GroundTruthCase)
    (w w' : World) (acc' : Acc)
    (emb : list Q) (ans : pystr) (rec : EvaluationRecord) : Prop := {
  ro_embedded :
    embeddings_create env (length (embed_calls w)) (row_question row) = Ok emb;
  ro_embed_calls : embed_calls w' = embed_calls w ++ [row_question row];
  ro_no_chunks :
    RAGService.find_relevant_chunks env emb = [] ->
    ans = FALLBACK_RESPONSE /\ chat_calls w' = chat_calls w;
  ro_some_chunks :
    RAGService.find_relevant_chunks env emb <> [] ->
    exists messages response,
      chat_calls w' = chat_calls w ++ [messages]
      /\ chat_completions_create env (length (chat_calls w)) messages = Ok response;
  ro_output_file : output_file w' = output_file w;
  ro_per_question : acc_per_question acc' = acc_per_question acc ++ [rec];
  ro_id : id rec = gt_id row;
  ro_question : question rec = row_question row;
  ro_expected_source : expected_source rec = gt_expected_source row;
  ro_retrieved_sources :
    retrieved_sources rec
    = unique_sources_of (RAGService.find_relevant_chunks env emb);
  ro_top_source : top_source rec = top_source_of (retrieved_sources rec);
  ro_source_rank :
    source_rank rec = rank_of top_k (expected_source rec) (retrieved_sources rec);
  ro_hit_at_1 : hit_at_1 rec = hit_at_1_of (expected_source rec) (retrieved_sources rec);
  ro_hit_at_3 : hit_at_3 rec = hit_at_3_of (expected_source rec) (retrieved_sources rec);
  ro_hit_at_4 : hit_at_4 rec = hit_at_4_of (expected_source rec) (retrieved_sources rec);
  ro_answer : answer rec = ans;
  ro_answer_non_empty : answer_non_empty rec = answer_non_empty_of ans;
  ro_is_refusal : is_refusal rec = refused_of ans;
  ro_is_grounded :
    is_grounded rec
    = grounded_of ans (context_text_of (RAGService.find_relevant_chunks env emb));
  ro_answer_context_overlap :
    answer_context_overlap rec
    = Num.round
        (answer_context_overlap_of ans
           (context_text_of (RAGService.find_relevant_chunks env emb))) 4;
  ro_expected_keyword_coverage :
    expected_keyword_coverage rec
    = Num.round (expected_keyword_coverage_of ans (expected_keywords_of row)) 4;
  ro_context_chars :
    context_chars rec
    = Py.len (context_text_of (RAGService.find_relevant_chunks env emb));
  ro_answer_chars : answer_chars rec = Py.len ans;
  ro_reciprocal_ranks :
    acc_reciprocal_ranks acc'
    = acc_reciprocal_ranks acc
      ++ [reciprocal_rank_of top_k (expected_source rec) (retrieved_sources rec)];
  ro_precision_scores :
    acc_precision_scores acc'
    = acc_precision_scores acc
      ++ [precision_at_k_of top_k (expected_source rec) (retrieved_sources rec)];
  ro_answer_context_overlaps :
    acc_answer_context_overlaps acc'
    = acc_answer_context_overlaps acc
      ++ [answer_context_overlap_of ans
            (context_text_of (RAGService.find_relevant_chunks env emb))];
  ro_expected_keyword_coverages :
    acc_expected_keyword_coverages acc'
    = acc_expected_keyword_coverages acc
      ++ [expected_keyword_coverage_of ans (expected_keywords_of row)];
}.

(** [rec] is the record some normal round of the loop appended for [row]. *)
Definition row_record (env : Env) (top_k : Z) (row : GroundTruthCase)
    (rec : EvaluationRecord) : Prop :=
  exists acc w w' acc' emb ans, row_ok env top_k acc row w w' acc' emb ans rec.

(** The per-question precision score, read off a record. *)
Definition precision_of_record (top_k : Z) (rec : EvaluationRecord) : Q :=
  precision_at_k_of top_k (expected_source rec) (retrieved_sources rec).

Definition reciprocal_rank_of_record (top_k : Z) (rec : EvaluationRecord) : Q :=
  reciprocal_rank_of top_k (expected_source rec) (retrieved_sources rec).

(** ** A small deployment to run the engine on

    One PDF, [policy.pdf], cut into two chunks; the embedding of a question
    is its length; an empty question retrieves nothing; the generation
    provider answers with one sentence, except that its call number
    [fail_at] (counted from 0), if any, fails. *)

Definition demo_rows : list QueryRow :=
  [ {| qr_document := py "Refunds are accepted within 30 days";
       qr_metadata := Some (Some (py "data/policy.pdf"));
       qr_distance := Some (1 # 10)%Q |};
    {| qr_document := py "Contact support by email";
       qr_metadata := Some (Some (py "data/policy.pdf"));
       qr_distance := Some (3 # 10)%Q |} ].

Definition demo_env (fail_at : option nat) : Env :=
  {| perf_counter_at := fun n => (Z.of_nat n # 1000)%Q;
     embeddings_create := fun _ text => Ok [inject_Z (Py.len text)];
     chat_completions_create :=
       fun n _ =>
         if bool_decide (fail_at = Some n)
         then Raise (ProviderError (py "generation backend unavailable"))
         else Ok (Some (py "Refunds are accepted within 30 days."));
     documents_query :=
       fun query_embedding k =>
         match query_embedding with
         | [x] => if Qeq_bool x 0 then [] else Py.slice_to demo_rows k
         | _ => Py.slice_to demo_rows k
         end;
     openai_api_key := py "sk-test";
     rag_top_k := 4;
     utc_now_iso := py "2024-01-01T00:00:00+00:00";
     bootstrap_ingest := fun w => (w, Ok tt) |}.

Definition demo_case (i q : string) (keywords : list pystr) : GroundTruthCase :=
  {| gt_id := Some (py i); gt_question := Some (py q);
     gt_expected_source := Some (py "data/policy.pdf");
     gt_expected_answer_keywords := keywords |}.

Definition demo_ground_truth : list GroundTruthCase :=
  [ demo_case "q1" "What is the refund window?" [py "30"; py "days"];
    demo_case "q2" "How do I contact support?" [py "30 days"];
    demo_case "q3" "" [py "Email"] ].

(** The report of a run, when there is one. *)
Definition report_of (run : World * outcome EvaluationReport)
    : option EvaluationReport :=
  match run with
  | (_, Ok report) => Some report
  | (_, Raise _) => None
  end.

Definition demo_template : option PromptTemplate :=
  get_prompt_template (Some (py "persona_professional")).

(** One round of the loop on the demo deployment, from a fresh world. *)
Definition demo_round (row : GroundTruthCase) : World * outcome Acc :=
  evaluate_row (demo_env None) 4 demo_template empty_acc row initial_world.

Definition acc_of (run : World * outcome Acc) : Acc :=
  match run with
  | (_, Ok acc) => acc
  | (_, Raise _) => empty_acc
  end.

(** A whole run on the demo deployment. *)
Definition demo_run (fail_at : option nat) : World * outcome EvaluationReport :=
  evaluate_and_save (demo_env fail_at) (py "eval/ground_truth_rag.json")
    (Some demo_ground_truth) 4 (py "persona_professional") initial_world.

Definition empty_report : EvaluationReport :=
  {| generated_at := []; ground_truth_path := []; prompt_template_id := [];
     top_k := 0; total_metrics := 0; metrics := []; per_question := [] |}.

Definition report_or_empty (run : World * outcome EvaluationReport)
    : EvaluationReport :=
  default empty_report (report_of run).

(** The keys, units and categories of the metrics, in report order. *)
Definition metric_contract : list (pystr * pystr * pystr) :=
  [ (py "eval_total_questions", py "count", py "overview");
    (py "eval_hit_rate_at_1", py "ratio", py "retrieval");
    (py "eval_hit_rate_at_3", py "ratio", py "retrieval");
    (py "eval_hit_rate_at_4", py "ratio", py "retrieval");
    (py "eval_mrr_at_4", py "ratio", py "retrieval");
    (py "eval_exact_source_match_rate", py "ratio", py "retrieval");
    (py "eval_source_precision_at_4", py "ratio", py "retrieval");
    (py "eval_source_recall_at_4", py "ratio", py "retrieval");
    (py "eval_avg_retrieval_latency_ms", py "ms", py "latency");
    (py "eval_p95_retrieval_latency_ms", py "ms", py "latency");
    (py "eval_avg_generation_latency_ms", py "ms", py "latency");
    (py "eval_p95_generation_latency_ms", py "ms", py "latency");
    (py "eval_avg_total_latency_ms", py "ms", py "latency");
    (py "eval_answer_non_empty_rate", py "ratio", py "generation");
    (py "eval_refusal_rate", py "ratio", py "generation");
    (py "eval_grounded_answer_rate", py "ratio", py "generation");
    (py "eval_avg_answer_context_overlap", py "ratio", py "generation");
    (py "eval_avg_expected_keyword_coverage", py "ratio", py "generation");
    (py "eval_avg_context_chars", py "count", py "context");
    (py "eval_avg_answer_chars", py "count", py "context") ].

(** * Properties *)

(** ** Python strings and slices *)

Section SliceFacts.

Context {A : Type}.
Implicit Types l : list A.

Lemma len_nonneg l : 0 <= Py.len l.
Proof. unfold Py.len. lia. Qed.

Lemma len_nil_iff l : Py.len l = 0 <-> l = [].
Proof.
  unfold Py.len. destruct l; simpl; split; intros H; try done; lia.
Qed.

(** A slice whose start lies inside the list. *)
Lemma slice_inside l (s e : Z) :
  0 <= s <= Py.len l -> s <= e ->
  Py.slice l s e
  = take (Z.to_nat (Z.min e (Py.len l) - s)) (drop (Z.to_nat s) l).
Proof.
  intros Hs He. unfold Py.slice, Py.clip.
  destruct (Z.ltb_spec s 0); [lia |].
  destruct (Z.ltb_spec e 0); [lia |].
  replace (Z.min s (Py.len l)) with s by lia. reflexivity.
Qed.

(** [l[:k]] for a count [k]. *)
Lemma slice_to_take l (k : Z) :
  0 <= k -> Py.slice_to l k = take (Z.to_nat k) l.
Proof.
  intros Hk. unfold Py.slice_to.
  rewrite slice_inside by (pose proof (len_nonneg l); lia).
  simpl. rewrite Z.sub_0_r.
  destruct (Z.le_ge_cases k (Py.len l)).
  - by replace (Z.min k (Py.len l)) with k by lia.
  - replace (Z.min k (Py.len l)) with (Py.len l) by lia.
    unfold Py.len in *.
    rewrite !take_ge; [done | lia | rewrite length_drop; lia].
Qed.

End SliceFacts.

(** ** Chunker *)

Module ChunkerFacts.
Import Chunker.

(** More fuel never changes a result. *)
Lemma split_loop_fuel_mono fuel fuel' text c o start chunks r :
  split_loop fuel text c o start chunks = Some r ->
  (fuel <= fuel')%nat ->
  split_loop fuel' text c o start chunks = Some r.
Proof.
  revert fuel' start chunks.
  induction fuel as [| fuel IH]; intros fuel' start chunks Hr Hle; [done |].
  destruct fuel' as [| fuel']; [lia |].
  simpl in *.
  destruct (start <? Py.len text); [| done].
  destruct (_ =? _); [done |].
  apply IH; [done | lia].
Qed.

Lemma split_loop_deterministic f1 f2 text c o start chunks r1 r2 :
  split_loop f1 text c o start chunks = Some r1 ->
  split_loop f2 text c o start chunks = Some r2 ->
  r1 = r2.
Proof.
  intros H1 H2.
  apply split_loop_fuel_mono with (fuel' := (f1 `max` f2)%nat) in H1; [| lia].
  apply split_loop_fuel_mono with (fuel' := (f1 `max` f2)%nat) in H2; [| lia].
  congruence.
Qed.

Lemma split_text_deterministic text c o r1 r2 :
  split_text_returns text c o r1 -> split_text_returns text c o r2 -> r1 = r2.
Proof.
  intros [f1 H1] [f2 H2]. unfold split_text in *.
  destruct (split_loop f1 _ _ _ _ _) as [w1 |] eqn:E1; [| done].
  destruct (split_loop f2 _ _ _ _ _) as [w2 |] eqn:E2; [| done].
  rewrite (split_loop_deterministic _ _ _ _ _ _ _ _ _ E1 E2) in H1.
  congruence.
Qed.

(** With [overlap >= chunk_size] and a text longer than [chunk_size], the
    next start is 0 again: the loop never ends. *)
Lemma split_loop_stuck text c o :
  o >= c -> c < Py.len text -> 0 < Py.len text ->
  forall fuel chunks, split_loop fuel text c o 0 chunks = None.
Proof.
  intros Ho Hc Hn.
  induction fuel as [| fuel IH]; intros chunks; [done |].
  simpl.
  destruct (Z.ltb_spec 0 (Py.len text)) as [Hlt | Hge]; [| lia].
  rewrite Z.add_0_l.
  replace (Z.min c (Py.len text)) with c by lia.
  destruct (Z.eqb_spec c (Py.len text)); [lia |].
  replace (Z.max 0 (c - o)) with 0 by lia.
  apply IH.
Qed.

(** With [overlap < chunk_size] every round moves [start] forward, so the
    loop ends within [len(text) + 1] tests of its condition. *)
Lemma split_loop_terminates text c o :
  o < c ->
  forall fuel start chunks,
    0 <= start -> (Z.to_nat (Py.len text - start) < fuel)%nat ->
    exists r, split_loop fuel text c o start chunks = Some r.
Proof.
  intros Hoc.
  induction fuel as [| fuel IH]; intros start chunks Hs Hf; [lia |].
  simpl.
  destruct (Z.ltb_spec start (Py.len text)) as [Hlt | Hge]; [| eauto].
  destruct (Z.eqb_spec (Z.min (start + c) (Py.len text)) (Py.len text)); [eauto |].
  apply IH; lia.
Qed.

Section Windows.

Variable text : pystr.
Variables c o : Z.
Hypothesis overlap_nonneg : 0 <= o.
Hypothesis overlap_lt_chunk : o < c.

Lemma window_length start :
  0 <= start <= Py.len text ->
  length (Py.slice text start (start + c))
  = Z.to_nat (Z.min c (Py.len text - start)).
Proof.
  intros Hs. rewrite slice_inside by lia.
  rewrite length_take, length_drop. unfold Py.len in *. lia.
Qed.

Lemma split_loop_windows :
  forall fuel start chunks,
    0 <= start < Py.len text ->
    (Z.to_nat (Py.len text - start) <= fuel)%nat ->
    exists ws,
      split_loop fuel text c o start chunks = Some (chunks ++ ws)
      /\ windows_from text c o start ws.
Proof.
  induction fuel as [| fuel IH]; intros start chunks Hs Hf; [lia |].
  simpl.
  destruct (Z.ltb_spec start (Py.len text)) as [_ | Hge]; [| lia].
  assert (Hw : Py.slice text start (Z.min (start + c) (Py.len text))
               = Py.slice text start (start + c)).
  { rewrite !slice_inside by lia. f_equal. lia. }
  rewrite Hw.
  destruct (Z.eqb_spec (Z.min (start + c) (Py.len text)) (Py.len text))
    as [Hend | Hend].
  - (* this window reaches the end of the text *)
    exists [Py.slice text start (start + c)]. split; [done |].
    assert (Hall : Py.slice text start (start + c) = drop (Z.to_nat start) text).
    { rewrite slice_inside by lia. apply take_ge.
      rewrite length_drop. unfold Py.len in *. lia. }
    split.
    + by exists [].
    + simpl. by rewrite app_nil_r.
    + constructor; [| constructor].
      unfold Py.len. rewrite window_length by lia. lia.
    + exact I.
    + intros [| i] w Hi; simpl in Hi; [| done].
      injection Hi as <-. f_equal; lia.
  - (* the next window starts [o] characters before this one ends *)
    assert (Hfull : start + c < Py.len text) by lia.
    replace (Z.max 0 (Z.min (start + c) (Py.len text) - o))
      with (start + (c - o)) by lia.
    destruct (IH (start + (c - o))
                (chunks ++ [Py.slice text start (start + c)]))
      as (ws & Hrun & Hws); [lia | lia |].
    exists (Py.slice text start (start + c) :: ws).
    split; [by rewrite Hrun, <- app_assoc |].
    destruct Hws as [[ws' ->] Hrej Hlen Hsh Hpos].
    set (w := Py.slice text start (start + c)) in *.
    set (w' := Py.slice text (start + (c - o)) (start + (c - o) + c)) in *.
    assert (Lw : length w = Z.to_nat c).
    { unfold w. rewrite window_length by lia. lia. }
    assert (Lw' : (Z.to_nat o <= length w')%nat).
    { unfold w'. rewrite window_length by lia. lia. }
    assert (Ew : w = take (Z.to_nat c) (drop (Z.to_nat start) text)).
    { unfold w. rewrite slice_inside by lia. f_equal. lia. }
    split.
    + by eexists.
    + simpl in *.
      assert (Hd : drop (Z.to_nat o) w' ++ concat (map (drop (Z.to_nat o)) ws')
                   = drop (Z.to_nat (start + c)) text).
      { rewrite <- (drop_app_le w') by exact Lw'.
        rewrite Hrej, drop_drop. f_equal. lia. }
      rewrite Hd, Ew.
      replace (Z.to_nat (start + c)) with (Z.to_nat start + Z.to_nat c)%nat by lia.
      rewrite <- drop_drop. apply take_drop.
    + constructor; [| exact Hlen].
      unfold Py.len. rewrite Lw. lia.
    + simpl. repeat split; [lia | exact Lw' | | exact Hsh].
      rewrite Lw, Ew.
      unfold w'. rewrite slice_inside by lia.
      rewrite take_take, skipn_firstn_comm, drop_drop.
      replace (Z.to_nat c - (Z.to_nat c - Z.to_nat o))%nat with (Z.to_nat o) by lia.
      replace (Z.to_nat start + (Z.to_nat c - Z.to_nat o))%nat
        with (Z.to_nat (start + (c - o))) by lia.
      f_equal. lia.
    + intros [| i] v Hi; simpl in Hi.
      * injection Hi as <-. unfold w. f_equal; lia.
      * apply Hpos in Hi. rewrite Hi. f_equal; lia.
Qed.

End Windows.

End ChunkerFacts.

Section ChunkerClaims.
Import Chunker ChunkerFacts.

(** Whenever [overlap < chunk_size], [split_text] returns, and within
    [len(text) + 1] rounds of its loop. *)
Lemma split_text_terminates text c o :
  o < c ->
  exists r, split_text (S (length (Py.strip text))) text c o = Some r.
Proof.
  intros Hoc. unfold split_text.
  destruct (split_loop_terminates (Py.strip text) c o Hoc
              (S (length (Py.strip text))) 0 []) as [r Hr].
  - lia.
  - unfold Py.len. lia.
  - rewrite Hr. eauto.
Qed.

(** With [overlap >= chunk_size] and a trimmed text longer than
    [chunk_size], [split_text] never returns. *)
Lemma split_text_diverges text c o :
  o >= c -> c < Py.len (Py.strip text) -> Py.strip text <> [] ->
  forall fuel, split_text fuel text c o = None.
Proof.
  intros Ho Hc Hne fuel. unfold split_text.
  rewrite split_loop_stuck; [done | done | done |].
  pose proof (len_nonneg (Py.strip text)).
  assert (Py.len (Py.strip text) <> 0) by (by rewrite len_nil_iff).
  lia.
Qed.

(** C2 (the code does not do what the claim says).  The claim: [split_text]
    terminates for every text, chunk size and overlap, also when
    [overlap >= chunk_size].  On ["abc"] with [chunk_size = 1] and
    [overlap = 1] the loop cuts ["a"], sets [start = max(0, 1 - 1) = 0] and
    starts over: no number of rounds is enough for it to return. *)
Theorem C2_split_text_loops_forever :
  forall fuel, split_text fuel (py "abc") 1 1 = None.
Proof.
  apply split_text_diverges; [lia | by vm_compute | done].
Qed.

(** C4 (as amended).  For a text that is non-empty after trimming and
    [0 <= overlap < chunk_size], the windows [ws] the loop cuts are in
    left-to-right order (window [i] is the slice that starts at
    [i * (chunk_size - overlap)] and is [chunk_size] long, cut at the end of
    the text), their concatenation with overlap is the trimmed text, each is
    at most [chunk_size] long, and consecutive windows share [overlap]
    characters.  [split_text] returns, and what it returns is these windows
    without the whitespace-only ones: still at most [chunk_size] long each,
    and all of [ws] when no window is whitespace-only. *)
Theorem C4_split_text_windows text c o :
  Py.strip text <> [] -> 0 <= o -> o < c ->
  exists ws,
    windows_returns text c o ws
    /\ rejoin o ws = Py.strip text
    /\ Forall (fun w => Py.len w <= c) ws
    /\ shares (Z.to_nat o) ws
    /\ (forall (i : nat) w, ws !! i = Some w ->
          w = Py.slice (Py.strip text) (Z.of_nat i * (c - o))
                                       (Z.of_nat i * (c - o) + c))
    /\ split_text_returns text c o (List.filter keep_chunk ws)
    /\ (forall r, split_text_returns text c o r ->
          r = List.filter keep_chunk ws
          /\ Forall (fun w => Py.len w <= c) r
          /\ (Forall (fun w => keep_chunk w = true) ws -> r = ws)).
Proof.
  intros Hne Ho Hoc.
  set (t := Py.strip text) in *.
  assert (Hlen : 0 < Py.len t).
  { pose proof (len_nonneg t). assert (Py.len t <> 0) by (by rewrite len_nil_iff). lia. }
  destruct (split_loop_windows t c o Ho Hoc (length t) 0 [])
    as (ws & Hrun & Hws); [lia | unfold Py.len; lia |].
  simpl in Hrun.
  destruct Hws as [_ Hrej Hlens Hsh Hpos].
  assert (Hret : split_text_returns text c o (List.filter keep_chunk ws)).
  { exists (length t). unfold split_text. fold t. by rewrite Hrun. }
  exists ws. split_and!; try done.
  - by exists (length t).
  - intros r Hr.
    rewrite (split_text_deterministic _ _ _ _ _ Hr Hret).
    split_and!; [done | |].
    + rewrite Forall_forall in *. intros w Hw.
      apply Hlens. apply list_elem_of_In, filter_In in Hw as [Hw _].
      by apply list_elem_of_In.
    + intros Hkeep.
      apply forallb_filter_id, forallb_forall. intros w Hw.
      rewrite Forall_forall in Hkeep. by apply Hkeep, list_elem_of_In.
Qed.

Lemma C4_split_text_windows_witness :
  exists ws,
    windows_returns (py "  abcdefghij ") 4 1 ws
    /\ rejoin 1 ws = Py.strip (py "  abcdefghij ")
    /\ Forall (fun w => Py.len w <= 4) ws
    /\ shares (Z.to_nat 1) ws
    /\ (forall (i : nat) w, ws !! i = Some w ->
          w = Py.slice (Py.strip (py "  abcdefghij ")) (Z.of_nat i * (4 - 1))
                       (Z.of_nat i * (4 - 1) + 4))
    /\ split_text_returns (py "  abcdefghij ") 4 1 (List.filter keep_chunk ws)
    /\ (forall r, split_text_returns (py "  abcdefghij ") 4 1 r ->
          r = List.filter keep_chunk ws
          /\ Forall (fun w => Py.len w <= 4) r
          /\ (Forall (fun w => keep_chunk w = true) ws -> r = ws)).
Proof.
  apply (C4_split_text_windows (py "  abcdefghij ") 4 1); [by vm_compute | lia | lia].
Defined.

(** C4 as stated fails.  With [chunk_size = 2] and [overlap = 0] the text
    ["a    b"] is cut into ["a "], ["  "] and [" b"]; the middle window is
    whitespace only and is dropped, so the returned chunks concatenate to
    ["a  b"], not to the input.  With a negative overlap (still below
    [chunk_size]) characters between two windows are skipped. *)
Lemma C4_counterexample :
  (Py.strip (py "a    b") <> []
   /\ 0 < 2
   /\ split_text_returns (py "a    b") 2 0 [py "a "; py " b"]
   /\ rejoin 0 [py "a "; py " b"] <> Py.strip (py "a    b"))
  /\ (Py.strip (py "abcdef") <> []
      /\ -1 < 2
      /\ split_text_returns (py "abcdef") 2 (-1) [py "ab"; py "de"]
      /\ rejoin (-1) [py "ab"; py "de"] <> Py.strip (py "abcdef")).
Proof.
  repeat split; try done; try lia.
  - by exists 10%nat.
  - by exists 10%nat.
Qed.

End ChunkerClaims.

Example split_text_ex1 :
  Chunker.split_text 10 (py "  abcdefghij ") 4 1
  = Some [py "abcd"; py "defg"; py "ghij"].
Proof. reflexivity. Qed.

Example split_text_empty : Chunker.split_text 1 (py "") 1000 150 = Some [].
Proof. reflexivity. Qed.

Example split_text_blank : Chunker.split_text 1 (py " ") 1000 150 = Some [].
Proof. reflexivity. Qed.

(** ** Deduplication, membership and rank *)

Section DedupFacts.

Implicit Types keys d : list pystr.

Lemma dict_fromkeys_elem keys d x :
  x ∈ dict_fromkeys keys d <-> x ∈ d \/ x ∈ keys.
Proof.
  revert d. induction keys as [| k keys IH]; intros d; simpl.
  - rewrite elem_of_nil. tauto.
  - rewrite IH, elem_of_cons. case_bool_decide as Hk.
    + split; [tauto |]. intros [H | [-> | H]]; auto.
    + rewrite elem_of_app, list_elem_of_singleton. tauto.
Qed.

Lemma dict_fromkeys_NoDup keys d : NoDup d -> NoDup (dict_fromkeys keys d).
Proof.
  revert d. induction keys as [| k keys IH]; intros d Hd; simpl; [done |].
  apply IH. case_bool_decide as Hk; [done |].
  apply NoDup_app. split_and!; [done | | apply NoDup_singleton].
  intros x Hx ->%list_elem_of_singleton. done.
Qed.

(** Keys already present are skipped; the others are appended in order. *)
Lemma dict_fromkeys_app keys d e :
  dict_fromkeys keys (d ++ e)
  = d ++ dict_fromkeys (List.filter (fun x => bool_decide (x ∉ d)) keys) e.
Proof.
  revert e. induction keys as [| k keys IH]; intros e; [done |].
  cbn [dict_fromkeys List.filter].
  destruct (decide (k ∈ d)) as [Hd | Hd].
  - rewrite (bool_decide_eq_false_2 (k ∉ d)) by tauto.
    rewrite (bool_decide_eq_true_2 (k ∈ d ++ e)) by (apply elem_of_app; auto).
    apply IH.
  - rewrite (bool_decide_eq_true_2 (k ∉ d)) by done.
    cbn [dict_fromkeys].
    destruct (decide (k ∈ e)) as [He | He].
    + rewrite (bool_decide_eq_true_2 (k ∈ d ++ e)) by (apply elem_of_app; auto).
      rewrite (bool_decide_eq_true_2 (k ∈ e)) by done.
      apply IH.
    + rewrite (bool_decide_eq_false_2 (k ∈ d ++ e)) by (rewrite elem_of_app; tauto).
      rewrite (bool_decide_eq_false_2 (k ∈ e)) by done.
      rewrite <- app_assoc. apply IH.
Qed.

(** First-occurrence order: the first key comes first, and the rest is the
    deduplication of the other keys. *)
Lemma dict_fromkeys_cons k keys :
  dict_fromkeys (k :: keys) []
  = k :: dict_fromkeys (List.filter (fun x => bool_decide (x <> k)) keys) [].
Proof.
  cbn [dict_fromkeys].
  rewrite (bool_decide_eq_false_2 (k ∈ [])) by apply not_elem_of_nil.
  change ([] ++ [k]) with ([k] ++ @nil pystr).
  rewrite dict_fromkeys_app. simpl.
  do 2 f_equal. apply filter_ext. intros x.
  apply bool_decide_ext. rewrite list_elem_of_singleton. done.
Qed.



Lemma index_lookup x (l : list pystr) :
  x ∈ l ->
  0 <= index x l
  /\ l !! Z.to_nat (index x l) = Some x
  /\ forall j, (j < Z.to_nat (index x l))%nat -> l !! j <> Some x.
Proof.
  induction l as [| y l IH]; intros Hx; [by apply elem_of_nil in Hx |].
  simpl. case_bool_decide as Hy.
  - subst. split_and!; [done | done | intros j Hj; simpl in Hj; lia].
  - apply elem_of_cons in Hx as [-> | Hx]; [done |].
    destruct (IH Hx) as (H0 & Hl & Hfirst).
    split_and!; [lia | |].
    + replace (Z.to_nat (1 + index x l)) with (S (Z.to_nat (index x l))) by lia.
      done.
    + intros [| j] Hj; simpl; [congruence |].
      apply Hfirst. lia.
Qed.

(** In a list without duplicates the index of an element is its position. *)
Lemma index_NoDup x (l : list pystr) (i : nat) :
  NoDup l -> l !! i = Some x -> index x l = Z.of_nat i.
Proof.
  intros Hnd Hi.
  assert (Hx : x ∈ l) by (apply list_elem_of_lookup; eauto).
  destruct (index_lookup x l Hx) as (H0 & Hl & _).
  pose proof (NoDup_lookup _ _ _ _ Hnd Hl Hi). lia.
Qed.

End DedupFacts.

Section ScoringFacts.

Variable k : Z.
Variable e : pystr.
Variable u : list pystr.
Hypothesis k_nonneg : 0 <= k.
Hypothesis e_truthy : e <> [].
Hypothesis u_NoDup : NoDup u.

Lemma truthy_true (s : pystr) : s <> [] -> Py.truthy s = true.
Proof. by destruct s. Qed.

Lemma hit_at_1_of_present :
  hit_at_1_of (Some e) u = Z.b2z (bool_decide (u !! 0%nat = Some e)).
Proof. unfold hit_at_1_of, top_source_of. simpl. by rewrite truthy_true. Qed.

Lemma hit_at_3_of_present :
  hit_at_3_of (Some e) u = Z.b2z (bool_decide (e ∈ take 3 u)).
Proof.
  unfold hit_at_3_of. simpl. rewrite truthy_true by done.
  by rewrite slice_to_take.
Qed.

Lemma hit_at_4_of_present :
  hit_at_4_of (Some e) u = Z.b2z (bool_decide (e ∈ take 4 u)).
Proof.
  unfold hit_at_4_of. simpl. rewrite truthy_true by done.
  by rewrite slice_to_take.
Qed.

Lemma rank_of_found (i : nat) :
  u !! i = Some e -> (i < Z.to_nat k)%nat ->
  rank_of k (Some e) u = Some (Z.of_nat i + 1)
  /\ reciprocal_rank_of k (Some e) u = Qred (1 / inject_Z (Z.of_nat i + 1)).
Proof.
  intros Hi Hk.
  assert (Hr : rank_of k (Some e) u = Some (Z.of_nat i + 1)).
  { unfold rank_of. simpl. rewrite truthy_true by done.
    rewrite slice_to_take by done.
    assert (Hti : take (Z.to_nat k) u !! i = Some e)
      by (by rewrite lookup_take_lt).
    rewrite bool_decide_eq_true_2 by (apply list_elem_of_lookup; eauto).
    simpl. f_equal. f_equal.
    apply index_NoDup; [| done].
    eapply sublist_NoDup; [done | apply sublist_take]. }
  split; [done |]. unfold reciprocal_rank_of. by rewrite Hr.
Qed.

Lemma rank_of_absent :
  e ∉ take (Z.to_nat k) u ->
  rank_of k (Some e) u = None /\ reciprocal_rank_of k (Some e) u = 0%Q.
Proof.
  intros Hne.
  assert (Hr : rank_of k (Some e) u = None).
  { unfold rank_of. simpl. rewrite truthy_true by done.
    rewrite slice_to_take by done.
    by rewrite bool_decide_eq_false_2. }
  split; [done |]. unfold reciprocal_rank_of. by rewrite Hr.
Qed.

End ScoringFacts.

Lemma scores_of_falsy k (o : option pystr) (u : list pystr) :
  opt_truthy o = false ->
  hit_at_1_of o u = 0 /\ hit_at_3_of o u = 0 /\ hit_at_4_of o u = 0
  /\ rank_of k o u = None /\ reciprocal_rank_of k o u = 0%Q.
Proof.
  intros Ho. unfold hit_at_1_of, hit_at_3_of, hit_at_4_of, reciprocal_rank_of, rank_of.
  by rewrite Ho.
Qed.

(** ** The evaluation loop *)

(** Names for the facts of a normal round. *)
Ltac destruct_row_ok H :=
  destruct H as
    [Hembedded Hembed_calls Hno_chunks Hsome_chunks Houtput Hper_question
     Hid Hquestion Hexpected Hretrieved Htop Hrank Hhit1 Hhit3 Hhit4
     Hanswer Hnon_empty Hrefusal Hgrounded Hoverlap Hcoverage
     Hcontext_chars Hanswer_chars Hrrs Hprecs Hoverlaps Hcoverages].

Section LoopFacts.

Variable env : Env.
Variable top_k : Z.
Variable prompt_template : option PromptTemplate.

(** A round that ends normally did what [row_ok] says. *)
Lemma evaluate_row_ok acc row w w' acc' :
  evaluate_row env top_k prompt_template acc row w = (w', Ok acc') ->
  exists emb ans rec, row_ok env top_k acc row w w' acc' emb ans rec.
Proof.
  unfold evaluate_row, bind, perf_counter, RAGService.embed_text, ret. simpl.
  fold (row_question row).
  destruct (embeddings_create env (length (embed_calls w)) (row_question row))
    as [emb | e] eqn:Eemb; [| done].
  destruct (RAGService.find_relevant_chunks env emb) as [| ch chs] eqn:Ech.
  - simpl. intros [= <- <-].
    eexists emb, FALLBACK_RESPONSE, _.
    split; simpl; rewrite ?Ech; try done.
  - unfold RAGService.generate_answer, bind, RAGService.chat_create, ret. simpl.
    match goal with
    | |- context [chat_completions_create env ?n ?m] =>
        destruct (chat_completions_create env n m) as [resp | e] eqn:Echat
    end; [| done].
    intros [= <- <-].
    eexists emb, _, _.
    split; simpl; rewrite ?Ech; try done.
    intros _. eauto.
Qed.

(** A round raises exactly the exception of its failing provider call. *)
Lemma evaluate_row_raise acc row w w' e :
  evaluate_row env top_k prompt_template acc row w = (w', Raise e) ->
  output_file w' = output_file w
  /\ embed_calls w' = embed_calls w ++ [row_question row]
  /\ (embeddings_create env (length (embed_calls w)) (row_question row) = Raise e
      \/ exists emb messages,
           embeddings_create env (length (embed_calls w)) (row_question row) = Ok emb
           /\ RAGService.find_relevant_chunks env emb <> []
           /\ chat_completions_create env (length (chat_calls w)) messages = Raise e).
Proof.
  unfold evaluate_row, bind, perf_counter, RAGService.embed_text, ret. simpl.
  fold (row_question row).
  destruct (embeddings_create env (length (embed_calls w)) (row_question row))
    as [emb | e'] eqn:Eemb.
  - destruct (RAGService.find_relevant_chunks env emb) as [| ch chs] eqn:Ech;
      [done |].
    unfold RAGService.generate_answer, bind, RAGService.chat_create, ret. simpl.
    match goal with
    | |- context [chat_completions_create env ?n ?m] =>
        destruct (chat_completions_create env n m) as [resp | e'] eqn:Echat
    end; [done |].
    intros [= <- <-]. simpl. split_and!; [done | done |].
    right. eexists emb, _. split_and!; [done | | exact Echat].
    by rewrite Ech.
  - intros [= <- <-]. simpl. auto.
Qed.




Abbreviation body := (evaluate_row env top_k prompt_template).


(** What the loop has done when it ends normally. *)
Lemma for_each_ok rows acc0 w0 acc w :
  for_each rows body acc0 w0 = (w, Ok acc) ->
  exists recs,
    acc_per_question acc = acc_per_question acc0 ++ recs
    /\ Forall2 (row_record env top_k) rows recs
    /\ map id recs = map gt_id rows
    /\ acc_precision_scores acc
       = acc_precision_scores acc0 ++ map (precision_of_record top_k) recs
    /\ acc_reciprocal_ranks acc
       = acc_reciprocal_ranks acc0 ++ map (reciprocal_rank_of_record top_k) recs
    /\ output_file w = output_file w0
    /\ embed_calls w = embed_calls w0 ++ map row_question rows.
Proof.
  revert acc0 w0.
  induction rows as [| row rows IH]; intros acc0 w0 H; simpl in *.
  - injection H as <- <-. exists []. by rewrite !app_nil_r.
  - unfold bind in H.
    destruct (body acc0 row w0) as [w1 [acc1 | e]] eqn:E; [| done].
    apply IH in H as (recs & Hpq & Hrows & Hids & Hprec & Hrr & Hout & Hemb).
    pose proof (evaluate_row_ok _ _ _ _ _ E) as (emb & ans & rec & Hok).
    exists (rec :: recs). simpl.
    rewrite Hpq, Hprec, Hrr, Hout, Hemb.
    rewrite (ro_per_question _ _ _ _ _ _ _ _ _ _ Hok),
            (ro_precision_scores _ _ _ _ _ _ _ _ _ _ Hok),
            (ro_reciprocal_ranks _ _ _ _ _ _ _ _ _ _ Hok),
            (ro_output_file _ _ _ _ _ _ _ _ _ _ Hok),
            (ro_embed_calls _ _ _ _ _ _ _ _ _ _ Hok),
            (ro_id _ _ _ _ _ _ _ _ _ _ Hok).
    rewrite <- !app_assoc. simpl. split_and!; try done.
    + constructor; [| done]. by exists acc0, w0, w1, acc1, emb, ans.
    + by rewrite Hids.
Qed.


End LoopFacts.

(** What a run that returns has done. *)
Lemma evaluate_and_save_ok env path file k tid w w' report :
  evaluate_and_save env path file k tid w = (w', Ok report) ->
  exists ground_truth w0 w1 acc,
    file = Some ground_truth
    /\ bootstrap_ingest env w = (w0, Ok tt)
    /\ Py.truthy (openai_api_key env) = true
    /\ for_each ground_truth
         (evaluate_row env k (get_prompt_template (Some tid))) empty_acc w0
       = (w1, Ok acc)
    /\ per_question report = acc_per_question acc
    /\ metrics report = build_metrics acc
    /\ total_metrics report = Py.len (build_metrics acc)
    /\ top_k report = k
    /\ output_file w' = Some report.
Proof.
  unfold evaluate_and_save.
  destruct file as [ground_truth |]; [| done].
  unfold bind, RAGService.init, write_report, ret, raise.
  destruct (bootstrap_ingest env w) as [w0 [[] | e]] eqn:Eb; [| done].
  destruct (Py.truthy (openai_api_key env)) eqn:Ekey; [| done].
  destruct (for_each ground_truth _ empty_acc w0) as [w1 [acc | e]] eqn:El; [| done].
  intros [= <- <-]. by exists ground_truth, w0, w1, acc.
Qed.



(** ** Retrieval ranking *)

(** C6.  In the record of a case, with [u] the deduplicated source list (the
    retrieved sources in first-occurrence order) and [0 <= top_k]: when the
    expected source [e] is present (a non-empty string), [hit_at_1] is 1
    exactly when the first element of [u] is [e], [hit_at_3] and [hit_at_4]
    are 1 exactly when [e] is among the first 3 and the first 4 elements,
    [source_rank] is the 1-indexed position of [e] within the first [top_k]
    elements, or null when it is not there, and the reciprocal rank is
    [1 / rank], or 0 when there is no rank; at position 2 with [top_k = 4]
    this gives 0, 1, 1, rank 2 and 0.5.  When the expected source is absent
    ([None] or the empty string) the hits are 0, the rank null and the
    reciprocal rank 0. *)
Theorem C6_hits_and_rank env k pt acc row w w' acc' :
  evaluate_row env k pt acc row w = (w', Ok acc') ->
  0 <= k ->
  exists emb rec,
    let chunks := RAGService.find_relevant_chunks env emb in
    let u := retrieved_sources rec in
    let rr := reciprocal_rank_of_record k rec in
    acc_per_question acc' = acc_per_question acc ++ [rec]
    /\ acc_reciprocal_ranks acc' = acc_reciprocal_ranks acc ++ [rr]
    /\ expected_source rec = gt_expected_source row
    /\ embeddings_create env (length (embed_calls w)) (row_question row) = Ok emb
    /\ u = dict_fromkeys (map source chunks) []
    /\ NoDup u
    /\ (forall x, x ∈ u <-> x ∈ map source chunks)
    /\ (forall c cs, chunks = c :: cs ->
          u = source c
              :: dict_fromkeys
                   (List.filter (fun x => bool_decide (x <> source c)) (map source cs)) [])
    /\ (forall e, expected_source rec = Some e -> e <> [] ->
          hit_at_1 rec = Z.b2z (bool_decide (u !! 0%nat = Some e))
          /\ hit_at_3 rec = Z.b2z (bool_decide (e ∈ take 3 u))
          /\ hit_at_4 rec = Z.b2z (bool_decide (e ∈ take 4 u))
          /\ (forall i : nat, u !! i = Some e -> (i < Z.to_nat k)%nat ->
                source_rank rec = Some (Z.of_nat i + 1)
                /\ rr = Qred (1 / inject_Z (Z.of_nat i + 1)))
          /\ (e ∉ take (Z.to_nat k) u -> source_rank rec = None /\ rr = 0%Q)
          /\ (u !! 1%nat = Some e -> k = 4 ->
                hit_at_1 rec = 0 /\ hit_at_3 rec = 1 /\ hit_at_4 rec = 1
                /\ source_rank rec = Some 2 /\ rr = (1 # 2)%Q))
    /\ (opt_truthy (expected_source rec) = false ->
          hit_at_1 rec = 0 /\ hit_at_3 rec = 0 /\ hit_at_4 rec = 0
          /\ source_rank rec = None /\ rr = 0%Q).
Proof.
  intros Hrun Hk.
  destruct (evaluate_row_ok _ _ _ _ _ _ _ _ Hrun) as (emb & ans & rec & Hok).
  exists emb, rec. cbn zeta.
  destruct_row_ok Hok.
  assert (Hnd : NoDup (retrieved_sources rec)).
  { rewrite Hretrieved. apply dict_fromkeys_NoDup, NoDup_nil_2. }
  unfold reciprocal_rank_of_record.
  split_and!; try done.
  - intros x. rewrite Hretrieved. unfold unique_sources_of.
    rewrite dict_fromkeys_elem, elem_of_nil. tauto.
  - intros c cs Hc. rewrite Hretrieved. unfold unique_sources_of.
    rewrite Hc. apply dict_fromkeys_cons.
  - intros e He Hne.
    rewrite Hhit1, Hhit3, Hhit4, Hrank, He.
    assert (Hfound : forall i : nat,
              retrieved_sources rec !! i = Some e -> (i < Z.to_nat k)%nat ->
              rank_of k (Some e) (retrieved_sources rec) = Some (Z.of_nat i + 1)
              /\ reciprocal_rank_of k (Some e) (retrieved_sources rec)
                 = Qred (1 / inject_Z (Z.of_nat i + 1)))
      by (intros i; by apply rank_of_found).
    split_and!.
    + by apply hit_at_1_of_present.
    + by apply hit_at_3_of_present.
    + by apply hit_at_4_of_present.
    + exact Hfound.
    + by apply rank_of_absent.
    + intros H1 ->.
      destruct (Hfound 1%nat H1) as [Hr Hrr]; [lia |].
      rewrite hit_at_1_of_present, hit_at_3_of_present, hit_at_4_of_present by done.
      assert (H0 : retrieved_sources rec !! 0%nat <> Some e).
      { intros H0. pose proof (NoDup_lookup _ _ _ _ Hnd H0 H1). lia. }
      assert (H3 : e ∈ take 3 (retrieved_sources rec)).
      { apply list_elem_of_lookup. exists 1%nat. by rewrite lookup_take_lt by lia. }
      assert (H4 : e ∈ take 4 (retrieved_sources rec)).
      { apply list_elem_of_lookup. exists 1%nat. by rewrite lookup_take_lt by lia. }
      rewrite (bool_decide_eq_false_2 _ H0).
      rewrite (bool_decide_eq_true_2 _ H3), (bool_decide_eq_true_2 _ H4).
      by rewrite Hr, Hrr.
  - intros Hfalsy.
    rewrite Hhit1, Hhit3, Hhit4, Hrank.
    by apply scores_of_falsy.
Qed.

Lemma C6_hits_and_rank_witness :
  exists emb rec,
    acc_per_question (acc_of (demo_round (demo_case "q1" "What is the refund window?" [])))
    = acc_per_question empty_acc ++ [rec]
    /\ embeddings_create (demo_env None) 0 (py "What is the refund window?") = Ok emb
    /\ NoDup (retrieved_sources rec).
Proof.
  pose (row := demo_case "q1" "What is the refund window?" []).
  destruct (C6_hits_and_rank (demo_env None) 4 demo_template empty_acc row
              initial_world (fst (demo_round row)) (acc_of (demo_round row)))
    as (emb & rec & Hpq & _ & _ & Hemb & _ & Hnd & _).
  - by vm_compute.
  - lia.
  - exists emb, rec. split_and!; [exact Hpq | exact Hemb | exact Hnd].
Defined.

Example position_two_example :
  let u := [py "a.pdf"; py "policy.pdf"; py "b.pdf"] in
  let e := Some (py "policy.pdf") in
  hit_at_1_of e u = 0 /\ hit_at_3_of e u = 1 /\ hit_at_4_of e u = 1
  /\ rank_of 4 e u = Some 2 /\ reciprocal_rank_of 4 e u = (1 # 2)%Q.
Proof. by vm_compute. Qed.

(** ** Means and percentiles *)

Lemma Qle_total : Total Qle.
Proof.
  intros x y. destruct (Qlt_le_dec x y) as [H | H]; [left | right]; [| done].
  by apply Qlt_le_weak.
Qed.

Lemma _safe_mean_cons v vs :
  (_safe_mean (v :: vs) == Num.sum (v :: vs) / inject_Z (Py.len (v :: vs)))%Q.
Proof. unfold _safe_mean. apply Qred_correct. Qed.

(** For [n >= 1] the index [ceil(0.95 * n) - 1] already lies in
    [0 .. n - 1]. *)
Lemma p95_index_in_range (n : Z) :
  1 <= n ->
  0 <= Qceiling ((95 # 100) * inject_Z n) - 1 <= n - 1.
Proof.
  intros Hn.
  assert (H1 : (0 < (95 # 100) * inject_Z n)%Q).
  { apply Qmult_lt_0_compat; [done |]. unfold Qlt. simpl. lia. }
  assert (H2 : ((95 # 100) * inject_Z n <= inject_Z n)%Q).
  { unfold Qle, Qmult. simpl. lia. }
  split.
  - assert (0 < Qceiling ((95 # 100) * inject_Z n)); [| lia].
    apply Qlt_not_le in H1.
    destruct (Z.lt_ge_cases 0 (Qceiling ((95 # 100) * inject_Z n))) as [| Hc]; [done |].
    exfalso. apply H1.
    eapply Qle_trans; [apply Qle_ceiling |].
    change 0%Q with (inject_Z 0). by rewrite <- Zle_Qle.
  - assert (Qceiling ((95 # 100) * inject_Z n) <= n); [| lia].
    transitivity (Qceiling (inject_Z n)); [by apply Qceiling_resp_le |].
    by rewrite Qceiling_Z.
Qed.

(** C8.  [_safe_mean] is 0.0 on the empty list and the arithmetic mean (the
    sum over the count) on a non-empty one, so [_safe_mean([2.0, 4.0])] is
    3.0.  [_p95] is 0.0 on the empty list; on a non-empty list of [n] values
    it is the element at index [ceil(0.95 * n) - 1], clamped to
    [0 .. n - 1], of the values sorted in ascending order, so on the values
    1 to 20 it is 19. *)
Theorem C8_safe_mean_and_p95 :
  _safe_mean [] = 0%Q
  /\ (forall v vs,
        (_safe_mean (v :: vs)
         == Num.sum (v :: vs) / inject_Z (Py.len (v :: vs)))%Q)
  /\ _safe_mean [2%Q; 4%Q] = 3%Q
  /\ _p95 [] = 0%Q
  /\ (forall v vs,
        let values := v :: vs in
        let n := Py.len values in
        let index := Z.max 0 (Z.min (n - 1) (Qceiling ((95 # 100) * inject_Z n) - 1)) in
        exists sorted_values,
          Sorted Qle sorted_values
          /\ Permutation sorted_values values
          /\ 0 <= index <= n - 1
          /\ index = Qceiling ((95 # 100) * inject_Z n) - 1
          /\ _p95 values = nth (Z.to_nat index) sorted_values 0%Q
          /\ sorted_values !! Z.to_nat index = Some (_p95 values))
  /\ _p95 (map inject_Z [1; 2; 3; 4; 5; 6; 7; 8; 9; 10;
                         11; 12; 13; 14; 15; 16; 17; 18; 19; 20]) = 19%Q.
Proof.
  split_and!; try done.
  - apply _safe_mean_cons.
  - intros v vs values n index.
    pose proof Qle_total.
    exists (Num.sorted values).
    assert (Hperm : Permutation (Num.sorted values) values)
      by apply merge_sort_Permutation.
    assert (Hlen : Py.len (Num.sorted values) = n).
    { unfold n, Py.len. by rewrite (Permutation_length Hperm). }
    assert (Hn : 1 <= n) by (unfold n, values, Py.len; simpl; lia).
    pose proof (p95_index_in_range n Hn) as Hrange.
    assert (Hp : _p95 values = nth (Z.to_nat index) (Num.sorted values) 0%Q).
    { unfold _p95, values. fold values. by rewrite Hlen. }
    split_and!; [by apply Sorted_merge_sort | done | lia | lia | lia | done |].
    rewrite Hp.
    destruct (nth_lookup_or_length (Num.sorted values) (Z.to_nat index) 0%Q)
      as [Hl | Hl]; [done |].
    unfold Py.len in Hlen. lia.
Qed.

(** ** The report *)

(** C9.  A report returned by [evaluate_and_save] has exactly 20 metrics,
    in the fixed order and with the fixed keys [eval_total_questions] to
    [eval_avg_answer_chars]; each has a unit among count, ratio and ms and a
    category among overview, retrieval, latency, generation and context; and
    [total_metrics] is 20. *)
Theorem C9_twenty_metrics env path file k tid w w' report :
  evaluate_and_save env path file k tid w = (w', Ok report) ->
  map (fun m => (metric_key m, unit_ m, category m)) (metrics report)
  = metric_contract
  /\ length (metrics report) = 20%nat
  /\ total_metrics report = 20
  /\ head (map metric_key (metrics report)) = Some (py "eval_total_questions")
  /\ last (map metric_key (metrics report)) = Some (py "eval_avg_answer_chars")
  /\ NoDup (map metric_key (metrics report))
  /\ Forall (fun m => unit_ m ∈ [py "count"; py "ratio"; py "ms"]) (metrics report)
  /\ Forall (fun m => category m ∈ [py "overview"; py "retrieval"; py "latency";
                                    py "generation"; py "context"])
       (metrics report).
Proof.
  intros Hrun.
  apply evaluate_and_save_ok in Hrun
    as (gt & w0 & w1 & acc & _ & _ & _ & _ & _ & Hm & Htotal & _).
  rewrite Htotal, Hm.
  split_and!; try reflexivity.
  - change (NoDup (map (fun c => c.1.1) metric_contract)). compute_done.
  - unfold build_metrics. repeat constructor; compute_done.
  - unfold build_metrics. repeat constructor; compute_done.
Qed.

Lemma C9_twenty_metrics_witness :
  length (metrics (report_or_empty (demo_run None))) = 20%nat
  /\ total_metrics (report_or_empty (demo_run None)) = 20.
Proof.
  destruct (C9_twenty_metrics (demo_env None) (py "eval/ground_truth_rag.json")
              (Some demo_ground_truth) 4 (py "persona_professional")
              initial_world (fst (demo_run None)) (report_or_empty (demo_run None)))
    as (_ & Hlen & Htotal & _).
  - by vm_compute.
  - split; [exact Hlen | exact Htotal].
Defined.



(** ** Provider failures *)




Example demo_run_ok :
  option_map (fun r => length (per_question r)) (report_of (demo_run None))
  = Some 3%nat.
Proof. by vm_compute. Qed.

(** ** Empty retrieval *)

(** A round whose retrieval is empty ends normally, with the refusal as its
    answer and no generation call. *)
Lemma evaluate_row_no_chunks env k pt acc row w emb :
  embeddings_create env (length (embed_calls w)) (row_question row) = Ok emb ->
  RAGService.find_relevant_chunks env emb = [] ->
  exists w' acc' rec,
    evaluate_row env k pt acc row w = (w', Ok acc')
    /\ row_ok env k acc row w w' acc' emb FALLBACK_RESPONSE rec.
Proof.
  intros Hemb Hch.
  destruct (evaluate_row env k pt acc row w) as [w' [acc' | e]] eqn:E.
  - destruct (evaluate_row_ok _ _ _ _ _ _ _ _ E) as (emb' & ans & rec & Hok).
    assert (emb' = emb) as ->
      by (pose proof (ro_embedded _ _ _ _ _ _ _ _ _ _ Hok); congruence).
    destruct (ro_no_chunks _ _ _ _ _ _ _ _ _ _ Hok Hch) as [-> _].
    by exists w', acc', rec.
  - apply evaluate_row_raise in E as (_ & _ & [E | (emb' & m & E1 & E2 & _)]);
      congruence.
Qed.

(** C5.  When retrieval returns no chunk: [send_message] answers with
    exactly the refusal string and an empty source list, and makes no
    generation call; a round of the evaluation records the same answer, an
    empty source list and [is_refusal = 1], and makes no generation call
    either. *)
Theorem C5_empty_retrieval_refuses env emb :
  RAGService.find_relevant_chunks env emb = [] ->
  (forall user_id message tid w,
     let user_message := Py.strip (or_empty message) in
     Py.truthy user_message = true ->
     embeddings_create env (length (embed_calls w)) user_message = Ok emb ->
     exists w',
       send_message env user_id message tid true (Some user_id) w
       = (w', Ok ({| role := py "user"; content := user_message |},
                  {| am_role := py "assistant";
                     am_content := py "I can only answer from the provided PDF documents.";
                     am_sources := [] |}))
       /\ chat_calls w' = chat_calls w
       /\ last (stored_messages w')
          = Some {| sm_role := py "assistant";
                    sm_content := py "I can only answer from the provided PDF documents.";
                    sm_sources := [] |})
  /\ (forall k pt acc row w,
        embeddings_create env (length (embed_calls w)) (row_question row) = Ok emb ->
        exists w' acc' rec,
          evaluate_row env k pt acc row w = (w', Ok acc')
          /\ acc_per_question acc' = acc_per_question acc ++ [rec]
          /\ answer rec = py "I can only answer from the provided PDF documents."
          /\ retrieved_sources rec = []
          /\ top_source rec = None
          /\ is_refusal rec = 1
          /\ chat_calls w' = chat_calls w).
Proof.
  intros Hch. split.
  - intros user_id message tid w user_message Hmsg Hemb.
    unfold send_message. fold user_message. rewrite Hmsg. simpl.
    rewrite bool_decide_eq_true_2 by done. simpl.
    unfold bind, add_message, list_messages, RAGService.embed_text, ret. simpl.
    rewrite Hemb, Hch. simpl.
    eexists. split_and!; [reflexivity | done |].
    simpl. by rewrite last_snoc.
  - intros k pt acc row w Hemb.
    destruct (evaluate_row_no_chunks env k pt acc row w emb Hemb Hch)
      as (w' & acc' & rec & Hrun & Hok).
    exists w', acc', rec. destruct_row_ok Hok.
    destruct (Hno_chunks Hch) as [_ Hcalls].
    rewrite Htop, Hrefusal, Hretrieved, Hch.
    split_and!; try done.
Qed.

Lemma C5_empty_retrieval_refuses_witness :
  exists w' acc' rec,
    evaluate_row (demo_env None) 4 demo_template empty_acc
      (demo_case "q3" "" [py "Email"]) initial_world = (w', Ok acc')
    /\ answer rec = py "I can only answer from the provided PDF documents."
    /\ is_refusal rec = 1
    /\ chat_calls w' = [].
Proof.
  destruct (C5_empty_retrieval_refuses (demo_env None) [0%Q]) as [_ Heval].
  - reflexivity.
  - destruct (Heval 4 demo_template empty_acc (demo_case "q3" "" [py "Email"])
                initial_world)
      as (w' & acc' & rec & Hrun & _ & Hans & _ & _ & Href & Hcalls).
    + reflexivity.
    + exists w', acc', rec.
      split_and!; [exact Hrun | exact Hans | exact Href | exact Hcalls].
Defined.

(** C10.  In the record of a case with no retrieved chunk, the context is
    empty, so no token of the refusal is found in it:
    [answer_context_overlap] is 0.0 and [is_grounded] is 0, while
    [answer_non_empty] is 1. *)
Theorem C10_refusal_is_not_grounded env k pt acc row w emb :
  embeddings_create env (length (embed_calls w)) (row_question row) = Ok emb ->
  RAGService.find_relevant_chunks env emb = [] ->
  exists w' acc' rec,
    evaluate_row env k pt acc row w = (w', Ok acc')
    /\ acc_per_question acc' = acc_per_question acc ++ [rec]
    /\ answer rec = FALLBACK_RESPONSE
    /\ context_chars rec = 0
    /\ context_tokens_of (context_text_of (RAGService.find_relevant_chunks env emb)) = ∅
    /\ acc_answer_context_overlaps acc' = acc_answer_context_overlaps acc ++ [0%Q]
    /\ answer_context_overlap rec = 0%Q
    /\ is_grounded rec = 0
    /\ answer_non_empty rec = 1.
Proof.
  intros Hemb Hch.
  destruct (evaluate_row_no_chunks env k pt acc row w emb Hemb Hch)
    as (w' & acc' & rec & Hrun & Hok).
  exists w', acc', rec. destruct_row_ok Hok.
  rewrite Hanswer, Hcontext_chars, Hoverlaps, Hoverlap, Hgrounded, Hnon_empty, Hch.
  split_and!; try done.
Qed.

Lemma C10_refusal_is_not_grounded_witness :
  exists w' acc' rec,
    evaluate_row (demo_env None) 4 demo_template empty_acc
      (demo_case "q3" "" [py "Email"]) initial_world = (w', Ok acc')
    /\ answer_context_overlap rec = 0%Q
    /\ is_grounded rec = 0
    /\ answer_non_empty rec = 1.
Proof.
  destruct (C10_refusal_is_not_grounded (demo_env None) 4 demo_template empty_acc
              (demo_case "q3" "" [py "Email"]) initial_world [0%Q])
    as (w' & acc' & rec & Hrun & _ & _ & _ & _ & _ & Hov & Hgr & Hne).
  - reflexivity.
  - reflexivity.
  - exists w', acc', rec.
    split_and!; [exact Hrun | exact Hov | exact Hgr | exact Hne].
Defined.

(** ** Tokens *)

Section TokenFacts.

Implicit Types s t cur : pystr.

Lemma truthy_cases s : Py.truthy s = true <-> s <> [].
Proof. destruct s; simpl; split; congruence. Qed.

(** What [findall_alnum] yields while a run [cur] is open: either the run
    that continues [cur], or a run that starts later. *)
Lemma findall_alnum_elem s : forall cur t,
  t ∈ findall_alnum s cur <->
  (exists run post,
      s = run ++ post /\ t = cur ++ run /\ t <> []
      /\ Forall (fun c => is_alnum c = true) run
      /\ not_alnum_at (head post))
  \/ (exists pre post x,
        s = pre ++ t ++ post /\ t <> []
        /\ Forall (fun c => is_alnum c = true) t
        /\ last pre = Some x /\ is_alnum x = false
        /\ not_alnum_at (head post)).
Proof.
  induction s as [| c s IH]; intros cur t.
  - simpl. split.
    + intros Ht. left. exists [], [].
      destruct (Py.truthy cur) eqn:E; [| by apply elem_of_nil in Ht].
      apply list_elem_of_singleton in Ht as ->.
      rewrite !app_nil_r.
      split_and!; [done | done | by apply truthy_cases | done | intros x [=]].
    + intros [(run & post & Hs & -> & Hne & _) | (pre & post & x & Hs & Hne & _)].
      * symmetry in Hs. apply app_eq_nil in Hs as [-> ->].
        rewrite app_nil_r in *.
        apply truthy_cases in Hne. rewrite Hne. by apply list_elem_of_singleton.
      * symmetry in Hs. apply app_eq_nil in Hs as [_ Hs].
        apply app_eq_nil in Hs as [-> _]. done.
  - simpl. destruct (is_alnum c) eqn:Ec.
    + rewrite IH. split.
      * intros [(run & post & -> & -> & Hne & Hrun & Hpost)
               | (pre & post & x & -> & Hne & Ht & Hlast & Hx & Hpost)].
        -- left. exists (c :: run), post.
           rewrite <- app_assoc in *. split_and!; try done.
           by constructor.
        -- right. exists (c :: pre), post, x. split_and!; try done.
           destruct pre; [done |]. done.
      * intros [(run & post & Hs & -> & Hne & Hrun & Hpost)
               | (pre & post & x & Hs & Hne & Ht & Hlast & Hx & Hpost)].
        -- left. destruct run as [| c' run].
           ++ simpl in Hs. subst post.
              specialize (Hpost c eq_refl). congruence.
           ++ injection Hs as <- ->. inversion Hrun; subst.
              exists run, post. rewrite <- app_assoc. split_and!; done.
        -- right. destruct pre as [| c' pre]; [done |].
           injection Hs as <- ->.
           destruct pre as [| c'' pre].
           ++ simpl in Hlast. congruence.
           ++ exists (c'' :: pre), post, x. split_and!; done.
    + rewrite elem_of_app, IH. split.
      * intros [Hcur | [(run & post & -> & Ht & Hne & Hrun & Hpost)
                      | (pre & post & x & -> & Hne & Ht & Hlast & Hx & Hpost)]].
        -- left. exists [], (c :: s).
           destruct (Py.truthy cur) eqn:E; [| by apply elem_of_nil in Hcur].
           apply list_elem_of_singleton in Hcur as ->.
           rewrite !app_nil_r.
           split_and!;
             [done | done | by apply truthy_cases | done | by intros x [= <-]].
        -- right. simpl in Ht. subst run.
           exists [c], post, c. split_and!; done.
        -- right. exists (c :: pre), post, x. split_and!; try done.
           destruct pre; done.
      * intros [(run & post & Hs & -> & Hne & Hrun & Hpost)
               | (pre & post & x & Hs & Hne & Ht & Hlast & Hx & Hpost)].
        -- left. destruct run as [| c' run].
           ++ rewrite app_nil_r in *. apply truthy_cases in Hne.
              rewrite Hne. by apply list_elem_of_singleton.
           ++ injection Hs as <- ->. inversion Hrun; subst. congruence.
        -- right. destruct pre as [| c' pre]; [done |].
           injection Hs as <- ->.
           destruct pre as [| c'' pre].
           ++ left. exists t, post. split_and!; done.
           ++ right. exists (c'' :: pre), post, x. split_and!; done.
Qed.

(** [re.findall(r"[a-zA-Z0-9]+", s)] yields exactly the maximal runs. *)
Lemma findall_alnum_runs s t : t ∈ findall_alnum s [] <-> alnum_run s t.
Proof.
  rewrite findall_alnum_elem. unfold alnum_run. split.
  - intros [(run & post & -> & -> & Hne & Hrun & Hpost)
           | (pre & post & x & -> & Hne & Ht & Hlast & Hx & Hpost)].
    + exists [], post. split_and!; done.
    + exists pre, post. split_and!; try done.
      intros y Hy. congruence.
  - intros (pre & post & -> & Hne & Ht & Hpre & Hpost).
    destruct (last pre) as [x |] eqn:Hlast.
    + right. exists pre, post, x. split_and!; try done. by apply Hpre.
    + left. apply last_None in Hlast as ->.
      exists t, post. split_and!; done.
Qed.

Lemma lower_char_idemp c : Py.lower_char (Py.lower_char c) = Py.lower_char c.
Proof. destruct c as [[] [] [] [] [] [] [] []]; reflexivity. Qed.

Lemma lower_idemp s : Py.lower (Py.lower s) = Py.lower s.
Proof.
  unfold Py.lower. rewrite map_map. apply map_ext, lower_char_idemp.
Qed.

(** The tokens of a text are the maximal alphanumeric runs of the text in
    lower case. *)
Lemma _tokenize_runs s t :
  t ∈ _tokenize (Some s) <-> alnum_run (Py.lower s) t.
Proof.
  unfold _tokenize. simpl. rewrite elem_of_list_to_set. apply findall_alnum_runs.
Qed.

(** Case does not matter. *)
Lemma _tokenize_case s s' :
  Py.lower s = Py.lower s' -> _tokenize (Some s) = _tokenize (Some s').
Proof. unfold _tokenize. simpl. by intros ->. Qed.

(** A token holds only lower-case letters and digits. *)
Lemma _tokenize_lower s t :
  t ∈ _tokenize (Some s) ->
  t <> [] /\ Forall (fun c => is_alnum c = true) t /\ Py.lower t = t.
Proof.
  rewrite _tokenize_runs. intros (pre & post & Hs & Hne & Ht & _).
  split_and!; [done | done |].
  assert (Hl : Py.lower (pre ++ t ++ post) = pre ++ t ++ post)
    by (rewrite <- Hs; apply lower_idemp).
  unfold Py.lower in *. rewrite !map_app in Hl.
  apply app_inj_1 in Hl as [_ Hl]; [| by rewrite length_map].
  apply app_inj_1 in Hl as [Hl _]; [done | by rewrite length_map].
Qed.

End TokenFacts.

(** ** Rounding to decimals

    [round(x, n)] gives a multiple of [10^-n] nearest to [x]: the integer it
    scales back is within one half of [x * 10^n].  At a tie both neighbours
    are that near, so this holds whichever of them is taken. *)

From Stdlib Require Import Lqa.

Lemma round_half_even_near (x : Q) :
  (x - (1 # 2) <= inject_Z (Num.round_half_even x) <= x + (1 # 2))%Q.
Proof.
  unfold Num.round_half_even.
  pose proof (Qfloor_le x) as Hlo. pose proof (Qlt_floor x) as Hhi.
  rewrite inject_Z_plus in Hhi. change (inject_Z 1) with 1%Q in Hhi.
  destruct (Qcompare_spec (x - inject_Z (Qfloor x)) (1 # 2)) as [Hc | Hc | Hc].
  - destruct (Z.even (Qfloor x));
      [| rewrite inject_Z_plus; change (inject_Z 1) with 1%Q]; split; lra.
  - split; lra.
  - rewrite inject_Z_plus. change (inject_Z 1) with 1%Q. split; lra.
Qed.

Lemma round_4_near (x : Q) :
  exists z : Z,
    Num.round x 4 = Qred (inject_Z z / inject_Z 10000)
    /\ (x * inject_Z 10000 - (1 # 2) <= inject_Z z
        <= x * inject_Z 10000 + (1 # 2))%Q.
Proof.
  exists (Num.round_half_even (x * inject_Z 10000)).
  split; [reflexivity | apply round_half_even_near].
Qed.

(** C3 (as amended).  In a round, the answer and the concatenated context
    are tokenized by [_tokenize]: case-insensitively, into the set of their
    maximal alphanumeric runs.  The expected keywords are not tokenized: each
    keyword is lower-cased as a whole and the expected set is the set of
    these strings.  The coverage of the round is
    |answer tokens ∩ expected set| / |expected set|, and 0.0 when the
    keyword list is empty: this value goes into the list the run averages.
    The field [expected_keyword_coverage] of the record is this value rounded
    to 4 decimals: a multiple of 0.0001 at most 0.00005 away from it (and 0
    when the keyword list is empty).  The same holds of the overlap of the
    answer with the context and the field [answer_context_overlap]. *)
Theorem C3_keyword_coverage env k pt acc row w w' acc' :
  evaluate_row env k pt acc row w = (w', Ok acc') ->
  exists emb rec,
    let ans := answer rec in
    let ctx := context_text_of (RAGService.find_relevant_chunks env emb) in
    let keywords := gt_expected_answer_keywords row in
    let A : gset pystr := _tokenize (Some ans) in
    let C : gset pystr := _tokenize (Some ctx) in
    let E : gset pystr := list_to_set (map Py.lower keywords) in
    let coverage :=
      if bool_decide (E = ∅) then 0%Q
      else Num.div (Z.of_nat (size (A ∩ E))) (Z.of_nat (size E)) in
    let overlap :=
      if bool_decide (A = ∅) then 0%Q
      else Num.div (Z.of_nat (size (A ∩ C))) (Z.of_nat (size A)) in
    acc_per_question acc' = acc_per_question acc ++ [rec]
    /\ embeddings_create env (length (embed_calls w)) (row_question row) = Ok emb
    /\ (forall t, t ∈ A <-> alnum_run (Py.lower ans) t)
    /\ (forall t, t ∈ C <-> alnum_run (Py.lower ctx) t)
    /\ (forall t, t ∈ E <-> exists kw, kw ∈ keywords /\ t = Py.lower kw)
    /\ acc_expected_keyword_coverages acc'
       = acc_expected_keyword_coverages acc ++ [coverage]
    /\ (exists z : Z,
          expected_keyword_coverage rec = Qred (inject_Z z / inject_Z 10000)
          /\ (coverage * inject_Z 10000 - (1 # 2) <= inject_Z z
              <= coverage * inject_Z 10000 + (1 # 2))%Q)
    /\ (E <> ∅ ->
        (coverage == inject_Z (Z.of_nat (size (A ∩ E))) / inject_Z (Z.of_nat (size E)))%Q)
    /\ (keywords = [] -> coverage = 0%Q /\ expected_keyword_coverage rec = 0%Q)
    /\ acc_answer_context_overlaps acc'
       = acc_answer_context_overlaps acc ++ [overlap]
    /\ (exists z : Z,
          answer_context_overlap rec = Qred (inject_Z z / inject_Z 10000)
          /\ (overlap * inject_Z 10000 - (1 # 2) <= inject_Z z
              <= overlap * inject_Z 10000 + (1 # 2))%Q).
Proof.
  intros Hrun.
  destruct (evaluate_row_ok _ _ _ _ _ _ _ _ Hrun) as (emb & ans & rec & Hok).
  exists emb, rec. cbn zeta. destruct_row_ok Hok.
  rewrite Hanswer, Hcoverages, Hcoverage, Hoverlaps, Hoverlap.
  unfold expected_keyword_coverage_of, answer_context_overlap_of,
    expected_tokens_of, answer_tokens_of, context_tokens_of, expected_keywords_of.
  split_and!; try done.
  - intros t. apply _tokenize_runs.
  - intros t. apply _tokenize_runs.
  - intros t. rewrite elem_of_list_to_set, list_elem_of_fmap.
    split; [intros (kw & -> & Hkw) | intros (kw & Hkw & ->)]; eauto.
  - apply round_4_near.
  - intros HE. rewrite bool_decide_eq_false_2 by done. apply Qred_correct.
  - by intros ->.
  - apply round_4_near.
Qed.

Lemma C3_keyword_coverage_witness :
  exists emb rec,
    acc_per_question
      (acc_of (demo_round (demo_case "q1" "What is the refund window?"
                             [py "30"; py "Days"; py "refund"])))
    = acc_per_question empty_acc ++ [rec]
    /\ embeddings_create (demo_env None) 0 (py "What is the refund window?") = Ok emb
    /\ expected_keyword_coverage rec = (6667 # 10000)%Q.
Proof.
  pose (row := demo_case "q1" "What is the refund window?"
                 [py "30"; py "Days"; py "refund"]).
  destruct (C3_keyword_coverage (demo_env None) 4 demo_template empty_acc row
              initial_world (fst (demo_round row)) (acc_of (demo_round row)))
    as (emb & rec & Hpq & Hemb & _).
  - by vm_compute.
  - exists emb, rec. split_and!; [exact Hpq | exact Hemb |].
    apply (inj (app [])) in Hpq. injection Hpq as <-. by vm_compute.
Defined.

(** C3 as stated fails.  For the keyword list [["30 days"]] and the answer
    "Refunds are accepted within 30 days.", tokenizing the keywords like the
    answer would give the expected tokens 30 and days, both in the answer:
    a coverage of 1.  The code keeps the keyword whole; no answer token
    equals "30 days", and the coverage it records is 0. *)
Lemma C3_counterexample :
  exists rec,
    acc_per_question
      (acc_of (demo_round (demo_case "q2" "How do I contact support?" [py "30 days"])))
    = [rec]
    /\ answer rec = py "Refunds are accepted within 30 days."
    /\ expected_keyword_coverage rec = 0%Q
    /\ expected_tokens_of (map Py.lower [py "30 days"]) = {[ py "30 days" ]}
    /\ _tokenize (Some (py "30 days")) = {[ py "30"; py "days" ]}
    /\ Num.div
         (Z.of_nat (size (_tokenize (Some (answer rec)) ∩ _tokenize (Some (py "30 days")))))
         (Z.of_nat (size (_tokenize (Some (py "30 days")))))
       = 1%Q.
Proof. eexists. split_and!; [by vm_compute | by vm_compute ..]. Qed.

(** * Further properties *)

(** ** Trimming *)

Section StripFacts.

Implicit Types s : pystr.

Lemma lstrip_nil_iff s :
  Py.lstrip s = [] <-> Forall (fun c => Py.is_space c = true) s.
Proof.
  induction s as [| c s IH]; simpl.
  - split; [constructor | done].
  - destruct (Py.is_space c) eqn:Ec.
    + rewrite IH. split; [by constructor | by inversion 1].
    + split; [done | inversion 1; congruence].
Qed.

(** What is left of [lstrip] does not start with whitespace. *)
Lemma lstrip_head s c s' : Py.lstrip s = c :: s' -> Py.is_space c = false.
Proof.
  induction s as [| d s IH]; simpl; [done |].
  destruct (Py.is_space d) eqn:Ed; [done |]. by intros [= <- _].
Qed.

Lemma lstrip_no_space c s : Py.is_space c = false -> Py.lstrip (c :: s) = c :: s.
Proof. simpl. by intros ->. Qed.

Lemma lstrip_idemp s : Py.lstrip (Py.lstrip s) = Py.lstrip s.
Proof.
  destruct (Py.lstrip s) as [| c s'] eqn:E; [done |].
  apply lstrip_no_space. by eapply lstrip_head.
Qed.

Lemma lstrip_snoc s c :
  Py.is_space c = false -> Py.lstrip (s ++ [c]) = Py.lstrip s ++ [c].
Proof.
  intros Hc. induction s as [| d s IH]; simpl; [by rewrite Hc |].
  by destruct (Py.is_space d).
Qed.

Lemma rstrip_cons c s :
  Py.is_space c = false -> Py.rstrip (c :: s) = c :: Py.rstrip s.
Proof.
  intros Hc. unfold Py.rstrip. simpl.
  by rewrite lstrip_snoc, rev_app_distr.
Qed.

Lemma rstrip_idemp s : Py.rstrip (Py.rstrip s) = Py.rstrip s.
Proof. unfold Py.rstrip. by rewrite rev_involutive, lstrip_idemp. Qed.

Lemma strip_nil_iff s :
  Py.strip s = [] <-> Forall (fun c => Py.is_space c = true) s.
Proof.
  unfold Py.strip, Py.rstrip. split.
  - intros H. apply lstrip_nil_iff.
    destruct (Py.lstrip s) as [| c s'] eqn:E; [done |].
    exfalso.
    assert (H' : Py.lstrip (rev (c :: s')) = [])
      by (by rewrite <- (rev_involutive (Py.lstrip _)), H).
    apply lstrip_nil_iff in H'.
    rewrite Forall_forall in H'.
    specialize (H' c). rewrite (lstrip_head _ _ _ E) in H'.
    assert (Hin : c ∈ rev (c :: s'))
      by (apply list_elem_of_In; apply -> in_rev; by left).
    specialize (H' Hin). congruence.
  - intros H. apply lstrip_nil_iff in H. by rewrite H.
Qed.

(** Trimming twice is trimming once. *)
Lemma strip_idemp s : Py.strip (Py.strip s) = Py.strip s.
Proof.
  unfold Py.strip.
  destruct (Py.lstrip s) as [| c s'] eqn:E; [done |].
  pose proof (lstrip_head _ _ _ E) as Hc.
  rewrite rstrip_cons by done.
  rewrite lstrip_no_space by done.
  rewrite <- rstrip_cons by done. apply rstrip_idemp.
Qed.

(** A slice is a contiguous part of the list. *)
Lemma slice_infix {A} (l : list A) (a b : Z) :
  exists pre post, l = pre ++ Py.slice l a b ++ post.
Proof.
  unfold Py.slice.
  set (lo := Z.to_nat (Py.clip (Py.len l) a)).
  set (n := Z.to_nat (Py.clip (Py.len l) b - Py.clip (Py.len l) a)).
  exists (take lo l), (drop n (drop lo l)).
  by rewrite take_drop, take_drop.
Qed.

End StripFacts.

(** ** Chunker, continued *)

Section ChunkerMore.
Import Chunker ChunkerFacts.

(** X1.  A text that is empty or holds only whitespace is split into no
    chunk, whatever the chunk size and the overlap, in one test of the loop
    condition. *)
Theorem X1_split_text_blank text c o fuel :
  Forall (fun ch => Py.is_space ch = true) text ->
  split_text (S fuel) text c o = Some [].
Proof.
  intros Hblank. apply strip_nil_iff in Hblank.
  unfold split_text. rewrite Hblank. reflexivity.
Qed.

Lemma X1_split_text_blank_witness :
  split_text 1 (py "   ") 1 5 = Some [].
Proof.
  apply (X1_split_text_blank (py "   ") 1 5 0).
  repeat constructor.
Defined.

(** X2.  A text whose trimmed form is not empty and is at most
    [chunk_size] long comes back as one chunk, the trimmed text, whatever
    the overlap (also an overlap of [chunk_size] or more). *)
Theorem X2_split_text_single_chunk text c o fuel :
  Py.strip text <> [] ->
  Py.len (Py.strip text) <= c ->
  split_text (S fuel) text c o = Some [Py.strip text].
Proof.
  intros Hne Hlen. unfold split_text. simpl.
  pose proof (len_nonneg (Py.strip text)) as Hn.
  assert (Hpos : Py.len (Py.strip text) <> 0) by (by rewrite len_nil_iff).
  destruct (Z.ltb_spec 0 (Py.len (Py.strip text))) as [_ | ?]; [| lia].
  rewrite Z.add_0_l.
  replace (Z.min c (Py.len (Py.strip text))) with (Py.len (Py.strip text)) by lia.
  rewrite Z.eqb_refl. simpl.
  assert (Hall : Py.slice (Py.strip text) 0 (Py.len (Py.strip text)) = Py.strip text).
  { rewrite slice_inside by lia. simpl.
    rewrite Z.min_id, Z.sub_0_r. apply take_ge. unfold Py.len. lia. }
  rewrite Hall. unfold keep_chunk. rewrite strip_idemp.
  by destruct (Py.strip text).
Qed.

Lemma X2_split_text_single_chunk_witness :
  split_text 1 (py " short text ") 1000 2000 = Some [py "short text"].
Proof.
  apply (X2_split_text_single_chunk (py " short text ") 1000 2000 0);
    [by vm_compute | by vm_compute].
Defined.

Lemma split_loop_Forall (P : pystr -> Prop) text c o :
  (forall a b, P (Py.slice text a b)) ->
  forall fuel start chunks r,
    Forall P chunks ->
    split_loop fuel text c o start chunks = Some r ->
    Forall P r.
Proof.
  intros HP. induction fuel as [| fuel IH]; intros start chunks r Hch; [done |].
  simpl. destruct (start <? Py.len text); [| by intros [= <-]].
  assert (Forall P (chunks ++ [Py.slice text start (Z.min (start + c) (Py.len text))]))
    by (apply Forall_app; split; [done | by constructor]).
  destruct (_ =? _); [by intros [= <-] |].
  by apply IH.
Qed.

(** X3.  Whatever the chunk size and the overlap, every chunk [split_text]
    returns is a contiguous part of the trimmed text and is not blank. *)
Theorem X3_split_text_chunks_are_substrings fuel text c o r :
  split_text fuel text c o = Some r ->
  Forall (fun chunk =>
            Py.strip chunk <> []
            /\ exists pre post, Py.strip text = pre ++ chunk ++ post) r.
Proof.
  unfold split_text.
  destruct (split_loop fuel (Py.strip text) c o 0 []) as [ws |] eqn:E; [| done].
  intros [= <-].
  pose proof (split_loop_Forall
                (fun w => exists pre post, Py.strip text = pre ++ w ++ post)
                (Py.strip text) c o (slice_infix _) _ _ _ _ (Forall_nil_2 _) E)
    as Hws.
  rewrite Forall_forall in *. intros chunk Hin.
  apply list_elem_of_In, filter_In in Hin as [Hin Hkeep].
  split; [| by apply Hws, list_elem_of_In].
  unfold keep_chunk in Hkeep. by destruct (Py.strip chunk).
Qed.

Lemma X3_split_text_chunks_are_substrings_witness :
  Forall (fun chunk =>
            Py.strip chunk <> []
            /\ exists pre post, Py.strip (py " ab  cd ") = pre ++ chunk ++ post)
         [py "ab"; py "cd"].
Proof.
  apply (X3_split_text_chunks_are_substrings 10 (py " ab  cd ") 2 0).
  reflexivity.
Defined.


Lemma split_loop_count text c o :
  0 <= o -> o < c ->
  forall fuel start chunks r,
    0 <= start < Py.len text ->
    split_loop fuel text c o start chunks = Some r ->
    exists k : Z,
      Py.len r = Py.len chunks + k
      /\ 1 <= k
      /\ Py.len text <= start + (k - 1) * (c - o) + c
      /\ (2 <= k -> start + (k - 2) * (c - o) + c < Py.len text).
Proof.
  intros Ho Hoc.
  induction fuel as [| fuel IH]; intros start chunks r Hs; [done |].
  simpl.
  destruct (Z.ltb_spec start (Py.len text)) as [_ | ?]; [| lia].
  destruct (Z.eqb_spec (Z.min (start + c) (Py.len text)) (Py.len text))
    as [Hend | Hend].
  - intros [= <-]. exists 1. unfold Py.len in *. rewrite length_app. simpl. lia.
  - replace (Z.max 0 (Z.min (start + c) (Py.len text) - o))
      with (start + (c - o)) by lia.
    intros Hrun. apply IH in Hrun as (k & Hlen & Hk & Hcover & Hprev); [| lia].
    exists (k + 1). unfold Py.len in *. rewrite length_app in Hlen. simpl in Hlen.
    split_and!; [lia | lia | nia |].
    intros _. destruct (Z.eq_dec k 1) as [-> | Hk1]; [lia |].
    assert (2 <= k) by lia. specialize (Hprev ltac:(done)). nia.
Qed.

(** X4.  For a text that is not empty after trimming, of length [n], and
    [0 <= overlap < chunk_size], the loop cuts exactly as many windows as
    it takes to reach the end of the text in steps of
    [chunk_size - overlap]: the number [k] of windows is the least one with
    [(k - 1) * (chunk_size - overlap) + chunk_size >= n].  So there are at
    most [n] windows, and [split_text] returns at most that many chunks. *)
Theorem X4_split_text_window_count text c o :
  Py.strip text <> [] -> 0 <= o -> o < c ->
  exists ws,
    let n := Py.len (Py.strip text) in
    let k := Py.len ws in
    windows_returns text c o ws
    /\ 1 <= k <= n
    /\ n <= (k - 1) * (c - o) + c
    /\ (2 <= k -> (k - 2) * (c - o) + c < n)
    /\ forall r, split_text_returns text c o r -> Py.len r <= k.
Proof.
  intros Hne Ho Hoc.
  set (t := Py.strip text) in *.
  assert (Hn : 0 < Py.len t).
  { pose proof (len_nonneg t). assert (Py.len t <> 0) by (by rewrite len_nil_iff). lia. }
  destruct (split_loop_terminates t c o Hoc (S (length t)) 0 []) as [ws Hrun];
    [lia | unfold Py.len; lia |].
  destruct (split_loop_count t c o Ho Hoc _ 0 _ _ (conj (Z.le_refl 0) Hn) Hrun)
    as (k & Hlen & Hk & Hcover & Hprev).
  change (Py.len (@nil pystr)) with 0 in Hlen. rewrite Z.add_0_l in Hlen.
  exists ws. cbn zeta. rewrite Hlen.
  assert (Hret : split_text_returns text c o (List.filter keep_chunk ws)).
  { exists (S (length t)). unfold split_text. fold t. by rewrite Hrun. }
  split_and!; [by exists (S (length t)) | lia | | lia | lia |].
  - destruct (Z.eq_dec k 1) as [-> | Hk1]; [lia |].
    specialize (Hprev ltac:(lia)). nia.
  - intros r Hr. rewrite (split_text_deterministic _ _ _ _ _ Hr Hret).
    rewrite <- Hlen. unfold Py.len.
    pose proof (filter_length keep_chunk ws). lia.
Qed.

Lemma X4_split_text_window_count_witness :
  exists ws,
    windows_returns (py "  abcdefghij ") 4 1 ws
    /\ 1 <= Py.len ws <= Py.len (Py.strip (py "  abcdefghij ")).
Proof.
  destruct (X4_split_text_window_count (py "  abcdefghij ") 4 1)
    as (ws & Hws & Hk & _); [by vm_compute | lia | lia |].
  exists ws. split; [exact Hws | exact Hk].
Defined.

End ChunkerMore.

(** ** Substrings *)

Section ContainsFacts.

Implicit Types s p : pystr.

Lemma prefixb_spec p s : Py.prefixb p s = true <-> exists post, s = p ++ post.
Proof.
  revert s. induction p as [| a p IH]; intros s; simpl.
  - split; [eauto | done].
  - destruct s as [| b s].
    + split; [done | by intros [post [=]]].
    + case_decide as Hab.
      * subst. rewrite IH. split; intros [post H]; exists post; simpl in *; congruence.
      * split; [done | intros [post [= ]]; congruence].
Qed.

(** [p in s]: [p] occurs somewhere in [s]. *)
Lemma contains_spec s p :
  Py.contains s p = true <-> exists pre post, s = pre ++ p ++ post.
Proof.
  induction s as [| c s IH]; simpl.
  - rewrite orb_false_r, prefixb_spec. split.
    + intros [post H]. by exists [], post.
    + intros (pre & post & H). destruct pre; [| done]. eauto.
  - rewrite orb_true_iff, prefixb_spec, IH. split.
    + intros [[post H] | (pre & post & H)].
      * by exists [], post.
      * exists (c :: pre), post. by rewrite H.
    + intros (pre & post & H). destruct pre as [| d pre].
      * left. eauto.
      * right. injection H as -> ->. eauto.
Qed.

End ContainsFacts.

(** ** Quotients and means *)

Section NumFacts.

Lemma div_range (a b : Z) :
  0 <= a <= b -> 0 < b -> (0 <= Num.div a b)%Q /\ (Num.div a b <= 1)%Q.
Proof.
  intros Ha Hb. unfold Num.div. rewrite Qred_correct.
  destruct b as [| b | b]; [lia | | lia].
  unfold Qle, Qdiv, Qmult, Qinv. simpl. lia.
Qed.

Lemma div_one_iff (a b : Z) : 0 < b -> Num.div a b = 1%Q <-> a = b.
Proof.
  intros Hb. unfold Num.div. split.
  - intros H.
    assert (He : (inject_Z a / inject_Z b == 1)%Q)
      by (by rewrite <- (Qred_correct (_ / _)), H).
    destruct b as [| b | b]; [lia | | lia].
    unfold Qeq, Qdiv, Qmult, Qinv in He. simpl in He. lia.
  - intros ->. change 1%Q with (Qred 1). apply Qred_complete.
    destruct b as [| b | b]; [lia | | lia].
    unfold Qeq, Qdiv, Qmult, Qinv. simpl. lia.
Qed.

Lemma div_zero_iff (a b : Z) : 0 < b -> Num.div a b = 0%Q <-> a = 0.
Proof.
  intros Hb. unfold Num.div. split.
  - intros H.
    assert (He : (inject_Z a / inject_Z b == 0)%Q)
      by (by rewrite <- (Qred_correct (_ / _)), H).
    destruct b as [| b | b]; [lia | | lia].
    unfold Qeq, Qdiv, Qmult, Qinv in He. simpl in He. lia.
  - intros ->. change 0%Q with (Qred 0). apply Qred_complete.
    destruct b as [| b | b]; [lia | | lia].
    unfold Qeq, Qdiv, Qmult, Qinv. simpl. lia.
Qed.

Lemma sum_bounds (lo hi : Q) (values : list Q) :
  Forall (fun v => (lo <= v)%Q /\ (v <= hi)%Q) values ->
  (inject_Z (Py.len values) * lo <= Num.sum values)%Q
  /\ (Num.sum values <= inject_Z (Py.len values) * hi)%Q.
Proof.
  induction 1 as [| v vs [Hlo Hhi] _ [IHlo IHhi]].
  - unfold Py.len. simpl. split; rewrite Qmult_0_l; apply Qle_refl.
  - assert (Hlen : (inject_Z (Py.len (v :: vs)) == 1 + inject_Z (Py.len vs))%Q).
    { unfold Py.len. simpl length. rewrite Nat2Z.inj_succ, <- Z.add_1_l.
      by rewrite inject_Z_plus. }
    unfold Num.sum in *. simpl foldr. rewrite Hlen. split.
    + rewrite Qmult_plus_distr_l, Qmult_1_l. by apply Qplus_le_compat.
    + rewrite Qmult_plus_distr_l, Qmult_1_l. by apply Qplus_le_compat.
Qed.

Lemma _safe_mean_bounds (lo hi : Q) (values : list Q) :
  values <> [] ->
  Forall (fun v => (lo <= v)%Q /\ (v <= hi)%Q) values ->
  (lo <= _safe_mean values)%Q /\ (_safe_mean values <= hi)%Q.
Proof.
  intros Hne Hall.
  destruct values as [| v vs]; [done |].
  rewrite _safe_mean_cons.
  destruct (sum_bounds lo hi _ Hall) as [Hlo Hhi].
  assert (Hn : (0 < inject_Z (Py.len (v :: vs)))%Q).
  { change 0%Q with (inject_Z 0). rewrite <- Zlt_Qlt. unfold Py.len. simpl. lia. }
  split.
  - apply Qle_shift_div_l; [done |]. by rewrite Qmult_comm.
  - apply Qle_shift_div_r; [done |]. by rewrite Qmult_comm.
Qed.

(** The mean of values between 0 and 1 lies between 0 and 1, also when
    there is no value. *)
Lemma _safe_mean_unit (values : list Q) :
  Forall (fun v => (0 <= v)%Q /\ (v <= 1)%Q) values ->
  (0 <= _safe_mean values)%Q /\ (_safe_mean values <= 1)%Q.
Proof.
  intros Hall. destruct values as [| v vs] eqn:E; [done |].
  rewrite <- E in *. apply _safe_mean_bounds; [by subst | done].
Qed.

End NumFacts.

(** X8.  The mean [_safe_mean] reports for a non-empty list lies between
    any two bounds that hold for all its values. *)
Theorem X8_safe_mean_between_bounds (lo hi : Q) (values : list Q) :
  values <> [] ->
  Forall (fun v => (lo <= v)%Q /\ (v <= hi)%Q) values ->
  (lo <= _safe_mean values)%Q /\ (_safe_mean values <= hi)%Q.
Proof. apply _safe_mean_bounds. Qed.

Lemma X8_safe_mean_between_bounds_witness :
  (2 <= _safe_mean [2%Q; 4%Q])%Q /\ (_safe_mean [2%Q; 4%Q] <= 4)%Q.
Proof.
  apply (X8_safe_mean_between_bounds 2%Q 4%Q [2%Q; 4%Q]); [done |].
  repeat constructor; by vm_compute.
Defined.

(** ** Tokens and grounding scores *)

(** X5.  [_tokenize] yields exactly the maximal runs of letters and digits
    of the text in lower case: every token is such a run and every such run
    is a token; a missing text has no token; and the case of the text does
    not matter. *)
Theorem X5_tokenize_maximal_runs :
  _tokenize None = ∅
  /\ (forall s t, t ∈ _tokenize (Some s) <-> alnum_run (Py.lower s) t)
  /\ (forall s, _tokenize (Some (Py.lower s)) = _tokenize (Some s))
  /\ (forall s t, t ∈ _tokenize (Some s) ->
        t <> [] /\ Forall (fun c => is_alnum c = true) t /\ Py.lower t = t).
Proof.
  split_and!.
  - reflexivity.
  - apply _tokenize_runs.
  - intros s. apply _tokenize_case, lower_idemp.
  - apply _tokenize_lower.
Qed.

(** X6.  [is_refusal] is a case-insensitive substring test: the flag is 1
    exactly when the answer in lower case holds the refusal sentence in
    lower case somewhere, so a refusal in any letter case, with any text
    before and after it, is flagged. *)
Theorem X6_refusal_is_substring_test :
  (forall ans,
     refused_of ans = 1
     <-> exists pre post,
           Py.lower ans = pre ++ Py.lower FALLBACK_RESPONSE ++ post)
  /\ (forall ans, refused_of ans = 0 \/ refused_of ans = 1)
  /\ (forall pre s post,
        refused_of (pre ++ s ++ post) = 1
        <-> exists pre' post',
              Py.lower pre ++ Py.lower s ++ Py.lower post
              = pre' ++ Py.lower FALLBACK_RESPONSE ++ post')
  /\ (forall pre post,
        refused_of (pre ++ py "I CAN ONLY ANSWER FROM THE PROVIDED PDF DOCUMENTS." ++ post)
        = 1).
Proof.
  assert (H1 : forall ans,
             refused_of ans = 1
             <-> exists pre post,
                   Py.lower ans = pre ++ Py.lower FALLBACK_RESPONSE ++ post).
  { intros ans. unfold refused_of. rewrite <- contains_spec.
    destruct (Py.contains _ _); simpl; split; done. }
  split_and!.
  - exact H1.
  - intros ans. unfold refused_of. destruct (Py.contains _ _); auto.
  - intros pre s post. rewrite H1. unfold Py.lower. by rewrite !map_app.
  - intros pre post. apply H1.
    exists (Py.lower pre), (Py.lower post). unfold Py.lower.
    by rewrite !map_app.
Qed.

Section GroundingFacts.

Variable ans ctx : pystr.
Variable keywords : list pystr.

Lemma size_zero_iff (X : gset pystr) : size X = 0%nat <-> X = ∅.
Proof. rewrite size_empty_iff. by unfold_leibniz. Qed.

Lemma inter_subseteq_l (X Y : gset pystr) : X ∩ Y ⊆ X.
Proof. intros x Hx. by apply elem_of_intersection in Hx as [? _]. Qed.

Lemma inter_subseteq_r (X Y : gset pystr) : X ∩ Y ⊆ Y.
Proof. intros x Hx. by apply elem_of_intersection in Hx as [_ ?]. Qed.

Lemma size_inter_le (X Y : gset pystr) : (size (X ∩ Y) <= size X)%nat.
Proof. apply subseteq_size, inter_subseteq_l. Qed.

Lemma size_inter_le_r (X Y : gset pystr) : (size (X ∩ Y) <= size Y)%nat.
Proof. apply subseteq_size, inter_subseteq_r. Qed.

Lemma size_inter_full_l (X Y : gset pystr) : size (X ∩ Y) = size X <-> X ⊆ Y.
Proof.
  split.
  - intros Hs x Hx.
    destruct (decide (x ∈ X ∩ Y)) as [Hin | Hn];
      [by apply elem_of_intersection in Hin as [_ ?] |].
    exfalso.
    assert (Hlt : X ∩ Y ⊂ X).
    { split; [apply inter_subseteq_l |]. intros Hsub. by apply Hn, Hsub. }
    apply subset_size in Hlt. lia.
  - intros Hsub. f_equal. apply set_eq. intros x.
    rewrite elem_of_intersection. split; [tauto | auto].
Qed.

Lemma inter_empty_r (X : gset pystr) : X ∩ ∅ = ∅.
Proof.
  apply set_eq. intros x. rewrite elem_of_intersection, elem_of_empty. tauto.
Qed.

Lemma inter_empty_l (X : gset pystr) : ∅ ∩ X = ∅.
Proof.
  apply set_eq. intros x. rewrite elem_of_intersection, elem_of_empty. tauto.
Qed.

Lemma size_pos_iff (X : gset pystr) : (0 < size X)%nat <-> X <> ∅.
Proof.
  rewrite <- size_zero_iff. lia.
Qed.

Lemma answer_context_overlap_range :
  (0 <= answer_context_overlap_of ans ctx)%Q
  /\ (answer_context_overlap_of ans ctx <= 1)%Q.
Proof.
  unfold answer_context_overlap_of. case_bool_decide as HA; [done |].
  apply div_range.
  - pose proof (size_inter_le (answer_tokens_of ans) (context_tokens_of ctx)). lia.
  - apply size_pos_iff in HA. lia.
Qed.

Lemma expected_keyword_coverage_range :
  (0 <= expected_keyword_coverage_of ans keywords)%Q
  /\ (expected_keyword_coverage_of ans keywords <= 1)%Q.
Proof.
  unfold expected_keyword_coverage_of. case_bool_decide as HE; [done |].
  apply div_range.
  - pose proof (size_inter_le_r (answer_tokens_of ans) (expected_tokens_of keywords)).
    lia.
  - apply size_pos_iff in HE. lia.
Qed.

End GroundingFacts.

(** X7.  Both lexical scores lie between 0 and 1.  The keyword coverage is
    1 exactly when there is a keyword and every (lower-cased) keyword is a
    token of the answer, and 0 exactly when no keyword is a token of the
    answer.  The answer-context overlap is 1 exactly when the answer has a
    token and all its tokens are tokens of the context. *)
Theorem X7_lexical_scores_range ans ctx keywords :
  let A := answer_tokens_of ans in
  let C := context_tokens_of ctx in
  let E := expected_tokens_of keywords in
  ((0 <= answer_context_overlap_of ans ctx)%Q
   /\ (answer_context_overlap_of ans ctx <= 1)%Q)
  /\ ((0 <= expected_keyword_coverage_of ans keywords)%Q
      /\ (expected_keyword_coverage_of ans keywords <= 1)%Q)
  /\ (expected_keyword_coverage_of ans keywords = 1%Q <-> E <> ∅ /\ E ⊆ A)
  /\ (expected_keyword_coverage_of ans keywords = 0%Q <-> A ∩ E = ∅)
  /\ (answer_context_overlap_of ans ctx = 1%Q <-> A <> ∅ /\ A ⊆ C)
  /\ (answer_context_overlap_of ans ctx = 0%Q <-> A ∩ C = ∅).
Proof.
  intros A C E. split_and!.
  - apply answer_context_overlap_range.
  - apply answer_context_overlap_range.
  - apply expected_keyword_coverage_range.
  - apply expected_keyword_coverage_range.
  - unfold expected_keyword_coverage_of. fold A E.
    case_bool_decide as HE; [split; [done | tauto] |].
    rewrite div_one_iff by (apply size_pos_iff in HE; lia).
    rewrite Nat2Z.inj_iff, (comm_L (∩) A E), size_inter_full_l. tauto.
  - unfold expected_keyword_coverage_of. fold A E.
    case_bool_decide as HE; [rewrite HE, inter_empty_r; split; done |].
    rewrite div_zero_iff by (apply size_pos_iff in HE; lia).
    rewrite <- size_zero_iff. lia.
  - unfold answer_context_overlap_of. fold A C.
    case_bool_decide as HA; [split; [done | tauto] |].
    rewrite div_one_iff by (apply size_pos_iff in HA; lia).
    rewrite Nat2Z.inj_iff, size_inter_full_l. tauto.
  - unfold answer_context_overlap_of. fold A C.
    case_bool_decide as HA; [rewrite HA, inter_empty_l; split; done |].
    rewrite div_zero_iff by (apply size_pos_iff in HA; lia).
    rewrite <- size_zero_iff. lia.
Qed.

(** ** The percentile *)

Section PercentileFacts.

Lemma Qle_transitive : Transitive Qle.
Proof. intros x y z. apply Qle_trans. Qed.

Lemma StronglySorted_lookup_le (l : list Q) (i j : nat) (x y : Q) :
  StronglySorted Qle l ->
  l !! i = Some x -> l !! j = Some y -> (i <= j)%nat -> (x <= y)%Q.
Proof.
  intros Hs. revert i j.
  induction Hs as [| a l Hs IH Hall]; intros i j Hi Hj Hij; [done |].
  destruct i as [| i], j as [| j]; simpl in *.
  - injection Hi as <-. injection Hj as <-. apply Qle_refl.
  - injection Hi as <-. rewrite List.Forall_forall in Hall.
    apply Hall, list_elem_of_In, list_elem_of_lookup. eauto.
  - lia.
  - eapply IH; [done | done | lia].
Qed.

Lemma filter_all_length (P : Q -> Prop) `{forall x, Decision (P x)} (l : list Q) :
  Forall P l -> length (filter P l) = length l.
Proof.
  induction 1 as [| x l Hx _ IH]; [done |].
  rewrite filter_cons_True by done. simpl. by rewrite IH.
Qed.

Lemma filter_split_length (P : Q -> Prop) `{forall x, Decision (P x)} (l : list Q) :
  (length (filter P l) + length (filter (fun x => ~ P x) l) = length l)%nat.
Proof.
  induction l as [| x l IH]; [done |].
  destruct (decide (P x)) as [Hx | Hx].
  - rewrite (filter_cons_True P) by done.
    rewrite (filter_cons_False (fun x => ~ P x)) by tauto. simpl. lia.
  - rewrite (filter_cons_False P) by done.
    rewrite (filter_cons_True (fun x => ~ P x)) by done. simpl. lia.
Qed.

End PercentileFacts.

(** X9.  On a non-empty list of [n] values, [_p95] is one of the values,
    and at least [ceil(0.95 * n)] of the values are at most it: no more
    than [n - ceil(0.95 * n)] values lie above the reported percentile. *)
Theorem X9_p95_is_a_value_covering_95_percent :
  forall v vs,
    let values := v :: vs in
    let n := Py.len values in
    let p := _p95 values in
    p ∈ values
    /\ Qceiling ((95 # 100) * inject_Z n)
       <= Py.len (filter (fun x => (x <= p)%Q) values)
    /\ Py.len (filter (fun x => ~ (x <= p)%Q) values)
       <= n - Qceiling ((95 # 100) * inject_Z n).
Proof.
  intros v vs values n p.
  pose proof Qle_total. pose proof Qle_transitive.
  set (sorted_values := Num.sorted values).
  assert (Hperm : Permutation sorted_values values)
    by apply merge_sort_Permutation.
  assert (Hsorted : StronglySorted Qle sorted_values)
    by (by apply StronglySorted_merge_sort).
  assert (Hlen : Py.len sorted_values = n).
  { unfold n, Py.len. by rewrite (Permutation_length Hperm). }
  assert (Hn : 1 <= n) by (unfold n, values, Py.len; simpl; lia).
  pose proof (p95_index_in_range n Hn) as Hrange.
  set (c := Qceiling ((95 # 100) * inject_Z n)) in *.
  set (i := Z.to_nat (c - 1)).
  assert (Hp : sorted_values !! i = Some p).
  { unfold p, _p95, values. fold values. fold sorted_values. rewrite Hlen. fold c.
    replace (Z.to_nat (Z.max 0 (Z.min (n - 1) (c - 1)))) with i by (unfold i; lia).
    destruct (nth_lookup_or_length sorted_values i 0%Q) as [Hl | Hl]; [done |].
    unfold Py.len in Hlen. unfold i in Hl. lia. }
  assert (Hfilter : length (filter (fun x => (x <= p)%Q) sorted_values)
                    = length (filter (fun x => (x <= p)%Q) values)).
  { apply Permutation_length. by rewrite Hperm. }
  assert (Hcount : c <= Py.len (filter (fun x => (x <= p)%Q) values)).
  { unfold Py.len. rewrite <- Hfilter.
    rewrite <- (take_drop (S i) sorted_values), filter_app, length_app.
    rewrite filter_all_length.
    - rewrite length_take. unfold Py.len in Hlen. unfold i. lia.
    - apply Forall_forall. intros x Hx.
      apply list_elem_of_lookup in Hx as [j Hj].
      apply lookup_take_Some in Hj as [Hj Hlt].
      eapply StronglySorted_lookup_le; [done | exact Hj | exact Hp | lia]. }
  split_and!.
  - rewrite <- Hperm. apply list_elem_of_lookup. eauto.
  - exact Hcount.
  - pose proof (filter_split_length (fun x => (x <= p)%Q) values) as Hsplit.
    unfold Py.len in *. unfold n, Py.len. lia.
Qed.

(** ** The evaluation loop, continued *)

Section LoopInvariants.

Variable env : Env.
Variable k : Z.
Variable pt : option PromptTemplate.

(** A property of the accumulators and the world that every normal round
    keeps holds when the loop ends normally. *)
Lemma for_each_invariant (I : Acc -> World -> Prop) rows :
  (forall acc row w w' acc',
     I acc w -> evaluate_row env k pt acc row w = (w', Ok acc') -> I acc' w') ->
  forall acc0 w0 acc w,
    I acc0 w0 ->
    for_each rows (evaluate_row env k pt) acc0 w0 = (w, Ok acc) ->
    I acc w.
Proof.
  intros Hstep. induction rows as [| row rows IH]; intros acc0 w0 acc w H0; simpl.
  - by intros [= <- <-].
  - unfold bind.
    destruct (evaluate_row env k pt acc0 row w0) as [w1 [acc1 | e]] eqn:E; [| done].
    apply IH. by eapply Hstep.
Qed.

(** What a normal round does to the clock and to the latency lists: six
    clock readings, from which the three latencies are taken. *)
Lemma evaluate_row_clock acc row w w' acc' :
  evaluate_row env k pt acc row w = (w', Ok acc') ->
  exists rec,
    acc_per_question acc' = acc_per_question acc ++ [rec]
    /\ clock_reads w' = (clock_reads w + 6)%nat
    /\ stored_messages w' = stored_messages w
    /\ (let t := perf_counter_at env in
        let n := clock_reads w in
        let retrieval_ms := ((t (n + 2)%nat - t (n + 1)%nat) * 1000)%Q in
        let generation_ms := ((t (n + 4)%nat - t (n + 3)%nat) * 1000)%Q in
        let total_ms := ((t (n + 5)%nat - t n) * 1000)%Q in
        acc_retrieval_latencies acc' = acc_retrieval_latencies acc ++ [retrieval_ms]
        /\ acc_generation_latencies acc'
           = acc_generation_latencies acc ++ [generation_ms]
        /\ acc_total_latencies acc' = acc_total_latencies acc ++ [total_ms]
        /\ retrieval_latency_ms rec = Num.round retrieval_ms 2
        /\ generation_latency_ms rec = Num.round generation_ms 2
        /\ total_latency_ms rec = Num.round total_ms 2).
Proof.
  unfold evaluate_row, bind, perf_counter, RAGService.embed_text, ret.
  cbn [clock_reads embed_calls chat_calls stored_messages output_file].
  destruct (embeddings_create env _ _) as [emb | e] eqn:Eemb; [| done].
  replace (S (S (clock_reads w))) with (clock_reads w + 2)%nat by lia.
  replace (S (clock_reads w)) with (clock_reads w + 1)%nat by lia.
  destruct (RAGService.find_relevant_chunks env emb) as [| ch chs] eqn:Ech.
  - cbn [clock_reads embed_calls chat_calls stored_messages output_file].
    intros [= <- <-]. eexists.
    cbn [clock_reads stored_messages acc_per_question acc_retrieval_latencies
         acc_generation_latencies acc_total_latencies retrieval_latency_ms
         generation_latency_ms total_latency_ms].
    replace (S (S (S (clock_reads w + 2)))) with (clock_reads w + 5)%nat by lia.
    replace (S (S (clock_reads w + 2))) with (clock_reads w + 4)%nat by lia.
    replace (S (clock_reads w + 2)) with (clock_reads w + 3)%nat by lia.
    split_and!; try done; lia.
  - unfold RAGService.generate_answer, bind, RAGService.chat_create, ret.
    cbn [clock_reads embed_calls chat_calls stored_messages output_file].
    match goal with
    | |- context [chat_completions_create env ?n ?m] =>
        destruct (chat_completions_create env n m) as [resp | e] eqn:Echat
    end; [| done].
    intros [= <- <-]. eexists.
    cbn [clock_reads stored_messages acc_per_question acc_retrieval_latencies
         acc_generation_latencies acc_total_latencies retrieval_latency_ms
         generation_latency_ms total_latency_ms].
    replace (S (S (S (clock_reads w + 2)))) with (clock_reads w + 5)%nat by lia.
    replace (S (S (clock_reads w + 2))) with (clock_reads w + 4)%nat by lia.
    replace (S (clock_reads w + 2)) with (clock_reads w + 3)%nat by lia.
    split_and!; try done; lia.
Qed.

(** A normal round makes one generation call exactly when something was
    retrieved, that is when the record's source list is not empty. *)
Lemma evaluate_row_chat_calls acc row w w' acc' :
  evaluate_row env k pt acc row w = (w', Ok acc') ->
  exists rec,
    acc_per_question acc' = acc_per_question acc ++ [rec]
    /\ length (chat_calls w')
       = (length (chat_calls w)
          + if bool_decide (retrieved_sources rec = []) then 0 else 1)%nat.
Proof.
  intros Hrun.
  destruct (evaluate_row_ok _ _ _ _ _ _ _ _ Hrun) as (emb & ans & rec & Hok).
  exists rec. destruct_row_ok Hok. split; [done |].
  rewrite Hretrieved. unfold unique_sources_of.
  destruct (RAGService.find_relevant_chunks env emb) as [| ch chs] eqn:Ech.
  - destruct (Hno_chunks eq_refl) as [_ ->]. simpl. lia.
  - destruct (Hsome_chunks ltac:(done)) as (m & r & -> & _).
    change (map source (ch :: chs)) with (source ch :: map source chs).
    rewrite dict_fromkeys_cons.
    rewrite bool_decide_eq_false_2 by done.
    rewrite length_app. simpl. lia.
Qed.

End LoopInvariants.

(** ** Scores of one record *)

Section ScoreRanges.

Variable k : Z.
Variable o : option pystr.
Variable u : list pystr.

Lemma slice_to_is_take {A} (l : list A) (n : Z) :
  exists m : nat, Py.slice_to l n = take m l /\ (0 <= n -> (m <= Z.to_nat n)%nat).
Proof.
  unfold Py.slice_to, Py.slice.
  assert (H0 : Py.clip (Py.len l) 0 = 0).
  { unfold Py.clip. simpl. pose proof (len_nonneg l). lia. }
  rewrite H0. simpl. rewrite Z.sub_0_r.
  exists (Z.to_nat (Py.clip (Py.len l) n)). split; [done |].
  intros Hn. unfold Py.clip. destruct (Z.ltb_spec n 0); lia.
Qed.

Lemma opt_in_slice_mono (a b : Z) :
  0 <= a <= b ->
  opt_in o (Py.slice_to u a) = true -> opt_in o (Py.slice_to u b) = true.
Proof.
  intros Hab. destruct o as [e |]; simpl; [| done].
  rewrite !slice_to_take by lia.
  rewrite !bool_decide_eq_true. intros He.
  apply list_elem_of_lookup in He as [i Hi].
  apply lookup_take_Some in Hi as [Hi Hlt].
  apply list_elem_of_lookup. exists i. rewrite lookup_take_lt by lia. done.
Qed.

Lemma hit_flags :
  (hit_at_1_of o u = 0 \/ hit_at_1_of o u = 1)
  /\ (hit_at_3_of o u = 0 \/ hit_at_3_of o u = 1)
  /\ (hit_at_4_of o u = 0 \/ hit_at_4_of o u = 1).
Proof.
  unfold hit_at_1_of, hit_at_3_of, hit_at_4_of.
  destruct (opt_truthy o); [| auto].
  split_and!; match goal with |- context [Z.b2z ?b] => destruct b end; auto.
Qed.

(** A hit at 1 is a hit at 3, and a hit at 3 is a hit at 4. *)
Lemma hit_monotone :
  hit_at_1_of o u <= hit_at_3_of o u /\ hit_at_3_of o u <= hit_at_4_of o u.
Proof.
  unfold hit_at_1_of, hit_at_3_of, hit_at_4_of, top_source_of.
  destruct (opt_truthy o) eqn:Ho; [| done].
  split.
  - case_bool_decide as H1; [| destruct (opt_in _ _); simpl; lia].
    destruct o as [e |]; [| done]. simpl.
    rewrite slice_to_take by lia.
    rewrite bool_decide_eq_true_2; [done |].
    apply list_elem_of_lookup. exists 0%nat. by rewrite lookup_take_lt by lia.
  - destruct (opt_in o (Py.slice_to u 3)) eqn:H3.
    + by rewrite (opt_in_slice_mono 3 4) by (done || lia).
    + destruct (opt_in o (Py.slice_to u 4)); simpl; lia.
Qed.

(** A rank is a position of the expected source in the source list. *)
Lemma rank_of_position (r : Z) :
  rank_of k o u = Some r ->
  exists e,
    o = Some e /\ e <> []
    /\ 1 <= r <= Py.len u
    /\ u !! Z.to_nat (r - 1) = Some e
    /\ (0 <= k -> r <= k)
    /\ reciprocal_rank_of k o u = Qred (1 / inject_Z r).
Proof.
  unfold reciprocal_rank_of, rank_of.
  destruct o as [e |]; simpl; [| done].
  destruct (Py.truthy e) eqn:He; [| done]. simpl.
  case_bool_decide as Hin; [| done].
  intros [= <-].
  destruct (slice_to_is_take u k) as (m & Htake & Hm).
  rewrite Htake in *.
  destruct (index_lookup e _ Hin) as (H0 & Hl & _).
  apply lookup_take_Some in Hl as [Hl Hlt].
  pose proof (lookup_lt_Some _ _ _ Hl) as Hlen.
  exists e. split_and!.
  - done.
  - by destruct e.
  - lia.
  - unfold Py.len. lia.
  - by replace (Z.to_nat (index e (take m u) + 1 - 1))
      with (Z.to_nat (index e (take m u))) by lia.
  - intros Hk. specialize (Hm Hk). lia.
  - done.
Qed.

Lemma rank_of_hit_1 :
  1 <= k -> (hit_at_1_of o u = 1 <-> rank_of k o u = Some 1).
Proof.
  intros Hk. unfold hit_at_1_of, rank_of, top_source_of.
  destruct o as [e |]; simpl; [| done].
  destruct (Py.truthy e) eqn:He; [| done]. simpl.
  rewrite slice_to_take by lia.
  split.
  - case_bool_decide as H1; [| done]. intros _.
    assert (Hin : e ∈ take (Z.to_nat k) u).
    { apply list_elem_of_lookup. exists 0%nat. by rewrite lookup_take_lt by lia. }
    rewrite bool_decide_eq_true_2 by done.
    destruct u as [| x u']; [done |]. injection H1 as ->.
    replace (Z.to_nat k) with (S (Z.to_nat k - 1)) by lia. simpl.
    by rewrite bool_decide_eq_true_2.
  - case_bool_decide as Hin; [| done]. intros [= Hidx].
    destruct (index_lookup e _ Hin) as (H0 & Hl & _).
    replace (index e (take (Z.to_nat k) u)) with 0 in Hl by lia.
    apply lookup_take_Some in Hl as [Hl _]. simpl in Hl.
    by rewrite bool_decide_eq_true_2.
Qed.

Lemma rank_of_hit_4 :
  hit_at_4_of o u = 1 <-> is_Some (rank_of 4 o u).
Proof.
  unfold hit_at_4_of, rank_of.
  destruct (opt_truthy o); simpl; [| split; [done | by intros [? ?]]].
  destruct (opt_in o (Py.slice_to u 4)); simpl; split; done.
Qed.

Lemma reciprocal_rank_range :
  (0 <= reciprocal_rank_of k o u)%Q /\ (reciprocal_rank_of k o u <= 1)%Q.
Proof.
  destruct (rank_of k o u) as [r |] eqn:Hr.
  - destruct (rank_of_position r Hr) as (e & _ & _ & Hr1 & _ & _ & ->).
    rewrite Qred_correct.
    destruct r as [| r | r]; [lia | | lia].
    unfold Qle, Qdiv, Qmult, Qinv. simpl. lia.
  - unfold reciprocal_rank_of. by rewrite Hr.
Qed.

Lemma precision_range :
  (0 <= precision_at_k_of k o u)%Q /\ (precision_at_k_of k o u <= 1)%Q.
Proof.
  unfold precision_at_k_of. rewrite Qred_correct.
  assert (Hd : 1 <= Z.max 1 (Z.min k (Py.len u))) by lia.
  destruct (Z.max 1 (Z.min k (Py.len u))) as [| d | d]; [lia | | lia].
  destruct (opt_in _ _); unfold Qle, Qdiv, Qmult, Qinv; simpl; lia.
Qed.

End ScoreRanges.

Lemma grounding_flags ans ctx :
  (answer_non_empty_of ans = 0 \/ answer_non_empty_of ans = 1)
  /\ (refused_of ans = 0 \/ refused_of ans = 1)
  /\ (grounded_of ans ctx = 0 \/ grounded_of ans ctx = 1)
  /\ (grounded_of ans ctx = 1 ->
      answer_non_empty_of ans = 1
      /\ (15 # 100 <= answer_context_overlap_of ans ctx)%Q).
Proof.
  unfold answer_non_empty_of, refused_of, grounded_of.
  destruct (Py.truthy (Py.strip ans)); simpl.
  - split_and!; [auto | destruct (Py.contains _ _); auto | |].
    + case_bool_decide; auto.
    + case_bool_decide; [done | done].
  - split_and!; [auto | destruct (Py.contains _ _); auto | auto | done].
Qed.

(** ** Reports, continued *)

(** Every record of a returned report was appended by a normal round for
    one of the ground-truth cases. *)
Lemma report_records env path file k tid w w' report :
  evaluate_and_save env path file k tid w = (w', Ok report) ->
  exists ground_truth,
    file = Some ground_truth
    /\ Forall2 (row_record env k) ground_truth (per_question report).
Proof.
  intros Hrun.
  apply evaluate_and_save_ok in Hrun
    as (gt & w0 & w1 & acc & Hfile & _ & _ & Hloop & Hpq & _).
  destruct (for_each_ok _ _ _ _ _ _ _ _ Hloop) as (recs & Hrecs & Hrows & _).
  simpl in Hrecs. exists gt. split; [done |]. by rewrite Hpq, Hrecs.
Qed.

Lemma Forall2_right {A B} (R : A -> B -> Prop) (P : B -> Prop) l1 l2 :
  Forall2 R l1 l2 -> (forall x y, R x y -> P y) -> Forall P l2.
Proof. induction 1; intros HP; constructor; eauto. Qed.

(** X10.  Every record of a report is consistent with itself: the three
    hit flags and the three answer flags are 0 or 1; a hit at 1 is a hit at
    3 and a hit at 3 a hit at 4; the source list has no duplicate and
    [top_source] is its first element; a non-null [source_rank] [r] lies
    between 1 and the number of sources (and is at most [top_k]), and the
    source at position [r] is the expected source; for [top_k >= 1],
    [hit_at_1] is 1 exactly when the rank is 1; for [top_k = 4], [hit_at_4]
    is 1 exactly when there is a rank; a grounded answer is a non-empty one;
    and [answer_chars] is the length of the answer. *)
Theorem X10_records_are_consistent env path file k tid w w' report :
  evaluate_and_save env path file k tid w = (w', Ok report) ->
  Forall (fun rec =>
            let u := retrieved_sources rec in
            ((hit_at_1 rec = 0 \/ hit_at_1 rec = 1)
             /\ (hit_at_3 rec = 0 \/ hit_at_3 rec = 1)
             /\ (hit_at_4 rec = 0 \/ hit_at_4 rec = 1))
            /\ ((answer_non_empty rec = 0 \/ answer_non_empty rec = 1)
                /\ (is_refusal rec = 0 \/ is_refusal rec = 1)
                /\ (is_grounded rec = 0 \/ is_grounded rec = 1))
            /\ (hit_at_1 rec <= hit_at_3 rec /\ hit_at_3 rec <= hit_at_4 rec)
            /\ NoDup u
            /\ top_source rec = u !! 0%nat
            /\ (forall r, source_rank rec = Some r ->
                  1 <= r <= Py.len u
                  /\ (0 <= k -> r <= k)
                  /\ exists e, expected_source rec = Some e
                               /\ e <> []
                               /\ u !! Z.to_nat (r - 1) = Some e)
            /\ (1 <= k -> (hit_at_1 rec = 1 <-> source_rank rec = Some 1))
            /\ (k = 4 -> (hit_at_4 rec = 1 <-> is_Some (source_rank rec)))
            /\ (is_grounded rec = 1 -> answer_non_empty rec = 1)
            /\ answer_chars rec = Py.len (answer rec))
         (per_question report).
Proof.
  intros Hrun.
  destruct (report_records _ _ _ _ _ _ _ _ Hrun) as (gt & _ & Hrows).
  apply (Forall2_right _ _ _ _ Hrows).
  intros row rec (acc & w1 & w2 & acc' & emb & ans & Hok).
  destruct_row_ok Hok. cbn zeta.
  rewrite Hhit1, Hhit3, Hhit4, Hnon_empty, Hrefusal, Hgrounded, Hrank, Htop,
          Hanswer_chars, Hanswer.
  pose proof (grounding_flags ans
                (context_text_of (RAGService.find_relevant_chunks env emb)))
    as (Hf1 & Hf2 & Hf3 & Hf4).
  split_and!.
  - apply hit_flags.
  - apply hit_flags.
  - apply hit_flags.
  - done.
  - done.
  - done.
  - apply hit_monotone.
  - apply hit_monotone.
  - rewrite Hretrieved. apply dict_fromkeys_NoDup, NoDup_nil_2.
  - done.
  - intros r Hr.
    destruct (rank_of_position _ _ _ _ Hr) as (e & He & Hne & Hr1 & Hl & Hk & _).
    split_and!; [lia | lia | done |]. exists e. by rewrite He.
  - intros Hk. by apply rank_of_hit_1.
  - intros ->. apply rank_of_hit_4.
  - intros Hg. by apply Hf4.
  - done.
Qed.

Lemma X10_records_are_consistent_witness :
  Forall (fun rec => hit_at_1 rec <= hit_at_3 rec /\ hit_at_3 rec <= hit_at_4 rec)
         (per_question (report_or_empty (demo_run None))).
Proof.
  pose proof (X10_records_are_consistent (demo_env None)
                (py "eval/ground_truth_rag.json") (Some demo_ground_truth) 4
                (py "persona_professional") initial_world
                (fst (demo_run None)) (report_or_empty (demo_run None))) as H.
  eapply Forall_impl; [apply H; by vm_compute |].
  intros rec (_ & _ & Hm & _). exact Hm.
Defined.

(** ** Whole runs *)

(** Writing the report touches nothing but the output file. *)
Lemma evaluate_and_save_world env path file k tid w w' report :
  evaluate_and_save env path file k tid w = (w', Ok report) ->
  exists ground_truth w0 w1 acc,
    file = Some ground_truth
    /\ bootstrap_ingest env w = (w0, Ok tt)
    /\ for_each ground_truth
         (evaluate_row env k (get_prompt_template (Some tid))) empty_acc w0
       = (w1, Ok acc)
    /\ per_question report = acc_per_question acc
    /\ metrics report = build_metrics acc
    /\ clock_reads w' = clock_reads w1
    /\ embed_calls w' = embed_calls w1
    /\ chat_calls w' = chat_calls w1
    /\ stored_messages w' = stored_messages w1.
Proof.
  unfold evaluate_and_save.
  destruct file as [ground_truth |]; [| done].
  unfold bind, RAGService.init, write_report, ret, raise.
  destruct (bootstrap_ingest env w) as [w0 [[] | e]] eqn:Eb; [| done].
  destruct (Py.truthy (openai_api_key env)) eqn:Ekey; [| done].
  destruct (for_each ground_truth _ empty_acc w0) as [w1 [acc | e]] eqn:El; [| done].
  intros [= <- <-]. by exists ground_truth, w0, w1, acc.
Qed.

(** X13.  On an empty ground-truth set the run still returns a report: it
    has no record, its 20 metrics are all 0.0 (no mean divides by zero),
    and no embedding or generation call and no clock reading is made after
    the set-up. *)
Theorem X13_empty_ground_truth env path k tid w w0 :
  bootstrap_ingest env w = (w0, Ok tt) ->
  Py.truthy (openai_api_key env) = true ->
  exists w' report,
    evaluate_and_save env path (Some []) k tid w = (w', Ok report)
    /\ per_question report = []
    /\ total_metrics report = 20
    /\ Forall (fun m => metric_value m = 0%Q) (metrics report)
    /\ output_file w' = Some report
    /\ embed_calls w' = embed_calls w0
    /\ chat_calls w' = chat_calls w0
    /\ clock_reads w' = clock_reads w0.
Proof.
  intros Hboot Hkey.
  unfold evaluate_and_save, bind, RAGService.init, write_report, ret, raise.
  rewrite Hboot, Hkey. simpl.
  eexists _, _. split_and!; try reflexivity.
  simpl. repeat constructor.
Qed.

Lemma X13_empty_ground_truth_witness :
  exists w' report,
    evaluate_and_save (demo_env None) (py "eval/ground_truth_rag.json")
      (Some []) 4 (py "persona_professional") initial_world = (w', Ok report)
    /\ per_question report = []
    /\ Forall (fun m => metric_value m = 0%Q) (metrics report).
Proof.
  destruct (X13_empty_ground_truth (demo_env None) (py "eval/ground_truth_rag.json")
              4 (py "persona_professional") initial_world initial_world)
    as (w' & report & Hrun & Hpq & _ & Hzero & _); [reflexivity | reflexivity |].
  exists w', report. split_and!; [exact Hrun | exact Hpq | exact Hzero].
Defined.

(** X14.  A run that returns has made, after the set-up, exactly one
    embedding call per ground-truth case, in order and each on the trimmed
    question; exactly one generation call per case whose source list is not
    empty (none for a case that retrieved nothing); and six clock readings
    per case. *)
Theorem X14_calls_per_case env path file k tid w w' report :
  evaluate_and_save env path file k tid w = (w', Ok report) ->
  exists ground_truth w0,
    file = Some ground_truth
    /\ bootstrap_ingest env w = (w0, Ok tt)
    /\ embed_calls w' = embed_calls w0 ++ map row_question ground_truth
    /\ map question (per_question report) = map row_question ground_truth
    /\ length (chat_calls w')
       = (length (chat_calls w0)
          + length (filter (fun rec => retrieved_sources rec <> [])
                           (per_question report)))%nat
    /\ clock_reads w' = (clock_reads w0 + 6 * length ground_truth)%nat.
Proof.
  intros Hrun.
  apply evaluate_and_save_world in Hrun
    as (gt & w0 & w1 & acc & Hfile & Hboot & Hloop & Hpq & _ & Hclock & Hemb & Hchat & _).
  exists gt, w0. rewrite Hclock, Hemb, Hchat, Hpq.
  destruct (for_each_ok _ _ _ _ _ _ _ _ Hloop)
    as (recs & Hrecs & Hrows & _ & _ & _ & _ & Hcalls).
  simpl in Hrecs.
  split_and!; [done | done | done | | |].
  - rewrite Hrecs. clear -Hrows.
    induction Hrows as [| row rec rows recs Hrow _ IH]; [done |].
    destruct Hrow as (acc & w1 & w2 & acc' & emb & ans & Hok).
    simpl. by rewrite IH, (ro_question _ _ _ _ _ _ _ _ _ _ Hok).
  - pose (I := fun (a : Acc) (x : World) =>
                 (length (chat_calls x)
                  + length (filter (fun rec => retrieved_sources rec <> [])
                                   (acc_per_question empty_acc))
                  = length (chat_calls w0)
                    + length (filter (fun rec => retrieved_sources rec <> [])
                                     (acc_per_question a)))%nat).
    assert (HI : I acc w1); [| unfold I in HI; simpl in HI; lia].
    eapply (for_each_invariant env k _ I); [| | exact Hloop]; [| unfold I; simpl; lia].
    intros a row x x' a' Ha Hrow. unfold I in *.
    destruct (evaluate_row_chat_calls _ _ _ _ _ _ _ _ Hrow) as (rec & -> & ->).
    rewrite filter_app, length_app.
    case_bool_decide as Hu.
    + rewrite filter_cons_False, filter_nil by tauto. simpl in *. lia.
    + rewrite filter_cons_True, filter_nil by done. simpl in *. lia.
  - pose (I := fun (a : Acc) (x : World) =>
                 (clock_reads x + 6 * length (acc_per_question empty_acc)
                  = clock_reads w0 + 6 * length (acc_per_question a))%nat).
    assert (HI : I acc w1).
    { eapply (for_each_invariant env k _ I); [| | exact Hloop]; [| unfold I; simpl; lia].
      intros a row x x' a' Ha Hrow. unfold I in *.
      destruct (evaluate_row_clock _ _ _ _ _ _ _ _ Hrow) as (rec & -> & -> & _).
      rewrite length_app. simpl in *. lia. }
    unfold I in HI. simpl in HI. rewrite <- Hrecs in Hrows.
    apply Forall2_length in Hrows. lia.
Qed.

Lemma X14_calls_per_case_witness :
  embed_calls (fst (demo_run None))
  = [py "What is the refund window?"; py "How do I contact support?"; py ""]
  /\ length (chat_calls (fst (demo_run None))) = 2%nat
  /\ clock_reads (fst (demo_run None)) = 18%nat.
Proof.
  destruct (X14_calls_per_case (demo_env None) (py "eval/ground_truth_rag.json")
              (Some demo_ground_truth) 4 (py "persona_professional")
              initial_world (fst (demo_run None)) (report_or_empty (demo_run None)))
    as (gt & w0 & Hfile & Hboot & Hemb & _ & Hchat & Hclock); [by vm_compute |].
  injection Hfile as <-. injection Hboot as <-.
  split_and!.
  - rewrite Hemb. reflexivity.
  - rewrite Hchat. by vm_compute.
  - rewrite Hclock. reflexivity.
Defined.

(** X17.  Set-up failures end the run before any case is evaluated.  Without
    a ground-truth file the run raises [FileNotFoundError] naming the path
    and touches nothing; when the bootstrap raises, so does the run; and
    with an empty API key it raises [ValueError] right after the bootstrap,
    without any provider call, clock reading or output of its own. *)
Theorem X17_setup_failures env path ground_truth k tid w :
  evaluate_and_save env path None k tid w
  = (w, Raise (FileNotFoundError (py "Ground truth file not found: " ++ path)))
  /\ (forall w0 e,
        bootstrap_ingest env w = (w0, Raise e) ->
        evaluate_and_save env path (Some ground_truth) k tid w = (w0, Raise e))
  /\ (forall w0,
        bootstrap_ingest env w = (w0, Ok tt) ->
        openai_api_key env = [] ->
        evaluate_and_save env path (Some ground_truth) k tid w
        = (w0, Raise (ValueError (py "OPENAI_API_KEY is not configured")))).
Proof.
  split_and!.
  - reflexivity.
  - intros w0 e Hb. unfold evaluate_and_save, bind. by rewrite Hb.
  - intros w0 Hb Hkey.
    unfold evaluate_and_save, bind, RAGService.init, raise.
    by rewrite Hb, Hkey.
Qed.

Lemma X17_setup_failures_witness :
  let env :=
    {| perf_counter_at := perf_counter_at (demo_env None);
       embeddings_create := embeddings_create (demo_env None);
       chat_completions_create := chat_completions_create (demo_env None);
       documents_query := documents_query (demo_env None);
       openai_api_key := [];
       rag_top_k := 4;
       utc_now_iso := utc_now_iso (demo_env None);
       bootstrap_ingest := fun w => (w, Ok tt) |} in
  evaluate_and_save env (py "eval/ground_truth_rag.json") (Some demo_ground_truth)
    4 (py "persona_professional") initial_world
  = (initial_world, Raise (ValueError (py "OPENAI_API_KEY is not configured"))).
Proof.
  intros env.
  destruct (X17_setup_failures env (py "eval/ground_truth_rag.json")
              demo_ground_truth 4 (py "persona_professional") initial_world)
    as (_ & _ & Hkey).
  apply Hkey; reflexivity.
Defined.

(** ** Metric values *)

Section MeanFacts.

Lemma sum_app (l1 l2 : list Q) :
  (Num.sum (l1 ++ l2) == Num.sum l1 + Num.sum l2)%Q.
Proof.
  unfold Num.sum. induction l1 as [| x l1 IH]; simpl.
  - by rewrite Qplus_0_l.
  - by rewrite IH, Qplus_assoc.
Qed.

Lemma sum_mono (l1 l2 : list Q) :
  Forall2 Qle l1 l2 -> (Num.sum l1 <= Num.sum l2)%Q.
Proof.
  unfold Num.sum. induction 1; simpl; [apply Qle_refl |].
  by apply Qplus_le_compat.
Qed.

(** The mean is monotone: larger values, larger mean. *)
Lemma _safe_mean_mono (l1 l2 : list Q) :
  Forall2 Qle l1 l2 -> (_safe_mean l1 <= _safe_mean l2)%Q.
Proof.
  intros H. pose proof (sum_mono _ _ H) as Hs.
  pose proof (Forall2_length _ _ _ H) as Hlen.
  destruct H as [| x y l1 l2 Hxy H]; [apply Qle_refl |].
  rewrite !_safe_mean_cons.
  unfold Py.len. rewrite <- Hlen.
  apply Qmult_le_compat_r; [done |].
  apply Qinv_le_0_compat.
  change 0%Q with (inject_Z 0). rewrite <- Zle_Qle. lia.
Qed.

Lemma of_ints_le (f g : EvaluationRecord -> Z) (recs : list EvaluationRecord) :
  Forall (fun rec => f rec <= g rec) recs ->
  Forall2 Qle (Num.of_ints (map f recs)) (Num.of_ints (map g recs)).
Proof.
  unfold Num.of_ints.
  induction 1 as [| rec recs Hle _ IH]; simpl; constructor; [| done].
  by rewrite <- Zle_Qle.
Qed.

Lemma of_ints_unit (f : EvaluationRecord -> Z) (recs : list EvaluationRecord) :
  Forall (fun rec => f rec = 0 \/ f rec = 1) recs ->
  Forall (fun v => (0 <= v)%Q /\ (v <= 1)%Q) (Num.of_ints (map f recs)).
Proof.
  unfold Num.of_ints.
  induction 1 as [| rec recs Hle _ IH]; simpl; constructor; [| done].
  destruct Hle as [-> | ->]; done.
Qed.

End MeanFacts.

(** The two lists of lexical scores the loop fills hold values between 0
    and 1. *)
Lemma for_each_lexical_ranges env k pt rows w0 acc w :
  for_each rows (evaluate_row env k pt) empty_acc w0 = (w, Ok acc) ->
  Forall (fun v => (0 <= v)%Q /\ (v <= 1)%Q) (acc_answer_context_overlaps acc)
  /\ Forall (fun v => (0 <= v)%Q /\ (v <= 1)%Q) (acc_expected_keyword_coverages acc).
Proof.
  apply (for_each_invariant env k pt
           (fun a _ =>
              Forall (fun v => (0 <= v)%Q /\ (v <= 1)%Q) (acc_answer_context_overlaps a)
              /\ Forall (fun v => (0 <= v)%Q /\ (v <= 1)%Q)
                   (acc_expected_keyword_coverages a))).
  - intros a row x x' a' [Ho Hc] Hrow.
    destruct (evaluate_row_ok _ _ _ _ _ _ _ _ Hrow) as (emb & ans & rec & Hok).
    destruct_row_ok Hok. rewrite Hoverlaps, Hcoverages.
    split; apply Forall_app; (split; [done |]); constructor; try done.
    + apply answer_context_overlap_range.
    + apply expected_keyword_coverage_range.
  - split; constructor.
Qed.

(** The flags of the records of a report. *)
Lemma report_flags env path file k tid w w' report :
  evaluate_and_save env path file k tid w = (w', Ok report) ->
  Forall (fun rec =>
            (hit_at_1 rec = 0 \/ hit_at_1 rec = 1)
            /\ (hit_at_3 rec = 0 \/ hit_at_3 rec = 1)
            /\ (hit_at_4 rec = 0 \/ hit_at_4 rec = 1)
            /\ (answer_non_empty rec = 0 \/ answer_non_empty rec = 1)
            /\ (is_refusal rec = 0 \/ is_refusal rec = 1)
            /\ (is_grounded rec = 0 \/ is_grounded rec = 1)
            /\ hit_at_1 rec <= hit_at_3 rec
            /\ hit_at_3 rec <= hit_at_4 rec)
         (per_question report).
Proof.
  intros Hrun.
  destruct (report_records _ _ _ _ _ _ _ _ Hrun) as (gt & _ & Hrows).
  apply (Forall2_right _ _ _ _ Hrows).
  intros row rec (acc & w1 & w2 & acc' & emb & ans & Hok).
  destruct_row_ok Hok.
  rewrite Hhit1, Hhit3, Hhit4, Hnon_empty, Hrefusal, Hgrounded.
  pose proof (grounding_flags ans
                (context_text_of (RAGService.find_relevant_chunks env emb)))
    as (Hf1 & Hf2 & Hf3 & _).
  pose proof (hit_flags (expected_source rec) (retrieved_sources rec))
    as (Hh1 & Hh3 & Hh4).
  pose proof (hit_monotone (expected_source rec) (retrieved_sources rec))
    as (Hm1 & Hm3).
  done.
Qed.

(** X12.  In every report, each metric whose unit is ratio has a value
    between 0 and 1. *)
Theorem X12_ratio_metrics_in_unit_interval env path file k tid w w' report :
  evaluate_and_save env path file k tid w = (w', Ok report) ->
  Forall (fun m =>
            unit_ m = py "ratio" ->
            (0 <= metric_value m)%Q /\ (metric_value m <= 1)%Q)
         (metrics report).
Proof.
  intros Hrun.
  pose proof (report_flags _ _ _ _ _ _ _ _ Hrun) as Hflags.
  apply evaluate_and_save_ok in Hrun
    as (gt & w0 & w1 & acc & _ & _ & _ & Hloop & Hpq & -> & _).
  destruct (for_each_ok _ _ _ _ _ _ _ _ Hloop)
    as (recs & Hrecs & _ & _ & Hprec & Hrr & _).
  destruct (for_each_lexical_ranges _ _ _ _ _ _ _ Hloop) as [Hov Hcov].
  simpl in Hrecs, Hprec, Hrr. rewrite Hpq, Hrecs in Hflags.
  unfold build_metrics. rewrite Hprec, Hrr, Hrecs.
  assert (Hcol : forall f : EvaluationRecord -> Z,
             Forall (fun rec => f rec = 0 \/ f rec = 1) recs ->
             (0 <= _safe_mean (Num.of_ints (map f recs)))%Q
             /\ (_safe_mean (Num.of_ints (map f recs)) <= 1)%Q)
    by (intros f Hf; by apply _safe_mean_unit, of_ints_unit).
  assert (Hmap : forall f : EvaluationRecord -> Q,
             (forall rec, (0 <= f rec)%Q /\ (f rec <= 1)%Q) ->
             (0 <= _safe_mean (map f recs))%Q /\ (_safe_mean (map f recs) <= 1)%Q).
  { intros f Hf. apply _safe_mean_unit, Forall_forall.
    intros v Hv. apply list_elem_of_fmap in Hv as (rec & -> & _). apply Hf. }
  repeat (apply Forall_cons; split);
    [ .. | apply Forall_nil_2 ]; unfold _metric; simpl; intros Hunit;
    try discriminate Hunit.
  - apply Hcol. eapply Forall_impl; [exact Hflags |].
    by intros rec (? & ? & ? & ? & ? & ? & _).
  - apply Hcol. eapply Forall_impl; [exact Hflags |].
    by intros rec (? & ? & ? & ? & ? & ? & _).
  - apply Hcol. eapply Forall_impl; [exact Hflags |].
    by intros rec (? & ? & ? & ? & ? & ? & _).
  - apply Hmap. intros rec. apply reciprocal_rank_range.
  - apply Hcol. eapply Forall_impl; [exact Hflags |].
    by intros rec (? & ? & ? & ? & ? & ? & _).
  - apply Hmap. intros rec. apply precision_range.
  - apply Hcol. eapply Forall_impl; [exact Hflags |].
    by intros rec (? & ? & ? & ? & ? & ? & _).
  - apply Hcol. eapply Forall_impl; [exact Hflags |].
    by intros rec (? & ? & ? & ? & ? & ? & _).
  - apply Hcol. eapply Forall_impl; [exact Hflags |].
    by intros rec (? & ? & ? & ? & ? & ? & _).
  - apply Hcol. eapply Forall_impl; [exact Hflags |].
    by intros rec (? & ? & ? & ? & ? & ? & _).
  - by apply _safe_mean_unit.
  - by apply _safe_mean_unit.
Qed.

Lemma X12_ratio_metrics_in_unit_interval_witness :
  Forall (fun m =>
            unit_ m = py "ratio" ->
            (0 <= metric_value m)%Q /\ (metric_value m <= 1)%Q)
         (metrics (report_or_empty (demo_run None))).
Proof.
  apply (X12_ratio_metrics_in_unit_interval (demo_env None)
           (py "eval/ground_truth_rag.json") (Some demo_ground_truth) 4
           (py "persona_professional") initial_world (fst (demo_run None))).
  by vm_compute.
Defined.

(** ** Rates *)

Lemma reciprocal_rank_between_hits k o u :
  (1 <= k -> (inject_Z (hit_at_1_of o u) <= reciprocal_rank_of k o u)%Q)
  /\ (0 <= k <= 4 -> (reciprocal_rank_of k o u <= inject_Z (hit_at_4_of o u))%Q).
Proof.
  split.
  - intros Hk.
    destruct (hit_flags o u) as ([H1 | H1] & _).
    + rewrite H1. apply reciprocal_rank_range.
    + rewrite H1. apply (rank_of_hit_1 k o u Hk) in H1.
      unfold reciprocal_rank_of. by rewrite H1.
  - intros Hk.
    destruct (rank_of k o u) as [r |] eqn:Hr.
    + assert (H4 : hit_at_4_of o u = 1).
      { unfold rank_of in Hr. unfold hit_at_4_of.
        destruct (opt_truthy o); [| done]. simpl in Hr.
        destruct (opt_in o (Py.slice_to u k)) eqn:Hin; [| done].
        by rewrite (opt_in_slice_mono o u k 4) by (done || lia). }
      rewrite H4. apply reciprocal_rank_range.
    + unfold reciprocal_rank_of. rewrite Hr.
      destruct (hit_flags o u) as (_ & _ & [-> | ->]); done.
Qed.

(** X16.  In every report the first metric is the number of ground-truth
    cases; the exact-source-match rate is the hit rate at 1 and the source
    recall at 4 is the hit rate at 4 (the same values); the hit rates are
    ordered, rate at 1 <= rate at 3 <= rate at 4; and for
    [1 <= top_k <= 4] the mean reciprocal rank lies between the hit rate at
    1 and the hit rate at 4. *)
Theorem X16_rates_are_ordered env path file k tid w w' report :
  evaluate_and_save env path file k tid w = (w', Ok report) ->
  exists ground_truth total hit1 hit3 hit4 mrr,
    file = Some ground_truth
    /\ map metric_value (metrics report) !! 0%nat = Some total
    /\ map metric_value (metrics report) !! 1%nat = Some hit1
    /\ map metric_value (metrics report) !! 2%nat = Some hit3
    /\ map metric_value (metrics report) !! 3%nat = Some hit4
    /\ map metric_value (metrics report) !! 4%nat = Some mrr
    /\ map metric_value (metrics report) !! 5%nat = Some hit1
    /\ map metric_value (metrics report) !! 7%nat = Some hit4
    /\ total = inject_Z (Py.len ground_truth)
    /\ (hit1 <= hit3)%Q /\ (hit3 <= hit4)%Q
    /\ (1 <= k -> (hit1 <= mrr)%Q)
    /\ (0 <= k <= 4 -> (mrr <= hit4)%Q).
Proof.
  intros Hrun.
  pose proof (report_flags _ _ _ _ _ _ _ _ Hrun) as Hflags.
  apply evaluate_and_save_ok in Hrun
    as (gt & w0 & w1 & acc & Hfile & _ & _ & Hloop & Hpq & -> & _).
  destruct (for_each_ok _ _ _ _ _ _ _ _ Hloop)
    as (recs & Hrecs & Hrows & _ & _ & Hrr & _).
  simpl in Hrecs, Hrr. rewrite Hpq, Hrecs in Hflags.
  unfold build_metrics. rewrite Hrr, Hrecs.
  eexists gt, _, _, _, _, _.
  split_and!; try reflexivity; try done.
  - simpl. do 2 f_equal. unfold Py.len. f_equal. symmetry.
    by eapply Forall2_length.
  - apply _safe_mean_mono, of_ints_le.
    eapply Forall_impl; [exact Hflags |]. by intros rec (_ & _ & _ & _ & _ & _ & ? & _).
  - apply _safe_mean_mono, of_ints_le.
    eapply Forall_impl; [exact Hflags |]. by intros rec (_ & _ & _ & _ & _ & _ & _ & ?).
  - intros Hk. apply _safe_mean_mono. clear -Hrows Hk.
    induction Hrows as [| row rec rows recs Hrow _ IH]; [constructor |].
    simpl. constructor; [| done].
    destruct Hrow as (acc & w1 & w2 & acc' & emb & ans & Hok).
    rewrite (ro_hit_at_1 _ _ _ _ _ _ _ _ _ _ Hok).
    by apply reciprocal_rank_between_hits.
  - intros Hk. apply _safe_mean_mono. clear -Hrows Hk.
    induction Hrows as [| row rec rows recs Hrow _ IH]; [constructor |].
    simpl. constructor; [| done].
    destruct Hrow as (acc & w1 & w2 & acc' & emb & ans & Hok).
    rewrite (ro_hit_at_4 _ _ _ _ _ _ _ _ _ _ Hok).
    by apply reciprocal_rank_between_hits.
Qed.

Lemma X16_rates_are_ordered_witness :
  exists hit1 hit4 mrr,
    map metric_value (metrics (report_or_empty (demo_run None))) !! 1%nat = Some hit1
    /\ map metric_value (metrics (report_or_empty (demo_run None))) !! 3%nat = Some hit4
    /\ map metric_value (metrics (report_or_empty (demo_run None))) !! 4%nat = Some mrr
    /\ (hit1 <= mrr)%Q /\ (mrr <= hit4)%Q.
Proof.
  destruct (X16_rates_are_ordered (demo_env None) (py "eval/ground_truth_rag.json")
              (Some demo_ground_truth) 4 (py "persona_professional")
              initial_world (fst (demo_run None)) (report_or_empty (demo_run None)))
    as (gt & total & hit1 & hit3 & hit4 & mrr & _ & _ & H1 & _ & H4 & Hm & _ & _
        & _ & _ & _ & Hlo & Hhi); [by vm_compute |].
  exists hit1, hit4, mrr.
  split_and!; [exact H1 | exact H4 | exact Hm | apply Hlo; lia | apply Hhi; lia].
Defined.

(** ** Latencies *)

From Stdlib Require Import Lqa.

Section RoundFacts.

Lemma round_half_even_mono (x y : Q) :
  (x <= y)%Q -> Num.round_half_even x <= Num.round_half_even y.
Proof.
  intros Hxy. unfold Num.round_half_even.
  pose proof (Qfloor_resp_le _ _ Hxy) as Hf.
  pose proof (Qfloor_le x) as Hx1. pose proof (Qlt_floor x) as Hx2.
  pose proof (Qfloor_le y) as Hy1. pose proof (Qlt_floor y) as Hy2.
  destruct (Z.eq_dec (Qfloor x) (Qfloor y)) as [Heq | Hne].
  - rewrite <- Heq in *.
    destruct (Qcompare_spec (x - inject_Z (Qfloor x)) (1 # 2)) as [Hx | Hx | Hx];
      destruct (Qcompare_spec (y - inject_Z (Qfloor x)) (1 # 2)) as [Hy | Hy | Hy];
      try (destruct (Z.even (Qfloor x))); try lia; exfalso; lra.
  - assert (Qfloor x + 1 <= Qfloor y) by lia.
    destruct (x - inject_Z (Qfloor x) ?= 1 # 2)%Q;
      destruct (y - inject_Z (Qfloor y) ?= 1 # 2)%Q;
      try (destruct (Z.even (Qfloor x))); try (destruct (Z.even (Qfloor y))); lia.
Qed.

(** Rounding keeps the order. *)
Lemma round_mono (x y : Q) (n : Z) :
  (x <= y)%Q -> (Num.round x n <= Num.round y n)%Q.
Proof.
  intros Hxy. unfold Num.round. rewrite !Qred_correct.
  assert (Hp : (0 <= inject_Z (10 ^ n))%Q).
  { change 0%Q with (inject_Z 0). rewrite <- Zle_Qle. apply Z.pow_nonneg. lia. }
  apply Qmult_le_compat_r; [| by apply Qinv_le_0_compat].
  rewrite <- Zle_Qle. apply round_half_even_mono.
  by apply Qmult_le_compat_r.
Qed.

Lemma round_zero (n : Z) : (Num.round 0 n == 0)%Q.
Proof.
  unfold Num.round. rewrite Qred_correct.
  change (0 * inject_Z (10 ^ n))%Q with 0%Q.
  change (Num.round_half_even 0) with 0. unfold Qdiv. by rewrite Qmult_0_l.
Qed.

Lemma round_nonneg (x : Q) (n : Z) : (0 <= x)%Q -> (0 <= Num.round x n)%Q.
Proof. intros Hx. rewrite <- (round_zero n). by apply round_mono. Qed.

Lemma sum_snoc (l : list Q) (x : Q) : (Num.sum (l ++ [x]) == Num.sum l + x)%Q.
Proof.
  rewrite sum_app. unfold Num.sum at 2. simpl. by rewrite Qplus_0_r.
Qed.

End RoundFacts.

(** X15.  When the clock never goes back, every record of a report has
    non-negative retrieval, generation and total latencies, neither the
    retrieval nor the generation latency exceeds the total latency, and the
    average retrieval and generation latencies together do not exceed the
    average total latency. *)
Theorem X15_latencies_with_a_monotone_clock env path file k tid w w' report :
  (forall i j : nat, (i <= j)%nat -> (perf_counter_at env i <= perf_counter_at env j)%Q) ->
  evaluate_and_save env path file k tid w = (w', Ok report) ->
  Forall (fun rec =>
            (0 <= retrieval_latency_ms rec)%Q
            /\ (0 <= generation_latency_ms rec)%Q
            /\ (0 <= total_latency_ms rec)%Q
            /\ (retrieval_latency_ms rec <= total_latency_ms rec)%Q
            /\ (generation_latency_ms rec <= total_latency_ms rec)%Q)
         (per_question report)
  /\ exists avg_retrieval avg_generation avg_total,
       map metric_value (metrics report) !! 8%nat = Some avg_retrieval
       /\ map metric_value (metrics report) !! 10%nat = Some avg_generation
       /\ map metric_value (metrics report) !! 12%nat = Some avg_total
       /\ (0 <= avg_retrieval)%Q /\ (0 <= avg_generation)%Q
       /\ (avg_retrieval + avg_generation <= avg_total)%Q.
Proof.
  intros Hmono Hrun.
  apply evaluate_and_save_ok in Hrun
    as (gt & w0 & w1 & acc & _ & _ & _ & Hloop & Hpq & -> & _).
  pose (I := fun (a : Acc) (_ : World) =>
    Forall (fun rec =>
              (0 <= retrieval_latency_ms rec)%Q
              /\ (0 <= generation_latency_ms rec)%Q
              /\ (0 <= total_latency_ms rec)%Q
              /\ (retrieval_latency_ms rec <= total_latency_ms rec)%Q
              /\ (generation_latency_ms rec <= total_latency_ms rec)%Q)
           (acc_per_question a)
    /\ length (acc_retrieval_latencies a) = length (acc_total_latencies a)
    /\ length (acc_generation_latencies a) = length (acc_total_latencies a)
    /\ (0 <= Num.sum (acc_retrieval_latencies a))%Q
    /\ (0 <= Num.sum (acc_generation_latencies a))%Q
    /\ (Num.sum (acc_retrieval_latencies a) + Num.sum (acc_generation_latencies a)
        <= Num.sum (acc_total_latencies a))%Q).
  assert (HI : I acc w1).
  { eapply (for_each_invariant env k _ I); [| | exact Hloop].
    - intros a row x x' a' (Hrecs & Hl1 & Hl2 & Hr & Hg & Hsum) Hrow.
      unfold I.
      destruct (evaluate_row_clock _ _ _ _ _ _ _ _ Hrow)
        as (rec & -> & _ & _ & -> & -> & -> & Hrr & Hrg & Hrt).
      set (n := clock_reads x) in *.
      pose proof (Hmono n (n + 1)%nat ltac:(lia)).
      pose proof (Hmono (n + 1)%nat (n + 2)%nat ltac:(lia)).
      pose proof (Hmono (n + 2)%nat (n + 3)%nat ltac:(lia)).
      pose proof (Hmono (n + 3)%nat (n + 4)%nat ltac:(lia)).
      pose proof (Hmono (n + 4)%nat (n + 5)%nat ltac:(lia)).
      rewrite !length_app, !sum_snoc. simpl length.
      split_and!; [| lia | lia | lra | lra | lra].
      apply Forall_app. split; [done |]. constructor; [| done].
      rewrite Hrr, Hrg, Hrt.
      split_and!; try (apply round_nonneg; lra); apply round_mono; lra.
    - unfold I. simpl. split_and!; done. }
  destruct HI as (Hrecs & Hl1 & Hl2 & Hr & Hg & Hsum).
  split; [by rewrite Hpq |].
  unfold build_metrics. eexists _, _, _.
  split_and!; try reflexivity; unfold _metric; cbn [metric_value].
  - destruct (acc_retrieval_latencies acc) as [| v vs] eqn:E; [done |].
    rewrite _safe_mean_cons. apply Qle_shift_div_l; [| lra].
    change 0%Q with (inject_Z 0). rewrite <- Zlt_Qlt. unfold Py.len. simpl. lia.
  - destruct (acc_generation_latencies acc) as [| v vs] eqn:E; [done |].
    rewrite _safe_mean_cons. apply Qle_shift_div_l; [| lra].
    change 0%Q with (inject_Z 0). rewrite <- Zlt_Qlt. unfold Py.len. simpl. lia.
  - destruct (acc_total_latencies acc) as [| t ts] eqn:Et.
    + destruct (acc_retrieval_latencies acc); [| done].
      destruct (acc_generation_latencies acc); done.
    + destruct (acc_retrieval_latencies acc) as [| r rs] eqn:Er; [done |].
      destruct (acc_generation_latencies acc) as [| g gs] eqn:Eg; [done |].
      rewrite !_safe_mean_cons. unfold Py.len. rewrite Hl1, Hl2.
      set (n := inject_Z (Z.of_nat (length (t :: ts)))).
      assert (Hn : (0 < n)%Q).
      { unfold n. change 0%Q with (inject_Z 0). rewrite <- Zlt_Qlt. simpl. lia. }
      unfold Qdiv. rewrite <- Qmult_plus_distr_l.
      apply Qmult_le_compat_r; [done |].
      apply Qinv_le_0_compat. lra.
Qed.

Lemma X15_latencies_with_a_monotone_clock_witness :
  Forall (fun rec =>
            (0 <= retrieval_latency_ms rec)%Q
            /\ (0 <= generation_latency_ms rec)%Q
            /\ (0 <= total_latency_ms rec)%Q
            /\ (retrieval_latency_ms rec <= total_latency_ms rec)%Q
            /\ (generation_latency_ms rec <= total_latency_ms rec)%Q)
         (per_question (report_or_empty (demo_run None))).
Proof.
  apply (X15_latencies_with_a_monotone_clock (demo_env None)
           (py "eval/ground_truth_rag.json") (Some demo_ground_truth) 4
           (py "persona_professional") initial_world (fst (demo_run None))).
  - intros i j Hij. unfold Qle. simpl. lia.
  - by vm_compute.
Defined.

(** ** Generation: [RAGService.generate_answer] *)

Lemma join_infix (sep : pystr) (parts : list pystr) (p : pystr) :
  p ∈ parts -> exists pre post, Py.join sep parts = pre ++ p ++ post.
Proof.
  induction parts as [| q parts IH]; intros Hp; [by apply elem_of_nil in Hp |].
  apply elem_of_cons in Hp as [-> | Hp].
  - destruct parts as [| r parts]; simpl.
    + exists [], []. by rewrite app_nil_r.
    + by exists [], (sep ++ Py.join sep (r :: parts)).
  - destruct (IH Hp) as (pre & post & Heq).
    destruct parts as [| r parts]; [by apply elem_of_nil in Hp |].
    exists (q ++ sep ++ pre), post.
    change (Py.join sep (q :: r :: parts)) with (q ++ sep ++ Py.join sep (r :: parts)).
    rewrite Heq. by rewrite <- !app_assoc.
Qed.

Lemma messages_copy (history : list Message) :
  map (fun msg => {| role := role msg; content := content msg |}) history = history.
Proof.
  induction history as [| [r c] history IH]; [done |]. simpl. by rewrite IH.
Qed.

(** The request [generate_answer] sends and what it returns. *)
Lemma generate_answer_spec
    env user_message context_chunks history prompt_template w :
  exists system_text user_text,
    let messages :=
      {| role := py "system"; content := system_text |}
      :: history ++ [{| role := py "user"; content := user_text |}] in
    let w' :=
      {| clock_reads := clock_reads w; embed_calls := embed_calls w;
         chat_calls := chat_calls w ++ [messages];
         stored_messages := stored_messages w; output_file := output_file w |} in
    (exists rest,
        system_text = RAGService.base_system_prompt ++ rest
        /\ (rest = [] <-> opt_truthy prompt_template = false)
        /\ (forall t, prompt_template = Some t -> t <> [] ->
              exists mid, rest = mid ++ t))
    /\ (exists pre, user_text = pre ++ user_message)
    /\ (forall chunk, chunk ∈ context_chunks ->
          exists pre post,
            user_text
            = pre ++ (py "Source: " ++ source chunk ++ nl ++ chunk_text chunk) ++ post)
    /\ (context_chunks = [] ->
          exists pre post, user_text = pre ++ py "No relevant context found." ++ post)
    /\ match chat_completions_create env (length (chat_calls w)) messages with
       | Ok response =>
           exists text,
             RAGService.generate_answer env user_message context_chunks history
               prompt_template w = (w', Ok text)
             /\ text <> []
             /\ (forall t, response = Some t -> t <> [] -> text = t)
             /\ (response = None \/ response = Some [] ->
                 text = py "I could not generate a response.")
       | Raise e =>
           RAGService.generate_answer env user_message context_chunks history
             prompt_template w = (w', Raise e)
       end.
Proof.
  unfold RAGService.generate_answer, bind, RAGService.chat_create, ret.
  rewrite messages_copy.
  set (context := Py.join (nl ++ nl) _).
  set (system_text := match prompt_template with Some _ => _ | None => _ end).
  set (user_text := (py "Context:" ++ _)).
  exists system_text, user_text. cbn zeta.
  change ([{| role := py "system"; content := system_text |}]
          ++ history ++ [{| role := py "user"; content := user_text |}])
    with ({| role := py "system"; content := system_text |}
          :: history ++ [{| role := py "user"; content := user_text |}]).
  split_and!.
  - unfold system_text. destruct prompt_template as [t |]; cbn [opt_truthy].
    + destruct (Py.truthy t) eqn:Ht.
      * exists (nl ++ nl ++ py "Prompt template:" ++ nl ++ t).
        split_and!; [done | split; [by destruct t | done] |].
        intros t' [= <-] _. exists (nl ++ nl ++ py "Prompt template:" ++ nl).
        by rewrite <- !app_assoc.
      * exists []. split_and!; [by rewrite app_nil_r | done |].
        intros t' [= <-] Hne. by destruct t.
    + exists []. split_and!; [by rewrite app_nil_r | done | done].
  - unfold user_text. eexists. by rewrite !app_assoc.
  - intros chunk Hin.
    assert (Hctx : exists pre post,
               context
               = pre ++ (py "Source: " ++ source chunk ++ nl ++ chunk_text chunk) ++ post).
    { apply join_infix. apply list_elem_of_fmap. eauto. }
    destruct Hctx as (pre & post & Hctx).
    assert (Py.truthy context = true) as Htruthy by (rewrite Hctx; by destruct pre).
    unfold user_text. rewrite Htruthy, Hctx.
    eexists (py "Context:" ++ nl ++ pre), _. by rewrite <- !app_assoc.
  - intros ->. unfold user_text, context. simpl Py.join. simpl Py.truthy.
    eexists (py "Context:" ++ nl), _. by rewrite <- !app_assoc.
  - destruct (chat_completions_create env _ _) as [response | e]; [| done].
    eexists. split; [reflexivity |].
    destruct response as [[| c t] |];
      (split_and!;
       [ done
       | intros t' Ht' Hne; first [by injection Ht' as <- | done]
       | intros [H | H]; first [done | discriminate H] ]).
Qed.

(** X18.  [generate_answer] makes exactly one generation call.  The
    messages it sends are: one system message whose text starts with the
    fixed instruction (followed by the persona template only when there is
    a non-empty one), then the history unchanged and in order, then one user
    message that holds every retrieved chunk under its ["Source: "] label
    and ends with the question.  When the provider returns a non-empty text
    that text is the answer; when it returns nothing or an empty text the
    answer is "I could not generate a response."; so the answer is never
    empty.  When the provider raises, the exception is passed on. *)
Theorem X18_generate_answer_request_and_result
    env user_message context_chunks history prompt_template w :
  exists system_text user_text,
    let messages :=
      {| role := py "system"; content := system_text |}
      :: history ++ [{| role := py "user"; content := user_text |}] in
    let w' :=
      {| clock_reads := clock_reads w; embed_calls := embed_calls w;
         chat_calls := chat_calls w ++ [messages];
         stored_messages := stored_messages w; output_file := output_file w |} in
    (exists rest,
        system_text = RAGService.base_system_prompt ++ rest
        /\ (rest = [] <-> opt_truthy prompt_template = false)
        /\ (forall t, prompt_template = Some t -> t <> [] ->
              exists mid, rest = mid ++ t))
    /\ (exists pre, user_text = pre ++ user_message)
    /\ (forall chunk, chunk ∈ context_chunks ->
          exists pre post,
            user_text
            = pre ++ (py "Source: " ++ source chunk ++ nl ++ chunk_text chunk) ++ post)
    /\ (context_chunks = [] ->
          exists pre post, user_text = pre ++ py "No relevant context found." ++ post)
    /\ match chat_completions_create env (length (chat_calls w)) messages with
       | Ok response =>
           exists text,
             RAGService.generate_answer env user_message context_chunks history
               prompt_template w = (w', Ok text)
             /\ text <> []
             /\ (forall t, response = Some t -> t <> [] -> text = t)
             /\ (response = None \/ response = Some [] ->
                 text = py "I could not generate a response.")
       | Raise e =>
           RAGService.generate_answer env user_message context_chunks history
             prompt_template w = (w', Raise e)
       end.
Proof. apply generate_answer_spec. Qed.

(** ** The chat endpoint: [send_message] *)

Section SendFacts.

(** [l[:-1]] of a list that ends with [x] is the list before [x]. *)
Lemma slice_all_but_last {A} (l : list A) (x : A) :
  Py.slice (l ++ [x]) 0 (-1) = l.
Proof.
  unfold Py.slice, Py.clip, Py.len. rewrite length_app. simpl length.
  destruct (Z.ltb_spec 0 0) as [? | _]; [lia |].
  destruct (Z.ltb_spec (-1) 0) as [_ | ?]; [| lia].
  replace (Z.min 0 (Z.of_nat (length l + 1))) with 0 by lia.
  replace (Z.to_nat (Z.max 0 (-1 + Z.of_nat (length l + 1)) - 0)) with (length l) by lia.
  change (Z.to_nat 0) with 0%nat. rewrite drop_0. apply take_app_length.
Qed.

Lemma str_leb_total (a b : pystr) : str_leb a b = true \/ str_leb b a = true.
Proof.
  revert b. induction a as [| x a IH]; intros [| y b]; simpl; auto.
  destruct (Nat.ltb_spec (nat_of_ascii x) (nat_of_ascii y)); [auto |].
  destruct (Nat.ltb_spec (nat_of_ascii y) (nat_of_ascii x)); [auto |].
  destruct (Nat.eqb_spec (nat_of_ascii x) (nat_of_ascii y)) as [E | E]; [| lia].
  rewrite E, Nat.eqb_refl. apply IH.
Qed.

Lemma str_le_total : Total str_le.
Proof.
  intros a b. unfold str_le.
  destruct (str_leb_total a b) as [H | H]; rewrite H; simpl; auto.
Qed.

(** The sources shown with an answer: sorted, without duplicates, and
    exactly the sources of the chunks. *)
Lemma sorted_sources_spec (chunks : list Chunk) :
  Sorted str_le (sorted_sources chunks)
  /\ NoDup (sorted_sources chunks)
  /\ (forall s, s ∈ sorted_sources chunks <-> exists ch, ch ∈ chunks /\ source ch = s)
  /\ (chunks = [] -> sorted_sources chunks = []).
Proof.
  pose proof str_le_total. unfold sorted_sources.
  set (l := elements (list_to_set (map source chunks) : gset pystr)).
  assert (Hperm : Permutation (merge_sort str_le l) l) by apply merge_sort_Permutation.
  split_and!.
  - by apply Sorted_merge_sort.
  - rewrite Hperm. apply NoDup_elements.
  - intros s. rewrite Hperm. unfold l.
    rewrite elem_of_elements, elem_of_list_to_set, list_elem_of_fmap.
    split; intros (ch & H1 & H2); eauto.
  - intros ->. reflexivity.
Qed.

End SendFacts.

(** X19.  A request that is rejected has no effect: with an empty (or
    blank, or missing) message the handler raises HTTP 400, without a
    configured generation service HTTP 500, and for a chat that does not
    exist or belongs to someone else HTTP 404; in each case nothing is
    stored and no provider is called. *)
Theorem X19_send_message_rejections env user_id message tid ready chat_owner w :
  let user_message := Py.strip (or_empty message) in
  (user_message = [] ->
   send_message env user_id message tid ready chat_owner w
   = (w, Raise (HTTPException 400 (py "Message cannot be empty"))))
  /\ (user_message <> [] -> ready = false ->
      send_message env user_id message tid ready chat_owner w
      = (w, Raise (HTTPException 500 (py "OPENAI_API_KEY is not configured"))))
  /\ (user_message <> [] -> ready = true -> chat_owner <> Some user_id ->
      send_message env user_id message tid ready chat_owner w
      = (w, Raise (HTTPException 404 (py "Chat not found")))).
Proof.
  intros user_message. unfold send_message. fold user_message.
  split_and!.
  - by intros ->.
  - intros Hne ->. by rewrite truthy_true.
  - intros Hne -> Howner. rewrite truthy_true by done. simpl.
    by rewrite bool_decide_eq_false_2.
Qed.

Lemma X19_send_message_rejections_witness :
  send_message (demo_env None) (py "u1") (Some (py "   ")) None true
    (Some (py "u1")) initial_world
  = (initial_world, Raise (HTTPException 400 (py "Message cannot be empty"))).
Proof.
  destruct (X19_send_message_rejections (demo_env None) (py "u1") (Some (py "   "))
              None true (Some (py "u1")) initial_world) as (H400 & _).
  apply H400. reflexivity.
Defined.

(** X20.  A request that passes the checks, whose embedding call and
    generation call (if one is made) succeed, is answered: the user's
    trimmed message is stored first and the assistant's answer after it,
    with the sources shown; exactly one embedding call is made, on the
    trimmed message; the answer is not empty; the sources are sorted, have
    no duplicate and are exactly the sources of the retrieved chunks; and
    when a generation call is made, the history it carries is the chat as
    it was before this request, the new message coming only last. *)
Theorem X20_send_message_answers env user_id message tid w emb :
  let user_message := Py.strip (or_empty message) in
  let chunks := RAGService.find_relevant_chunks env emb in
  user_message <> [] ->
  embeddings_create env (length (embed_calls w)) user_message = Ok emb ->
  (forall messages,
     exists r, chat_completions_create env (length (chat_calls w)) messages = Ok r) ->
  exists w' text,
    send_message env user_id message tid true (Some user_id) w
    = (w', Ok ({| role := py "user"; content := user_message |},
               {| am_role := py "assistant"; am_content := text;
                  am_sources := sorted_sources chunks |}))
    /\ text <> []
    /\ stored_messages w'
       = stored_messages w
         ++ [ {| sm_role := py "user"; sm_content := user_message; sm_sources := [] |};
              {| sm_role := py "assistant"; sm_content := text;
                 sm_sources := sorted_sources chunks |} ]
    /\ embed_calls w' = embed_calls w ++ [user_message]
    /\ (Sorted str_le (sorted_sources chunks)
        /\ NoDup (sorted_sources chunks)
        /\ forall s, s ∈ sorted_sources chunks
                     <-> exists ch, ch ∈ chunks /\ source ch = s)
    /\ (chunks = [] -> chat_calls w' = chat_calls w)
    /\ (chunks <> [] ->
        exists system_text user_text,
          chat_calls w'
          = chat_calls w
            ++ [ {| role := py "system"; content := system_text |}
                 :: map (fun m => {| role := sm_role m; content := sm_content m |})
                        (stored_messages w)
                 ++ [{| role := py "user"; content := user_text |}] ]).
Proof.
  intros user_message chunks Hne Hemb Hgen.
  unfold send_message. fold user_message.
  rewrite truthy_true by done.
  rewrite bool_decide_eq_true_2 by done.
  unfold bind, add_message, list_messages, RAGService.embed_text.
  cbn [negb stored_messages clock_reads embed_calls chat_calls output_file].
  rewrite slice_all_but_last, Hemb. fold chunks.
  destruct (sorted_sources_spec chunks) as (Hsorted & Hnodup & Hmem & Hnil).
  destruct chunks as [| ch chs] eqn:Ech.
  - unfold ret.
    cbn [stored_messages clock_reads embed_calls chat_calls output_file].
    eexists _, _. split_and!; try reflexivity; try done.
    by rewrite <- app_assoc.
  - pose proof (generate_answer_spec env user_message (ch :: chs)
                  (map (fun m => {| role := sm_role m; content := sm_content m |})
                       (stored_messages w))
                  (template_text
                     (get_prompt_template
                        (let t := Py.strip (or_empty tid) in
                         if Py.truthy t then Some t else None)))
                  {| clock_reads := clock_reads w;
                     embed_calls := embed_calls w ++ [user_message];
                     chat_calls := chat_calls w;
                     stored_messages :=
                       stored_messages w
                       ++ [{| sm_role := py "user"; sm_content := user_message;
                              sm_sources := [] |}];
                     output_file := output_file w |})
      as (system_text & user_text & _ & _ & _ & _ & Hcall).
    cbn [stored_messages clock_reads embed_calls chat_calls output_file] in Hcall.
    cbn zeta in Hcall.
    destruct (Hgen ({| role := py "system"; content := system_text |}
                    :: map (fun m => {| role := sm_role m; content := sm_content m |})
                           (stored_messages w)
                    ++ [{| role := py "user"; content := user_text |}]))
      as [r Hr].
    rewrite Hr in Hcall. destruct Hcall as (text & Hrun & Htext & _).
    rewrite Hrun. unfold ret.
    cbn [stored_messages clock_reads embed_calls chat_calls output_file].
    eexists _, text. split_and!; try reflexivity; try done.
    + by rewrite <- app_assoc.
    + intros _. by exists system_text, user_text.
Qed.

Lemma X20_send_message_answers_witness :
  exists w' text,
    send_message (demo_env None) (py "u1") (Some (py " What is the refund window? "))
      (Some (py "persona_empathetic")) true (Some (py "u1")) initial_world
    = (w', Ok ({| role := py "user"; content := py "What is the refund window?" |},
               {| am_role := py "assistant"; am_content := text;
                  am_sources := [py "data/policy.pdf"] |}))
    /\ text <> [].
Proof.
  destruct (X20_send_message_answers (demo_env None) (py "u1")
              (Some (py " What is the refund window? "))
              (Some (py "persona_empathetic")) initial_world [26%Q])
    as (w' & text & Hrun & Htext & _).
  - by vm_compute.
  - reflexivity.
  - intros messages. eexists. reflexivity.
  - exists w', text. split; [exact Hrun | exact Htext].
Defined.

(** X21.  When a provider fails after the checks have passed, the
    exception is passed on and the chat is left with the user's message
    stored but no answer to it: this holds when the embedding call fails
    (no generation call is made), and when something is retrieved and the
    generation call fails. *)
Theorem X21_send_message_provider_failure env user_id message tid w e :
  let user_message := Py.strip (or_empty message) in
  let stored :=
    stored_messages w
    ++ [{| sm_role := py "user"; sm_content := user_message; sm_sources := [] |}] in
  user_message <> [] ->
  (embeddings_create env (length (embed_calls w)) user_message = Raise e ->
   exists w',
     send_message env user_id message tid true (Some user_id) w = (w', Raise e)
     /\ stored_messages w' = stored
     /\ chat_calls w' = chat_calls w)
  /\ (forall emb,
        embeddings_create env (length (embed_calls w)) user_message = Ok emb ->
        RAGService.find_relevant_chunks env emb <> [] ->
        (forall messages,
           chat_completions_create env (length (chat_calls w)) messages = Raise e) ->
        exists w',
          send_message env user_id message tid true (Some user_id) w = (w', Raise e)
          /\ stored_messages w' = stored
          /\ length (chat_calls w') = S (length (chat_calls w))).
Proof.
  intros user_message stored Hne.
  unfold send_message. fold user_message.
  rewrite truthy_true by done.
  rewrite bool_decide_eq_true_2 by done.
  unfold bind, add_message, list_messages, RAGService.embed_text.
  cbn [negb stored_messages clock_reads embed_calls chat_calls output_file].
  rewrite slice_all_but_last.
  split.
  - intros ->. eexists. split_and!; reflexivity.
  - intros emb -> Hch Hgen.
    destruct (RAGService.find_relevant_chunks env emb) as [| ch chs] eqn:Ech; [done |].
    match goal with
    | |- context [RAGService.generate_answer env ?q ?cs ?h ?t ?x] =>
        pose proof (generate_answer_spec env q cs h t x)
          as (system_text & user_text & _ & _ & _ & _ & Hcall)
    end.
    cbn [stored_messages clock_reads embed_calls chat_calls output_file] in Hcall.
    cbn zeta in Hcall. rewrite Hgen in Hcall. rewrite Hcall.
    eexists. split_and!; try reflexivity.
    cbn [chat_calls]. rewrite length_app. simpl. lia.
Qed.

Lemma X21_send_message_provider_failure_witness :
  exists w',
    send_message (demo_env (Some 0%nat)) (py "u1") (Some (py "Refund?")) None true
      (Some (py "u1")) initial_world
    = (w', Raise (ProviderError (py "generation backend unavailable")))
    /\ stored_messages w'
       = [{| sm_role := py "user"; sm_content := py "Refund?"; sm_sources := [] |}].
Proof.
  destruct (X21_send_message_provider_failure (demo_env (Some 0%nat)) (py "u1")
              (Some (py "Refund?")) None initial_world
              (ProviderError (py "generation backend unavailable")))
    as (_ & Hgen); [by vm_compute |].
  destruct (Hgen [7%Q]) as (w' & Hrun & Hstored & _).
  - reflexivity.
  - by vm_compute.
  - intros messages. reflexivity.
  - exists w'. split; [exact Hrun | exact Hstored].
Defined.
